(** * Salary-cap and contract lifecycle engine of football-gm

    A shallow embedding of [app/services/salary_cap_service.py] and
    [app/services/contract_service.py], over the [Contract] and [Player]
    rows of [app/database/models.py].

    Conventions of the embedding.
    - A Python [int] is a [Z]; a Python [float] is a binary64 [float].  A
      value that may be either (a salary, a cap hit) is a [num].
    - A raised exception is the [Raise] case of [res]; a returned
      [{"error": ...}] dictionary is the [Failure] case of [outcome].
    - A [Contract] object that a method mutates is threaded through as
      explicit state: the method returns the object as it is when the
      method returns or raises.
    - A [Contract] record shows a row: every column holds a value, a
      column with no default may hold [None].  An attribute that a
      [Contract(...)] call leaves out is [None] on the object until the row
      is inserted, and the column default ([default=0], [default=False]) in
      the row.  Where the code reads such an attribute before the insert
      ([signing_bonus] in [calculate_contract_cap_hits]) the embedding
      carries the attribute beside the record.
    - The database session is a [Ledger]: the player rows and the contract
      rows in insertion order, as SQLite (the engine of
      [app/database/connection.py]) gives them back.  [commit] keeps the new
      ledger; a raised exception leaves the ledger as it was. *)

From Stdlib Require Import ZArith List String Bool Lia Floats Permutation Sorted.
Import ListNotations.

Set Warnings "-inexact-float".
Local Open Scope Z_scope.

(** ** Exceptions and results *)

Inductive exn : Type :=
| ZeroDivisionError
| OverflowError
| ValueError
| KeyError
| TypeError.

Inductive res (A : Type) : Type :=
| Ret (a : A)
| Raise (e : exn).

Arguments Ret {A} a.
Arguments Raise {A} e.

Definition bind {A B : Type} (m : res A) (k : A -> res B) : res B :=
  match m with
  | Ret a => k a
  | Raise e => Raise e
  end.

Notation "x <- m ;; k" := (bind m (fun x => k))
  (at level 61, m at next level, right associativity).

(** A returned dictionary: [{"success": True, ...}] or [{"error": msg}]
    (or, for a rejected offer, [{"success": False, ...}]). *)
Inductive outcome (P : Type) : Type :=
| Success (p : P)
| Failure (msg : string).

Arguments Success {P} p.
Arguments Failure {P} msg.

(** ** Python numbers *)

Inductive num : Type :=
| PyInt (z : Z)
| PyFloat (f : float).

(** [float(z)]: the nearest binary64 value, ties to even.  Python raises
    [OverflowError] when that value is not finite, which is from
    [2^1024 - 2^970] on: halfway between the largest float and [2^1024]. *)
Definition float_overflow : Z := 2 ^ 1024 - 2 ^ 970.

Definition nearest_float (z : Z) : float :=
  SF2Prim (binary_normalize prec emax z 0 false).

Definition to_float (z : Z) : res float :=
  if Z.abs z <? float_overflow then Ret (nearest_float z) else Raise OverflowError.

Definition num_float (n : num) : res float :=
  match n with
  | PyInt z => to_float z
  | PyFloat f => Ret f
  end.

(** [a + b], [a - b], [a * b]: exact on two ints, binary64 otherwise. *)
Definition num_add (a b : num) : res num :=
  match a, b with
  | PyInt x, PyInt y => Ret (PyInt (x + y))
  | _, _ => x <- num_float a ;; y <- num_float b ;; Ret (PyFloat (x + y))
  end.

Definition num_sub (a b : num) : res num :=
  match a, b with
  | PyInt x, PyInt y => Ret (PyInt (x - y))
  | _, _ => x <- num_float a ;; y <- num_float b ;; Ret (PyFloat (x - y))
  end.

Definition num_mul (a b : num) : res num :=
  match a, b with
  | PyInt x, PyInt y => Ret (PyInt (x * y))
  | _, _ => x <- num_float a ;; y <- num_float b ;; Ret (PyFloat (x * y))
  end.

(** An int as a binary number with an unbounded mantissa. *)
Definition Z2SF (z : Z) : spec_float :=
  match z with
  | Z0 => S754_zero false
  | Zpos p => S754_finite false p 0
  | Zneg p => S754_finite true p 0
  end.

(** [a / b] (true division): always a float; a zero divisor raises.  The
    quotient of two ints is the float nearest to the exact quotient (ties to
    even), whatever the size of the ints; Python raises [OverflowError] when
    that float is not finite, which is when [|a / b| >= 2^1024 - 2^970]. *)
Definition int_truediv (a b : Z) : res float :=
  if b =? 0 then Raise ZeroDivisionError
  else if Z.abs a <? float_overflow * Z.abs b
       then Ret (SF2Prim (SFdiv prec emax (Z2SF a) (Z2SF b)))
       else Raise OverflowError.

Definition num_truediv (a b : num) : res float :=
  match a, b with
  | PyInt x, PyInt y => int_truediv x y
  | _, _ =>
      x <- num_float a ;;
      y <- num_float b ;;
      if PrimFloat.is_zero y then Raise ZeroDivisionError else Ret (x / y)%float
  end.

(** [a // b] on ints: floor division; a zero divisor raises. *)
Definition int_floordiv (a b : Z) : res Z :=
  if b =? 0 then Raise ZeroDivisionError else Ret (a / b).

(** [a < b] and [a > b].  An int and a float are compared by their exact
    values, without rounding the int: a finite float is [v * 2^e] for an
    integer [v], and nothing is below or above a NaN. *)
Definition int_lt_float (x : Z) (f : float) : bool :=
  match Prim2SF f with
  | S754_nan => false
  | S754_infinity s => negb s
  | S754_zero _ => x <? 0
  | S754_finite s m e =>
      let v := if s then Z.neg m else Z.pos m in
      if 0 <=? e then x <? v * 2 ^ e else x * 2 ^ (- e) <? v
  end.

Definition float_lt_int (f : float) (y : Z) : bool :=
  match Prim2SF f with
  | S754_nan => false
  | S754_infinity s => s
  | S754_zero _ => 0 <? y
  | S754_finite s m e =>
      let v := if s then Z.neg m else Z.pos m in
      if 0 <=? e then v * 2 ^ e <? y else v <? y * 2 ^ (- e)
  end.

Definition num_ltb (a b : num) : bool :=
  match a, b with
  | PyInt x, PyInt y => x <? y
  | PyInt x, PyFloat g => int_lt_float x g
  | PyFloat f, PyInt y => float_lt_int f y
  | PyFloat f, PyFloat g => (f <? g)%float
  end.

Definition num_gtb (a b : num) : bool := num_ltb b a.

(** Truth value of a number: [0] and [0.0] are false. *)
Definition num_truthy (n : num) : bool :=
  match n with
  | PyInt z => negb (z =? 0)
  | PyFloat f => negb (PrimFloat.is_zero f)
  end.

(** [int(f)]: truncation toward zero; [OverflowError] on an infinity,
    [ValueError] on a NaN. *)
Definition float_to_int (f : float) : res Z :=
  match Prim2SF f with
  | S754_nan => Raise ValueError
  | S754_infinity _ => Raise OverflowError
  | S754_zero _ => Ret 0
  | S754_finite s m e =>
      let a := match e with
               | Zneg k => Z.shiftr (Zpos m) (Zpos k)
               | _ => Z.shiftl (Zpos m) e
               end in
      Ret (if s then - a else a)
  end.

(** [max(a, b)] and [min(a, b)] of the interpreter, on floats: the first
    argument unless the second is strictly greater (smaller). *)
Definition py_max (a b : float) : float := if (a <? b)%float then b else a.
Definition py_min (a b : float) : float := if (b <? a)%float then b else a.

(** ** Rows of the database ([app/database/models.py]) *)

(** A [datetime] value, kept symbolic: no operation computes on dates. *)
Inductive datetime : Type :=
| DateTime (year month day : Z)          (* datetime(year, month, day) *)
| Clock (t : Z)                          (* a reading of datetime.now() *)
| PlusDays (d : datetime) (days : Z).    (* d + timedelta(days=days) *)

(** [datetime(year, month, day)] for the first of March: the constructor
    raises [OverflowError] for a year that is no C [int] and [ValueError]
    for another year outside 1..9999. *)
Definition march_first (year : Z) : res datetime :=
  if (- 2 ^ 31 <=? year) && (year <? 2 ^ 31) then
    if (1 <=? year) && (year <=? 9999) then Ret (DateTime year 3 1)
    else Raise ValueError
  else Raise OverflowError.

(** The columns of [Player] that the contract engine reads. *)
Record Player : Type := mkPlayer {
  p_id : Z;
  position : string;
  age : Z;
  years_pro : Z;
  p_team_id : option Z;
  overall_rating : Z;
  work_ethic : Z
}.

Record Contract : Type := mkContract {
  id : option Z;
  player_id : Z;
  team_id : Z;
  total_value : Z;
  guaranteed_money : Z;
  years : Z;
  year_1_salary : num;
  year_2_salary : num;
  year_3_salary : num;
  year_4_salary : num;
  year_5_salary : num;
  year_1_cap_hit : num;
  year_2_cap_hit : num;
  year_3_cap_hit : num;
  year_4_cap_hit : num;
  year_5_cap_hit : num;
  signing_bonus : Z;
  roster_bonus : Z;
  workout_bonus : Z;
  performance_bonus : Z;
  is_rookie_contract : bool;
  rookie_scale_year : option Z;
  contract_type : string;
  is_active : bool;
  start_date : datetime;
  end_date : datetime;
  created_at : option datetime;
  dead_money_year_1 : Z;
  dead_money_year_2 : Z;
  dead_money_year_3 : Z;
  dead_money_year_4 : Z;
  dead_money_year_5 : Z
}.

(** Field updates ([setattr] and attribute assignment). *)
Definition set_year_1_salary (v : num) (c : Contract) : Contract :=
  mkContract (id c) (player_id c) (team_id c) (total_value c) (guaranteed_money c) (years c)
    v (year_2_salary c) (year_3_salary c) (year_4_salary c) (year_5_salary c)
    (year_1_cap_hit c) (year_2_cap_hit c) (year_3_cap_hit c) (year_4_cap_hit c) (year_5_cap_hit c)
    (signing_bonus c) (roster_bonus c) (workout_bonus c) (performance_bonus c)
    (is_rookie_contract c) (rookie_scale_year c) (contract_type c) (is_active c)
    (start_date c) (end_date c) (created_at c)
    (dead_money_year_1 c) (dead_money_year_2 c) (dead_money_year_3 c)
    (dead_money_year_4 c) (dead_money_year_5 c).

Definition set_signing_bonus (v : Z) (c : Contract) : Contract :=
  mkContract (id c) (player_id c) (team_id c) (total_value c) (guaranteed_money c) (years c)
    (year_1_salary c) (year_2_salary c) (year_3_salary c) (year_4_salary c) (year_5_salary c)
    (year_1_cap_hit c) (year_2_cap_hit c) (year_3_cap_hit c) (year_4_cap_hit c) (year_5_cap_hit c)
    v (roster_bonus c) (workout_bonus c) (performance_bonus c)
    (is_rookie_contract c) (rookie_scale_year c) (contract_type c) (is_active c)
    (start_date c) (end_date c) (created_at c)
    (dead_money_year_1 c) (dead_money_year_2 c) (dead_money_year_3 c)
    (dead_money_year_4 c) (dead_money_year_5 c).

Definition set_is_active (v : bool) (c : Contract) : Contract :=
  mkContract (id c) (player_id c) (team_id c) (total_value c) (guaranteed_money c) (years c)
    (year_1_salary c) (year_2_salary c) (year_3_salary c) (year_4_salary c) (year_5_salary c)
    (year_1_cap_hit c) (year_2_cap_hit c) (year_3_cap_hit c) (year_4_cap_hit c) (year_5_cap_hit c)
    (signing_bonus c) (roster_bonus c) (workout_bonus c) (performance_bonus c)
    (is_rookie_contract c) (rookie_scale_year c) (contract_type c) v
    (start_date c) (end_date c) (created_at c)
    (dead_money_year_1 c) (dead_money_year_2 c) (dead_money_year_3 c)
    (dead_money_year_4 c) (dead_money_year_5 c).

Definition set_dead_money_year_1 (v : Z) (c : Contract) : Contract :=
  mkContract (id c) (player_id c) (team_id c) (total_value c) (guaranteed_money c) (years c)
    (year_1_salary c) (year_2_salary c) (year_3_salary c) (year_4_salary c) (year_5_salary c)
    (year_1_cap_hit c) (year_2_cap_hit c) (year_3_cap_hit c) (year_4_cap_hit c) (year_5_cap_hit c)
    (signing_bonus c) (roster_bonus c) (workout_bonus c) (performance_bonus c)
    (is_rookie_contract c) (rookie_scale_year c) (contract_type c) (is_active c)
    (start_date c) (end_date c) (created_at c)
    v (dead_money_year_2 c) (dead_money_year_3 c)
    (dead_money_year_4 c) (dead_money_year_5 c).

Definition set_dead_money_year_2 (v : Z) (c : Contract) : Contract :=
  mkContract (id c) (player_id c) (team_id c) (total_value c) (guaranteed_money c) (years c)
    (year_1_salary c) (year_2_salary c) (year_3_salary c) (year_4_salary c) (year_5_salary c)
    (year_1_cap_hit c) (year_2_cap_hit c) (year_3_cap_hit c) (year_4_cap_hit c) (year_5_cap_hit c)
    (signing_bonus c) (roster_bonus c) (workout_bonus c) (performance_bonus c)
    (is_rookie_contract c) (rookie_scale_year c) (contract_type c) (is_active c)
    (start_date c) (end_date c) (created_at c)
    (dead_money_year_1 c) v (dead_money_year_3 c)
    (dead_money_year_4 c) (dead_money_year_5 c).

Definition set_id (v : option Z) (c : Contract) : Contract :=
  mkContract v (player_id c) (team_id c) (total_value c) (guaranteed_money c) (years c)
    (year_1_salary c) (year_2_salary c) (year_3_salary c) (year_4_salary c) (year_5_salary c)
    (year_1_cap_hit c) (year_2_cap_hit c) (year_3_cap_hit c) (year_4_cap_hit c) (year_5_cap_hit c)
    (signing_bonus c) (roster_bonus c) (workout_bonus c) (performance_bonus c)
    (is_rookie_contract c) (rookie_scale_year c) (contract_type c) (is_active c)
    (start_date c) (end_date c) (created_at c)
    (dead_money_year_1 c) (dead_money_year_2 c) (dead_money_year_3 c)
    (dead_money_year_4 c) (dead_money_year_5 c).

Definition set_created_at (v : option datetime) (c : Contract) : Contract :=
  mkContract (id c) (player_id c) (team_id c) (total_value c) (guaranteed_money c) (years c)
    (year_1_salary c) (year_2_salary c) (year_3_salary c) (year_4_salary c) (year_5_salary c)
    (year_1_cap_hit c) (year_2_cap_hit c) (year_3_cap_hit c) (year_4_cap_hit c) (year_5_cap_hit c)
    (signing_bonus c) (roster_bonus c) (workout_bonus c) (performance_bonus c)
    (is_rookie_contract c) (rookie_scale_year c) (contract_type c) (is_active c)
    (start_date c) (end_date c) v
    (dead_money_year_1 c) (dead_money_year_2 c) (dead_money_year_3 c)
    (dead_money_year_4 c) (dead_money_year_5 c).

(** [setattr(contract, f"year_{i}_cap_hit", v)] for [i] in 1..5. *)
Definition set_cap_hit (i : Z) (v : num) (c : Contract) : Contract :=
  mkContract (id c) (player_id c) (team_id c) (total_value c) (guaranteed_money c) (years c)
    (year_1_salary c) (year_2_salary c) (year_3_salary c) (year_4_salary c) (year_5_salary c)
    (if i =? 1 then v else year_1_cap_hit c)
    (if i =? 2 then v else year_2_cap_hit c)
    (if i =? 3 then v else year_3_cap_hit c)
    (if i =? 4 then v else year_4_cap_hit c)
    (if i =? 5 then v else year_5_cap_hit c)
    (signing_bonus c) (roster_bonus c) (workout_bonus c) (performance_bonus c)
    (is_rookie_contract c) (rookie_scale_year c) (contract_type c) (is_active c)
    (start_date c) (end_date c) (created_at c)
    (dead_money_year_1 c) (dead_money_year_2 c) (dead_money_year_3 c)
    (dead_money_year_4 c) (dead_money_year_5 c).

(** [getattr(contract, f"year_{i}_salary", 0)] and its siblings: the field
    for [i] in 1..5, the default [0] for any other [i]. *)
Definition salary_at (c : Contract) (i : Z) : num :=
  match i with
  | 1 => year_1_salary c
  | 2 => year_2_salary c
  | 3 => year_3_salary c
  | 4 => year_4_salary c
  | 5 => year_5_salary c
  | _ => PyInt 0
  end.

Definition cap_hit_at (c : Contract) (i : Z) : num :=
  match i with
  | 1 => year_1_cap_hit c
  | 2 => year_2_cap_hit c
  | 3 => year_3_cap_hit c
  | 4 => year_4_cap_hit c
  | 5 => year_5_cap_hit c
  | _ => PyInt 0
  end.

Definition dead_money_at (c : Contract) (i : Z) : Z :=
  match i with
  | 1 => dead_money_year_1 c
  | 2 => dead_money_year_2 c
  | 3 => dead_money_year_3 c
  | 4 => dead_money_year_4 c
  | 5 => dead_money_year_5 c
  | _ => 0
  end.

(** ** SalaryCapService ([app/services/salary_cap_service.py]) *)

(** The attributes set by [__init__]. *)
Record SalaryCapService : Type := mkService {
  current_year : Z;
  base_cap : Z;
  minimum_spend : Z;
  rookie_pool : Z;
  rookie_scale : list (Z * list (Z * Z))
}.

Definition service_2024 : SalaryCapService :=
  mkService 2024 255400000 230000000 10000000
    [ (1, [(1, 10000000); (2, 12000000); (3, 14000000); (4, 18000000); (5, 22000000)]);
      (2, [(1, 8000000); (2, 9000000); (3, 10000000); (4, 12000000); (5, 14000000)]);
      (3, [(1, 6000000); (2, 7000000); (3, 8000000); (4, 9000000); (5, 10000000)]);
      (4, [(1, 4000000); (2, 4500000); (3, 5000000); (4, 5500000); (5, 6000000)]);
      (5, [(1, 3000000); (2, 3200000); (3, 3400000); (4, 3600000); (5, 3800000)]);
      (6, [(1, 2500000); (2, 2600000); (3, 2700000); (4, 2800000); (5, 2900000)]);
      (7, [(1, 2000000); (2, 2100000); (3, 2200000); (4, 2300000); (5, 2400000)]) ].

(** [d[k]] on a dictionary with int keys: [KeyError] when [k] is absent. *)
Fixpoint dict_get {V : Type} (d : list (Z * V)) (k : Z) : res V :=
  match d with
  | [] => Raise KeyError
  | (k', v) :: rest => if k' =? k then Ret v else dict_get rest k
  end.

(** [l[:n]]: the first [n] items, or all but the last [-n] when [n < 0]. *)
Definition slice_to {A : Type} (l : list A) (n : Z) : list A :=
  if n <? 0 then firstn (Z.to_nat (Z.of_nat (List.length l) + n)) l
  else firstn (Z.to_nat n) l.

(** [enumerate(l, i)]. *)
Fixpoint enumerate {A : Type} (l : list A) (i : Z) : list (Z * A) :=
  match l with
  | [] => []
  | a :: rest => (i, a) :: enumerate rest (i + 1)
  end.

(** The loop of [calculate_contract_cap_hits] over the enumerated salaries:
    [cap_hits] is the dictionary built so far, as the list of its items. *)
Fixpoint cap_hit_loop (signing_bonus_proration : Z) (items : list (Z * num))
    (contract : Contract) (cap_hits : list (Z * num))
  : Contract * res (list (Z * num)) :=
  match items with
  | [] => (contract, Ret cap_hits)
  | (i, salary) :: rest =>
      if num_gtb salary (PyInt 0) then
        match num_add salary (PyInt signing_bonus_proration) with
        | Ret cap_hit =>
            cap_hit_loop signing_bonus_proration rest
              (set_cap_hit i cap_hit contract) (cap_hits ++ [(i, cap_hit)])
        | Raise e => (contract, Raise e)
        end
      else cap_hit_loop signing_bonus_proration rest contract cap_hits
  end.

Definition proration (contract : Contract) : Z :=
  if years contract >? 0 then signing_bonus contract / years contract else 0.

Definition calculate_contract_cap_hits (contract : Contract)
  : Contract * res (list (Z * num)) :=
  if negb (is_active contract) then (contract, Ret [])
  else
    let salaries := [ year_1_salary contract; year_2_salary contract;
                      year_3_salary contract; year_4_salary contract;
                      year_5_salary contract ] in
    let signing_bonus_proration := proration contract in
    cap_hit_loop signing_bonus_proration
      (enumerate (slice_to salaries (years contract)) 1) contract [].

(** The value of a column with [default=d] in the inserted row, for an
    attribute that is [v] on the object. *)
Definition column_default (d : Z) (v : option Z) : Z :=
  match v with
  | Some z => z
  | None => d
  end.

(** [Contract(...)]: the object, with the column defaults that the INSERT
    applies in place of the attributes that the call leaves out.
    [signing_bonus] and [roster_bonus] are [None] when the call leaves them
    out.  The cap hits, the other bonuses, the dead money, the id and
    [created_at], which no call passes, are [None] on the object and at
    their column defaults here. *)
Definition new_contract (player_id team_id total_value guaranteed_money years : Z)
    (s1 s2 s3 s4 s5 : num) (signing_bonus roster_bonus : option Z)
    (is_rookie_contract : bool) (rookie_scale_year : option Z)
    (contract_type : string) (start_date end_date : datetime) : Contract :=
  mkContract None player_id team_id total_value guaranteed_money years
    s1 s2 s3 s4 s5
    (PyInt 0) (PyInt 0) (PyInt 0) (PyInt 0) (PyInt 0)
    (column_default 0 signing_bonus) (column_default 0 roster_bonus) 0 0
    is_rookie_contract rookie_scale_year contract_type true
    start_date end_date None
    0 0 0 0 0.

(** [calculate_contract_cap_hits(contract)] on an object fresh from
    [Contract(...)] whose [signing_bonus] attribute is [signing_bonus].  On
    [None] the proration [None // contract.years], which an active contract
    with [years > 0] computes before it writes any cap hit, raises
    [TypeError].  Of the other attributes that the method reads
    ([is_active], [years], the salaries up to [years]) no caller leaves one
    out. *)
Definition calculate_new_contract_cap_hits (signing_bonus : option Z)
    (contract : Contract) : Contract * res (list (Z * num)) :=
  match signing_bonus with
  | Some _ => calculate_contract_cap_hits contract
  | None =>
      if is_active contract && (years contract >? 0) then (contract, Raise TypeError)
      else calculate_contract_cap_hits contract
  end.

(** Run a method that mutates the contract and keep the object if it
    returned. *)
Definition returned {A : Type} (r : Contract * res A) : res Contract :=
  match r with
  | (c, Ret _) => Ret c
  | (_, Raise e) => Raise e
  end.

(** [create_rookie_contract(player, team_id, draft_round, draft_pick, years)];
    [now] is the value of [datetime.now()].  The caller's default for
    [years] is 4. *)
Definition create_rookie_contract (self : SalaryCapService) (now : datetime)
    (player : Player) (team_id draft_round draft_pick years : Z) : res Contract :=
  let draft_round := if draft_round >? 7 then 7 else draft_round in
  row <- dict_get (rookie_scale self) draft_round ;;
  base_salary <- dict_get row 1 ;;
  let total_value := base_salary * years in
  end_date <- march_first (current_year self + years) ;;
  let contract :=
    new_contract (p_id player) team_id total_value base_salary years
      (PyInt base_salary) (PyInt base_salary) (PyInt base_salary) (PyInt base_salary)
      (if years >? 4 then PyInt base_salary else PyInt 0)
      None None true (Some 1) "rookie"%string now end_date in
  returned (calculate_new_contract_cap_hits None contract).

(** [create_veteran_contract(player, team_id, base_salary, years,
    signing_bonus, roster_bonus)]. *)
Definition create_veteran_contract (self : SalaryCapService) (now : datetime)
    (player : Player) (team_id base_salary years signing_bonus roster_bonus : Z)
  : res Contract :=
  let annual_salary := base_salary in
  let total_value := annual_salary * years + signing_bonus + roster_bonus in
  let raise_by (pct : float) : res num :=
    inc <- num_mul (PyInt annual_salary) (PyFloat pct) ;;
    num_add (PyInt annual_salary) inc in
  s2 <- raise_by 0.05%float ;;
  s3 <- raise_by 0.10%float ;;
  s4 <- (if years >? 3 then raise_by 0.15%float else Ret (PyInt 0)) ;;
  s5 <- (if years >? 4 then raise_by 0.20%float else Ret (PyInt 0)) ;;
  end_date <- march_first (current_year self + years) ;;
  let contract :=
    new_contract (p_id player) team_id total_value signing_bonus years
      (PyInt annual_salary) s2 s3 s4 s5
      (Some signing_bonus) (Some roster_bonus) false None "veteran"%string now end_date in
  returned (calculate_new_contract_cap_hits (Some signing_bonus) contract).

Record RestructureResult : Type := mkRestructureResult {
  rs_cap_savings : num;
  rs_new_cap_hit : num;
  rs_restructure_amount : Z
}.

(** Sequencing for a method body that may raise with the contract in
    [c]: the object keeps the state it had when the exception left. *)
Definition on_raise {A B : Type} (c : Contract) (m : res A)
    (k : A -> Contract * res B) : Contract * res B :=
  match m with
  | Ret a => k a
  | Raise e => (c, Raise e)
  end.

(** [restructure_contract(contract, restructure_amount)]. *)
Definition restructure_contract (self : SalaryCapService) (contract : Contract)
    (restructure_amount : Z) : Contract * res (outcome RestructureResult) :=
  if negb (is_active contract) then
    (contract, Ret (Failure "Contract is not active"%string))
  else
    let current_year_salary := salary_at contract 1 in
    if num_ltb current_year_salary (PyInt restructure_amount) then
      (contract, Ret (Failure "Restructure amount exceeds current year salary"%string))
    else
      let new_signing_bonus := signing_bonus contract + restructure_amount in
      on_raise contract (num_sub current_year_salary (PyInt restructure_amount))
        (fun new_base_salary =>
      let contract := set_signing_bonus new_signing_bonus contract in
      let contract := set_year_1_salary new_base_salary contract in
      match calculate_contract_cap_hits contract with
      | (contract, Raise e) => (contract, Raise e)
      | (contract, Ret _) =>
          (contract,
           q_old <- int_floordiv (signing_bonus contract) (years contract) ;;
           old_cap_hit <- num_add current_year_salary (PyInt q_old) ;;
           q_new <- int_floordiv new_signing_bonus (years contract) ;;
           new_cap_hit <- num_add new_base_salary (PyInt q_new) ;;
           cap_savings <- num_sub old_cap_hit new_cap_hit ;;
           Ret (Success (mkRestructureResult cap_savings new_cap_hit restructure_amount)))
      end).

Record ReleaseResult : Type := mkReleaseResult {
  rl_cap_savings : num;
  rl_dead_money_current : Z;
  rl_dead_money_next : Z;
  rl_post_june_1 : bool
}.

(** [release_player(contract, post_june_1)]. *)
Definition release_player (self : SalaryCapService) (contract : Contract)
    (post_june_1 : bool) : Contract * res (outcome ReleaseResult) :=
  if negb (is_active contract) then
    (contract, Ret (Failure "Contract is not active"%string))
  else
    let remaining_signing_bonus := signing_bonus contract in
    let years_remaining := years contract in
    on_raise contract
      (if post_june_1 then
         dead_money_current <- int_floordiv remaining_signing_bonus years_remaining ;;
         Ret (dead_money_current, remaining_signing_bonus - dead_money_current)
       else Ret (remaining_signing_bonus, 0))
      (fun '(dead_money_current, dead_money_next) =>
      let contract := set_is_active false contract in
      let contract := set_dead_money_year_1 dead_money_current contract in
      let contract := set_dead_money_year_2 dead_money_next contract in
      let current_year_cap_hit := cap_hit_at contract 1 in
      (contract,
       cap_savings <- num_sub current_year_cap_hit (PyInt dead_money_current) ;;
       Ret (Success (mkReleaseResult cap_savings dead_money_current dead_money_next
                       post_june_1)))).

(** ** The ledger: the rows behind [self.db] *)

Record Ledger : Type := mkLedger {
  players : list Player;
  contracts : list Contract
}.

(** [db.query(Player).filter(Player.id == player_id).first()]. *)
Definition query_player (db : Ledger) (player_id : Z) : option Player :=
  find (fun p => p_id p =? player_id) (players db).

Definition id_eqb (a b : option Z) : bool :=
  match a, b with
  | Some x, Some y => x =? y
  | None, None => true
  | _, _ => false
  end.

(** Position of the first row that a filter selects. *)
Fixpoint first_index {A : Type} (f : A -> bool) (l : list A) : option nat :=
  match l with
  | [] => None
  | a :: rest =>
      if f a then Some O
      else match first_index f rest with
           | Some n => Some (S n)
           | None => None
           end
  end.

(** Write an object of the session back to its row. *)
Fixpoint store_at {A : Type} (n : nat) (a : A) (l : list A) : list A :=
  match l, n with
  | [], _ => []
  | _ :: rest, O => a :: rest
  | b :: rest, S n' => b :: store_at n' a rest
  end.

(** The next value of the integer primary key. *)
Definition next_id (rows : list Contract) : Z :=
  1 + fold_right (fun c m => match id c with Some i => Z.max i m | None => m end) 0 rows.

(** What SQLite keeps of a number bound to an [INTEGER] column.  An int
    from [-2^63] to [2^63 - 1] is kept; for another int the driver raises
    [OverflowError].  A float whose value is an integer strictly between
    [-2^63] and [2^63] is kept, and read back, as that int; another float is
    kept as it is.  (A NaN would be kept as NULL; the sums of this code
    yield none.) *)
Definition sqlite_int (z : Z) : bool := (- 2 ^ 63 <=? z) && (z <? 2 ^ 63).

(** The value of a float when it is an integer. *)
Definition float_integer (f : float) : option Z :=
  match Prim2SF f with
  | S754_zero _ => Some 0
  | S754_finite s m e =>
      let v := if s then Z.neg m else Z.pos m in
      if 0 <=? e then Some (v * 2 ^ e)
      else if Z.pos m mod 2 ^ (- e) =? 0 then Some (v / 2 ^ (- e))
      else None
  | _ => None
  end.

Definition sqlite_num (n : num) : bool :=
  match n with
  | PyInt z => sqlite_int z
  | PyFloat _ => true
  end.

Definition stored_num (n : num) : num :=
  match n with
  | PyInt z => PyInt z
  | PyFloat f =>
      match float_integer f with
      | Some z => if (- 2 ^ 63 <? z) && (z <? 2 ^ 63) then PyInt z else PyFloat f
      | None => PyFloat f
      end
  end.

(** The row that the flush of an object writes, as a later query reads
    it. *)
Definition stored_row (c : Contract) : Contract :=
  mkContract (id c) (player_id c) (team_id c) (total_value c) (guaranteed_money c) (years c)
    (stored_num (year_1_salary c)) (stored_num (year_2_salary c))
    (stored_num (year_3_salary c)) (stored_num (year_4_salary c))
    (stored_num (year_5_salary c))
    (stored_num (year_1_cap_hit c)) (stored_num (year_2_cap_hit c))
    (stored_num (year_3_cap_hit c)) (stored_num (year_4_cap_hit c))
    (stored_num (year_5_cap_hit c))
    (signing_bonus c) (roster_bonus c) (workout_bonus c) (performance_bonus c)
    (is_rookie_contract c) (rookie_scale_year c) (contract_type c) (is_active c)
    (start_date c) (end_date c) (created_at c)
    (dead_money_year_1 c) (dead_money_year_2 c) (dead_money_year_3 c)
    (dead_money_year_4 c) (dead_money_year_5 c).

(** Whether the driver accepts every number of the row. *)
Definition storable (c : Contract) : bool :=
  forallb sqlite_int
    [ player_id c; team_id c; total_value c; guaranteed_money c; years c;
      signing_bonus c; roster_bonus c; workout_bonus c; performance_bonus c;
      dead_money_year_1 c; dead_money_year_2 c; dead_money_year_3 c;
      dead_money_year_4 c; dead_money_year_5 c ]
  && forallb sqlite_num
       [ year_1_salary c; year_2_salary c; year_3_salary c; year_4_salary c;
         year_5_salary c; year_1_cap_hit c; year_2_cap_hit c; year_3_cap_hit c;
         year_4_cap_hit c; year_5_cap_hit c ]
  && match rookie_scale_year c with Some y => sqlite_int y | None => true end.

(** The flush of one object at [db.commit()]. *)
Definition commit_row (c : Contract) : res Contract :=
  if storable c then Ret (stored_row c) else Raise OverflowError.

(** [db.add(contract); db.commit()] for a new row; [utcnow] is the reading
    of the clock that the [created_at] default takes. *)
Definition insert_contract (utcnow : datetime) (contract : Contract) (rows : list Contract)
  : res (Contract * list Contract) :=
  row <- commit_row
           (set_created_at (Some utcnow) (set_id (Some (next_id rows)) contract)) ;;
  Ret (row, rows ++ [row]).

(** The filters [Contract.team_id == t] and [Contract.player_id == p]. *)
Definition of_team (t : Z) (c : Contract) : bool := team_id c =? t.
Definition of_player (p : Z) (c : Contract) : bool := player_id c =? p.

(** ** Team cap summary ([calculate_team_salary_cap]) *)

(** [d[k] = v] on a dictionary keyed by contract id, as the list of its
    items: an existing key keeps its place. *)
Fixpoint dict_set (d : list (option Z * Z)) (k : option Z) (v : Z) : list (option Z * Z) :=
  match d with
  | [] => [(k, v)]
  | (k', v') :: rest =>
      if id_eqb k' k then (k, v) :: rest else (k', v') :: dict_set rest k v
  end.

(** [sum(d.values())]. *)
Definition sum_values (d : list (option Z * Z)) : Z :=
  fold_left (fun acc kv => acc + snd kv) d 0.

(** [calculate_team_dead_money(team_id, year)]: the dictionary from
    [f"contract_{contract.id}"] to the dead money of the inactive contract. *)
Definition calculate_team_dead_money (self : SalaryCapService) (db : Ledger)
    (team_id year : Z) : list (option Z * Z) :=
  let rows := filter (fun c => of_team team_id c && negb (is_active c))
                (contracts db) in
  fold_left
    (fun dead_money contract =>
       let dead_money_amount := dead_money_at contract (year - current_year self + 1) in
       if dead_money_amount >? 0 then dict_set dead_money (id contract) dead_money_amount
       else dead_money)
    rows [].

Record ContractDetail : Type := mkContractDetail {
  cd_player_id : Z;
  cd_cap_hit : num;
  cd_base_salary : num;
  cd_contract_type : string
}.

Record TeamCap : Type := mkTeamCap {
  tc_team_id : Z;
  tc_year : Z;
  tc_adjusted_cap : Z;
  tc_total_cap_used : num;
  tc_top_51_cap_used : num;
  tc_dead_money : Z;
  tc_cap_space : num;
  tc_cap_percentage : num;
  tc_contracts : list ContractDetail
}.

(** The object after "calculate cap hits if not already done". *)
Definition ensure_cap_hits (contract : Contract) : res Contract :=
  if negb (num_truthy (year_1_cap_hit contract)) then
    returned (calculate_contract_cap_hits contract)
  else Ret contract.

(** The loop of [calculate_team_salary_cap] over the team's active rows. *)
Fixpoint cap_used_loop (offset : Z) (rows : list Contract)
    (total_cap_used : num) (contract_details : list ContractDetail)
  : res (num * list ContractDetail) :=
  match rows with
  | [] => Ret (total_cap_used, contract_details)
  | contract :: rest =>
      contract <- ensure_cap_hits contract ;;
      let current_year_cap_hit := cap_hit_at contract offset in
      if num_gtb current_year_cap_hit (PyInt 0) then
        total <- num_add total_cap_used current_year_cap_hit ;;
        cap_used_loop offset rest total
          (contract_details ++
           [mkContractDetail (player_id contract) current_year_cap_hit
              (salary_at contract offset) (contract_type contract)])
      else cap_used_loop offset rest total_cap_used contract_details
  end.

(** [calculate_team_salary_cap(team_id, year)]; [year = None] is the
    current year. *)
Definition calculate_team_salary_cap (self : SalaryCapService) (db : Ledger)
    (team_id : Z) (year : option Z) : res TeamCap :=
  let year := match year with Some y => y | None => current_year self end in
  let rows := filter (fun c => of_team team_id c && is_active c)
                (contracts db) in
  used <- cap_used_loop (year - current_year self + 1) rows (PyInt 0) [] ;;
  let '(total_cap_used, contract_details) := used in
  let dead_money := calculate_team_dead_money self db team_id year in
  let total_dead_money := sum_values dead_money in
  let top_51_cap_used := total_cap_used in
  let adjusted_cap := base_cap self in
  d1 <- num_sub (PyInt adjusted_cap) top_51_cap_used ;;
  cap_space <- num_sub d1 (PyInt total_dead_money) ;;
  cap_percentage <-
    (if adjusted_cap >? 0 then
       q <- num_truediv top_51_cap_used (PyInt adjusted_cap) ;;
       num_mul (PyFloat q) (PyInt 100)
     else Ret (PyInt 0)) ;;
  Ret (mkTeamCap team_id year adjusted_cap total_cap_used top_51_cap_used
         total_dead_money cap_space cap_percentage contract_details).

(** ** ContractService ([app/services/contract_service.py]) *)

(** [get_player_contract(player_id)]: the first active contract row of the
    player, with its position in the ledger. *)
Definition active_for (player_id : Z) (c : Contract) : bool :=
  of_player player_id c && is_active c.

Definition get_player_contract (db : Ledger) (player_id : Z) : option Contract :=
  find (active_for player_id) (contracts db).

(** [d.get(position, 1.0)] on a table of multipliers. *)
Fixpoint multiplier (table : list (string * float)) (position : string) : float :=
  match table with
  | [] => 1.0%float
  | (k, v) :: rest => if String.eqb k position then v else multiplier rest position
  end.

Definition market_multipliers : list (string * float) :=
  [ ("QB", 1.5); ("DE", 1.3); ("WR", 1.2); ("CB", 1.1);
    ("LT", 1.2); ("TE", 1.0); ("RB", 0.9); ("ILB", 0.9) ]%string%float.

Definition franchise_multipliers : list (string * float) :=
  [ ("QB", 2.0); ("DE", 1.5); ("WR", 1.3); ("CB", 1.2);
    ("LT", 1.4); ("TE", 1.0); ("RB", 0.8); ("ILB", 0.9) ]%string%float.

(** [calculate_market_value(player, base_salary, years)]. *)
Definition calculate_market_value (player : Player) (base_salary years : Z) : res Z :=
  let base_value := overall_rating player * 1000000 in
  let position_multiplier := multiplier market_multipliers (position player) in
  let age_multiplier :=
    if age player <=? 25 then 1.3%float
    else if age player <=? 28 then 1.1%float
    else if age player <=? 31 then 1.0%float
    else if age player <=? 34 then 0.8%float
    else 0.6%float in
  let experience_multiplier :=
    if years_pro player <=? 3 then 1.2%float
    else if years_pro player <=? 6 then 1.0%float
    else 0.9%float in
  b <- to_float base_value ;;
  float_to_int (b * position_multiplier * age_multiplier * experience_multiplier)%float.

(** [calculate_acceptance_chance(player, market_value, offered_salary)]. *)
Definition calculate_acceptance_chance (db : Ledger) (player : Player)
    (market_value offered_salary : Z) : res float :=
  let base_chance := 0.5%float in
  salary_factor <-
    (if offered_salary >=? market_value then Ret 1.0%float
     else
       salary_ratio <- int_truediv offered_salary market_value ;;
       Ret (py_max 0.1%float salary_ratio)) ;;
  let loyalty_factor :=
    match get_player_contract db (p_id player) with
    | Some existing_contract =>
        if id_eqb (Some (team_id existing_contract)) (p_team_id player) then 1.2%float
        else 1.0%float
    | None => 1.0%float
    end in
  w <- int_truediv (work_ethic player) 100 ;;
  let work_ethic_factor := (0.8 + w * 0.4)%float in
  let acceptance_chance :=
    (base_chance * salary_factor * loyalty_factor * work_ethic_factor)%float in
  Ret (py_min 0.95%float (py_max 0.05%float acceptance_chance)).

(** [calculate_franchise_tag_amount(position)]. *)
Definition calculate_franchise_tag_amount (position : string) : res Z :=
  let base_franchise_tag := 20000000 in
  let multiplier := multiplier franchise_multipliers position in
  b <- to_float base_franchise_tag ;;
  float_to_int (b * multiplier)%float.

(** What [negotiate_contract_extension] returns. *)
Inductive Negotiation : Type :=
| NegError (msg : string)
| NegRejected (market_value : Z) (acceptance_chance : float)
| NegSigned (contract_id : option Z) (total_value : Z) (cap_hit_year_1 : num).

Record TagResult : Type := mkTagResult {
  tg_franchise_tag_amount : Z;
  tg_cap_hit : num
}.

(** A service method leaves the ledger as it was when it raises. *)
Definition guarded {A : Type} (db : Ledger) (m : res (Ledger * A)) : Ledger * res A :=
  match m with
  | Ret (db', a) => (db', Ret a)
  | Raise e => (db, Raise e)
  end.

Section Service.

(** The interpreter's [round(x, ndigits)] and the service's
    [salary_cap_service]. *)
Variable round_ndigits : float -> Z -> float.
Variable salary_cap_service : SalaryCapService.

(** [negotiate_contract_extension(player_id, team_id, base_salary, years,
    signing_bonus)]; [sample] is the value of [random.random()]. *)
Definition negotiate_contract_extension (db : Ledger) (now utcnow : datetime)
    (sample : float) (player_id team_id base_salary years signing_bonus : Z)
  : Ledger * res Negotiation :=
  match query_player db player_id with
  | None => (db, Ret (NegError "Player not found"%string))
  | Some player =>
      let existing := first_index (active_for player_id) (contracts db) in
      let existing_contract := get_player_contract db player_id in
      if match existing_contract with
         | Some c => negb (of_team team_id c)
         | None => false
         end
      then (db, Ret (NegError "Player is under contract with another team"%string))
      else guarded db (
        market_value <- calculate_market_value player base_salary years ;;
        acceptance_chance <-
          calculate_acceptance_chance db player market_value base_salary ;;
        let accepted := (sample <? acceptance_chance)%float in
        if negb accepted then
          Ret (db, NegRejected market_value
                     (round_ndigits (acceptance_chance * 100)%float 1))
        else
          new_contract <-
            create_veteran_contract salary_cap_service now player team_id
              base_salary years signing_bonus 0 ;;
          let rows :=
            match existing, existing_contract with
            | Some n, Some c => store_at n (set_is_active false c) (contracts db)
            | _, _ => contracts db
            end in
          inserted <- insert_contract utcnow new_contract rows ;;
          let '(new_contract, rows) := inserted in
          Ret (mkLedger (players db) rows,
               NegSigned (id new_contract) (total_value new_contract)
                 (year_1_cap_hit new_contract)))
  end.

(** [ContractService.restructure_contract(contract_id, restructure_amount)]. *)
Definition service_restructure_contract (db : Ledger)
    (contract_id restructure_amount : Z) : Ledger * res (outcome RestructureResult) :=
  let by_id := fun c : Contract => id_eqb (id c) (Some contract_id) in
  match first_index by_id (contracts db), find by_id (contracts db) with
  | Some n, Some contract =>
      if negb (is_active contract) then (db, Ret (Failure "Contract is not active"%string))
      else
        match restructure_contract salary_cap_service contract restructure_amount with
        | (contract, Ret (Success r)) =>
            match commit_row contract with
            | Ret row =>
                (mkLedger (players db) (store_at n row (contracts db)), Ret (Success r))
            | Raise e => (db, Raise e)
            end
        | (_, result) => (db, result)
        end
  | _, _ => (db, Ret (Failure "Contract not found"%string))
  end.

(** [ContractService.release_player(contract_id, post_june_1)]. *)
Definition service_release_player (db : Ledger) (contract_id : Z) (post_june_1 : bool)
  : Ledger * res (outcome ReleaseResult) :=
  let by_id := fun c : Contract => id_eqb (id c) (Some contract_id) in
  match first_index by_id (contracts db), find by_id (contracts db) with
  | Some n, Some contract =>
      match release_player salary_cap_service contract post_june_1 with
      | (contract, Ret (Success r)) =>
          match commit_row contract with
          | Ret row =>
              (mkLedger (players db) (store_at n row (contracts db)), Ret (Success r))
          | Raise e => (db, Raise e)
          end
      | (_, result) => (db, result)
      end
  | _, _ => (db, Ret (Failure "Contract not found"%string))
  end.

(** [franchise_tag_player(player_id, team_id)]. *)
Definition franchise_tag_player (db : Ledger) (now utcnow : datetime)
    (player_id team_id : Z) : Ledger * res (outcome TagResult) :=
  match query_player db player_id with
  | None => (db, Ret (Failure "Player not found"%string))
  | Some player =>
      match get_player_contract db player_id with
      | Some _ => (db, Ret (Failure "Player is already under contract"%string))
      | None => guarded db (
          franchise_tag_amount <- calculate_franchise_tag_amount (position player) ;;
          let contract :=
            new_contract player_id team_id franchise_tag_amount franchise_tag_amount 1
              (PyInt franchise_tag_amount) (PyInt 0) (PyInt 0) (PyInt 0) (PyInt 0)
              None None false None "franchise_tag"%string now (PlusDays now 365) in
          contract <- returned (calculate_new_contract_cap_hits None contract) ;;
          inserted <- insert_contract utcnow contract (contracts db) ;;
          let '(contract, rows) := inserted in
          Ret (mkLedger (players db) rows,
               Success (mkTagResult franchise_tag_amount (year_1_cap_hit contract))))
      end
  end.

End Service.

(** ** Sequences of operations on the ledger *)

(** One call of a contract-creating or mutating operation, with the values
    the call reads from outside: the clock and the random sample. *)
Inductive operation : Type :=
| RookieSigning (now : datetime) (player : Player)
    (team_id draft_round draft_pick years : Z)
| VeteranSigning (now : datetime) (player : Player)
    (team_id base_salary years signing_bonus roster_bonus : Z)
| Extension (now utcnow : datetime) (sample : float)
    (player_id team_id base_salary years signing_bonus : Z)
| FranchiseTag (now utcnow : datetime) (player_id team_id : Z)
| Restructure (contract_id restructure_amount : Z)
| Release (contract_id : Z) (post_june_1 : bool).

Section Operations.

Variable round_ndigits : float -> Z -> float.
Variable salary_cap_service : SalaryCapService.

(** The ledger after one operation.  [create_rookie_contract] and
    [create_veteran_contract] build an object and add nothing to the
    session: only [negotiate_contract_extension] and
    [franchise_tag_player] call [db.add]. *)
Definition apply_operation (db : Ledger) (op : operation) : Ledger :=
  match op with
  | RookieSigning now player team_id draft_round draft_pick years =>
      let _ := create_rookie_contract salary_cap_service now player team_id
                 draft_round draft_pick years in
      db
  | VeteranSigning now player team_id base_salary years signing_bonus roster_bonus =>
      let _ := create_veteran_contract salary_cap_service now player team_id
                 base_salary years signing_bonus roster_bonus in
      db
  | Extension now utcnow sample player_id team_id base_salary years signing_bonus =>
      fst (negotiate_contract_extension round_ndigits salary_cap_service db now utcnow
             sample player_id team_id base_salary years signing_bonus)
  | FranchiseTag now utcnow player_id team_id =>
      fst (franchise_tag_player db now utcnow player_id team_id)
  | Restructure contract_id restructure_amount =>
      fst (service_restructure_contract salary_cap_service db contract_id
             restructure_amount)
  | Release contract_id post_june_1 =>
      fst (service_release_player salary_cap_service db contract_id post_june_1)
  end.

Definition run (db : Ledger) (ops : list operation) : Ledger :=
  fold_left apply_operation ops db.

End Operations.

(** The number of rows that a filter selects. *)
Definition count {A : Type} (g : A -> bool) (l : list A) : nat :=
  List.length (filter g l).

(** The number of active contracts of a player. *)
Definition active_contracts (db : Ledger) (player_id : Z) : nat :=
  count (active_for player_id) (contracts db).

Definition single_active (db : Ledger) : Prop :=
  forall player_id, (active_contracts db player_id <= 1)%nat.

(** Sums over the years 1..n of a contract and over rows. *)
Fixpoint sum_years (f : Z -> Z) (n : nat) : Z :=
  match n with
  | O => 0
  | S k => sum_years f k + f (Z.of_nat n)
  end.

Definition sum_Z (l : list Z) : Z := fold_right Z.add 0 l.

(** ** Statements about contracts *)

(** The contract [c] with its five cap hits replaced. *)
Definition with_cap_hits (h1 h2 h3 h4 h5 : num) (c : Contract) : Contract :=
  mkContract (id c) (player_id c) (team_id c) (total_value c) (guaranteed_money c) (years c)
    (year_1_salary c) (year_2_salary c) (year_3_salary c) (year_4_salary c) (year_5_salary c)
    h1 h2 h3 h4 h5
    (signing_bonus c) (roster_bonus c) (workout_bonus c) (performance_bonus c)
    (is_rookie_contract c) (rookie_scale_year c) (contract_type c) (is_active c)
    (start_date c) (end_date c) (created_at c)
    (dead_money_year_1 c) (dead_money_year_2 c) (dead_money_year_3 c)
    (dead_money_year_4 c) (dead_money_year_5 c).

(** Rejection of a contract by the operations that divide by its years:
    of the three operations answers the contract with an error
    dictionary, not with a result and not with a raised fault. *)
Definition rejects_zero_years (self : SalaryCapService) (c : Contract) : Prop :=
  (forall hits, snd (calculate_contract_cap_hits c) <> Ret hits) /\
  (exists msg, snd (restructure_contract self c 0) = Ret (Failure msg)) /\
  (exists msg, snd (release_player self c true) = Ret (Failure msg)).

(** Every year of the contract has the cap hit [salary + proration] once
    cap hits are derived. *)
Definition cap_hits_cover_all_years (c : Contract) : Prop :=
  forall c' hits,
    calculate_contract_cap_hits c = (c', Ret hits) ->
    forall y, 1 <= y <= years c ->
      num_add (salary_at c y) (PyInt (signing_bonus c / years c)) = Ret (cap_hit_at c' y).

(** The active and the inactive rows of a team. *)
Definition active_rows (db : Ledger) (team : Z) : list Contract :=
  filter (fun c => of_team team c && is_active c) (contracts db).

Definition inactive_rows (db : Ledger) (team : Z) : list Contract :=
  filter (fun c => of_team team c && negb (is_active c)) (contracts db).

(** ** Contracts used in the examples *)

(** An active three-year contract as it is stored after cap hits were
    derived: salaries 5,000,000 / 5,250,000 / 5,500,000, no signing bonus. *)
Definition three_year_contract : Contract :=
  mkContract (Some 1) 7 1 15750000 0 3
    (PyInt 5000000) (PyInt 5250000) (PyInt 5500000) (PyInt 0) (PyInt 0)
    (PyInt 5000000) (PyInt 5250000) (PyInt 5500000) (PyInt 0) (PyInt 0)
    0 0 0 0 false None "veteran" true
    (Clock 0) (DateTime 2027 3 1) (Some (Clock 0))
    0 0 0 0 0.

(** The same terms with a signing bonus of 3,000,000 (1,000,000 a year). *)
Definition bonus_contract : Contract :=
  mkContract (Some 2) 8 1 18750000 3000000 3
    (PyInt 5000000) (PyInt 5250000) (PyInt 5500000) (PyInt 0) (PyInt 0)
    (PyInt 6000000) (PyInt 6250000) (PyInt 6500000) (PyInt 0) (PyInt 0)
    3000000 0 0 0 false None "veteran" true
    (Clock 0) (DateTime 2027 3 1) (Some (Clock 0))
    0 0 0 0 0.

(** A two-year contract that pays nothing in year 1 and carries a signing
    bonus of 6,000,000 (3,000,000 a year); cap hits not yet derived. *)
Definition zero_salary_contract : Contract :=
  mkContract (Some 3) 9 1 11250000 6000000 2
    (PyInt 0) (PyInt 5250000) (PyInt 0) (PyInt 0) (PyInt 0)
    (PyInt 0) (PyInt 0) (PyInt 0) (PyInt 0) (PyInt 0)
    6000000 0 0 0 false None "veteran" true
    (Clock 0) (DateTime 2026 3 1) (Some (Clock 0))
    0 0 0 0 0.

(** A row with [years = 0]: the column is an unconstrained integer. *)
Definition zero_year_contract : Contract :=
  mkContract (Some 4) 10 1 5000000 1000000 0
    (PyInt 5000000) (PyInt 0) (PyInt 0) (PyInt 0) (PyInt 0)
    (PyInt 5000000) (PyInt 0) (PyInt 0) (PyInt 0) (PyInt 0)
    1000000 0 0 0 false None "veteran" true
    (Clock 0) (DateTime 2024 3 1) (Some (Clock 0))
    0 0 0 0 0.

Definition quarterback : Player := mkPlayer 7 "QB" 26 4 (Some 1) 80 50.

(** [bonus_contract] after a post-June-1 release, stored under id 5. *)
Definition released_contract : Contract :=
  set_id (Some 5) (fst (release_player service_2024 bonus_contract true)).

(** A ledger with two active rows and one released row of team 1 and one
    row of another team. *)
Definition league : Ledger :=
  mkLedger [quarterback]
    [ three_year_contract; bonus_contract; released_contract;
      mkContract (Some 6) 11 2 9000000 0 1
        (PyInt 9000000) (PyInt 0) (PyInt 0) (PyInt 0) (PyInt 0)
        (PyInt 9000000) (PyInt 0) (PyInt 0) (PyInt 0) (PyInt 0)
        0 0 0 0 false None "veteran" true
        (Clock 0) (DateTime 2025 3 1) (Some (Clock 0))
        0 0 0 0 0 ].

(** A season of one player: signed, extended with the same team,
    restructured, tagged while under contract, released, tagged again. *)
Definition quarterback_season : list operation :=
  [ Extension (Clock 0) (Clock 0) 0%float 7 1 90000000 3 0;
    Extension (Clock 1) (Clock 1) 0%float 7 1 95000000 4 4000000;
    Restructure 2 1000000;
    FranchiseTag (Clock 2) (Clock 2) 7 1;
    Release 2 true;
    FranchiseTag (Clock 3) (Clock 3) 7 1 ].

(** ** Further statements about the derivation of cap hits *)

(** The cap hits that the loop of [calculate_contract_cap_hits] writes, in
    the order it writes them, when no addition raises. *)
Fixpoint cap_hit_writes (q : Z) (items : list (Z * num)) : res (list (Z * num)) :=
  match items with
  | [] => Ret []
  | (i, salary) :: rest =>
      if num_gtb salary (PyInt 0) then
        v <- num_add salary (PyInt q) ;;
        w <- cap_hit_writes q rest ;;
        Ret ((i, v) :: w)
      else cap_hit_writes q rest
  end.

Definition write_cap_hits (w : list (Z * num)) (c : Contract) : Contract :=
  fold_left (fun c iv => set_cap_hit (fst iv) (snd iv) c) w c.

(** The value that a list of writes leaves in year [j], if it writes there. *)
Fixpoint written (w : list (Z * num)) (j : Z) : option num :=
  match w with
  | [] => None
  | (i, v) :: rest =>
      match written rest j with
      | Some v' => Some v'
      | None => if i =? j then Some v else None
      end
  end.

(** ** SalaryService ([app/services/salary_service.py]) and
    TeamService ([app/services/team_service.py]) *)

(** [sum(xs)] of the interpreter: from the int [0], adding from the left. *)
Definition py_sum (xs : list num) : res num :=
  fold_left (fun acc x => a <- acc ;; num_add a x) xs (Ret (PyInt 0)).

(** The attribute set by [SalaryService.__init__]. *)
Record SalaryService : Type := mkSalaryService {
  salary_cap : Z
}.

Definition salary_service_2024 : SalaryService := mkSalaryService 255400000.

(** [get_team_contracts(team_id)]. *)
Definition get_team_contracts (db : Ledger) (team_id : Z) : list Contract :=
  filter (fun c => of_team team_id c && is_active c) (contracts db).

(** [get_team_salary_cap_used(team_id)]; [TeamService.get_salary_cap_used]
    is the same query and the same sum. *)
Definition get_team_salary_cap_used (db : Ledger) (team_id : Z) : res num :=
  let contracts := filter (fun c => of_team team_id c && is_active c) (contracts db) in
  py_sum (map year_1_salary contracts).

Definition get_salary_cap_used (db : Ledger) (team_id : Z) : res num :=
  let contracts := filter (fun c => of_team team_id c && is_active c) (contracts db) in
  py_sum (map year_1_salary contracts).

(** [get_team_cap_space(team_id)]. *)
Definition get_team_cap_space (self : SalaryService) (db : Ledger) (team_id : Z)
  : res num :=
  used <- get_team_salary_cap_used db team_id ;;
  num_sub (PyInt (salary_cap self)) used.

(** [get_team_cap_percentage(team_id)]. *)
Definition get_team_cap_percentage (self : SalaryService) (db : Ledger) (team_id : Z)
  : res num :=
  used <- get_team_salary_cap_used db team_id ;;
  q <- num_truediv used (PyInt (salary_cap self)) ;;
  num_mul (PyFloat q) (PyInt 100).

(** ** Team contract summary ([get_team_contract_summary]) *)

Record Tally : Type := mkTally {
  tally_count : Z;
  tally_total_value : Z
}.

(** One step of the two breakdown loops on the dictionary [d], as the list
    of its items: a key that is not in [d] is entered with a zero tally,
    then the tally of the key is raised by one contract of [value]. *)
Fixpoint tally_add (d : list (string * Tally)) (key : string) (value : Z)
  : list (string * Tally) :=
  match d with
  | [] => [(key, mkTally (0 + 1) (0 + value))]
  | (k, t) :: rest =>
      if String.eqb k key
      then (k, mkTally (tally_count t + 1) (tally_total_value t + value)) :: rest
      else (k, t) :: tally_add rest key value
  end.

Record ContractSummary : Type := mkContractSummary {
  cs_team_id : Z;
  cs_total_contracts : Z;
  cs_total_value : Z;
  cs_total_guaranteed : Z;
  cs_guaranteed_percentage : num;
  cs_contract_types : list (string * Tally);
  cs_position_breakdown : list (string * Tally);
  cs_average_contract_value : Z
}.

(** [contract.total_value], under a name that the local [total_value] of
    the summary leaves visible. *)
Definition contract_value (c : Contract) : Z := total_value c.

(** [get_team_contract_summary(team_id)]. *)
Definition get_team_contract_summary (db : Ledger) (team_id : Z)
  : res (outcome ContractSummary) :=
  let contracts := filter (fun c => of_team team_id c && is_active c) (contracts db) in
  match contracts with
  | [] => Ret (Failure "No active contracts found for team"%string)
  | _ :: _ =>
      let total_contracts := Z.of_nat (List.length contracts) in
      let total_value := fold_left (fun acc c => acc + contract_value c) contracts 0 in
      let total_guaranteed :=
        fold_left (fun acc c => acc + guaranteed_money c) contracts 0 in
      let contract_types :=
        fold_left (fun d c => tally_add d (contract_type c) (contract_value c))
          contracts [] in
      let position_contracts :=
        fold_left
          (fun d c =>
             match query_player db (player_id c) with
             | Some player => tally_add d (position player) (contract_value c)
             | None => d
             end)
          contracts [] in
      guaranteed_percentage <-
        (if total_value >? 0 then
           q <- int_truediv total_guaranteed total_value ;;
           num_mul (PyFloat q) (PyInt 100)
         else Ret (PyInt 0)) ;;
      average <-
        (if total_contracts >? 0 then int_floordiv total_value total_contracts
         else Ret 0) ;;
      Ret (Success (mkContractSummary team_id total_contracts total_value
                      total_guaranteed guaranteed_percentage contract_types
                      position_contracts average))
  end.

(** ** Cap summary with efficiency ([get_team_cap_summary]) *)

Record CapEfficiency : Type := mkCapEfficiency {
  ce_utilization_percentage : num;
  ce_health_status : string;
  ce_flexibility : string
}.

Record CapSummary : Type := mkCapSummary {
  su_cap_info : TeamCap;
  su_top_contracts : list ContractDetail;
  su_position_breakdown : list (string * num);
  su_cap_efficiency : CapEfficiency
}.

(** [sorted(details, key=lambda x: x["cap_hit"], reverse=True)]: a stable
    sort into descending order of the key, here by insertion (each item
    goes before the first item with a smaller key).  The keys are cap hits
    that passed [> 0], so they are comparable. *)
Fixpoint insert_by_cap_hit (x : ContractDetail) (l : list ContractDetail)
  : list ContractDetail :=
  match l with
  | [] => [x]
  | y :: rest =>
      if num_ltb (cd_cap_hit y) (cd_cap_hit x) then x :: y :: rest
      else y :: insert_by_cap_hit x rest
  end.

Definition sorted_by_cap_hit (l : list ContractDetail) : list ContractDetail :=
  fold_left (fun acc x => insert_by_cap_hit x acc) l [].

(** One step of the position loop: [position_cap[pos] += cap_hit], after
    [position_cap[pos] = 0] for a new key. *)
Fixpoint position_cap_add (d : list (string * num)) (pos : string) (cap_hit : num)
  : res (list (string * num)) :=
  match d with
  | [] => v <- num_add (PyInt 0) cap_hit ;; Ret [(pos, v)]
  | (k, v0) :: rest =>
      if String.eqb k pos then v <- num_add v0 cap_hit ;; Ret ((k, v) :: rest)
      else rest' <- position_cap_add rest pos cap_hit ;; Ret ((k, v0) :: rest')
  end.

Section CapSummary.

Variable round_ndigits : float -> Z -> float.

(** [round(x, 1)] on a number: an int is returned as it is. *)
Definition round_1 (x : num) : num :=
  match x with
  | PyInt z => PyInt z
  | PyFloat f => PyFloat (round_ndigits f 1)
  end.

(** [calculate_cap_efficiency(cap_info)]. *)
Definition calculate_cap_efficiency (cap_info : TeamCap) : res CapEfficiency :=
  let total_cap := tc_adjusted_cap cap_info in
  let used_cap := tc_total_cap_used cap_info in
  cap_utilization <-
    (if total_cap >? 0 then
       q <- num_truediv used_cap (PyInt total_cap) ;;
       num_mul (PyFloat q) (PyInt 100)
     else Ret (PyInt 0)) ;;
  let cap_health :=
    (if num_ltb cap_utilization (PyInt 80) then "Excellent"
     else if num_ltb cap_utilization (PyInt 90) then "Good"
     else if num_ltb cap_utilization (PyInt 95) then "Fair"
     else "Critical")%string in
  Ret (mkCapEfficiency (round_1 cap_utilization) cap_health
         (if num_ltb cap_utilization (PyInt 85) then "High"
          else if num_ltb cap_utilization (PyInt 92) then "Medium"
          else "Low")%string).

(** [get_team_cap_summary(team_id)]. *)
Definition get_team_cap_summary (self : SalaryCapService) (db : Ledger) (team_id : Z)
  : res CapSummary :=
  cap_info <- calculate_team_salary_cap self db team_id None ;;
  let top_contracts := firstn 10 (sorted_by_cap_hit (tc_contracts cap_info)) in
  position_cap <-
    fold_left
      (fun acc contract =>
         d <- acc ;;
         match query_player db (cd_player_id contract) with
         | Some player => position_cap_add d (position player) (cd_cap_hit contract)
         | None => Ret d
         end)
      (tc_contracts cap_info) (Ret []) ;;
  efficiency <- calculate_cap_efficiency cap_info ;;
  Ret (mkCapSummary cap_info top_contracts position_cap efficiency).

End CapSummary.

(** [a] does not sort after [b] under [key=cap_hit, reverse=True]. *)
Definition cap_hit_ge (a b : ContractDetail) : Prop :=
  num_ltb (cd_cap_hit a) (cd_cap_hit b) = false.

Definition int_cap_hits (l : list ContractDetail) : Prop :=
  forall d, In d l -> exists z, cd_cap_hit d = PyInt z.

(** ** Contract analysis ([ContractService.get_contract_analysis]) *)

(** [range(a, b)]. *)
Definition py_range (a b : Z) : list Z :=
  map (fun k => a + Z.of_nat k) (seq 0 (Z.to_nat (b - a))).

(** One value of [analysis["annual_breakdown"]]. *)
Record AnnualEntry : Type := mkAnnualEntry {
  ae_base_salary : num;
  ae_cap_hit : num;
  ae_dead_money : Z
}.

(** The returned analysis, with the items of ["cap_analysis"] and
    ["dead_money_analysis"] as fields of their own.  ["player_name"] is
    built from two name columns that no computation reads and is left
    out. *)
Record Analysis : Type := mkAnalysis {
  an_contract_id : option Z;
  an_position : string;
  an_team_id : Z;
  an_contract_type : string;
  an_total_value : Z;
  an_guaranteed_money : Z;
  an_years : Z;
  an_annual_breakdown : list (Z * AnnualEntry);
  an_total_cap_hit : num;
  an_average_cap_hit : num;
  an_guaranteed_percentage : num;
  an_total_dead_money : Z;
  an_dead_money_percentage : num
}.

Section Analysis.

(** The interpreter's [x // y] on two floats. *)
Variable float_floordiv : float -> float -> float.

(** [a // b] for an int [b]. *)
Definition num_floordiv (a : num) (b : Z) : res num :=
  match a with
  | PyInt x => z <- int_floordiv x b ;; Ret (PyInt z)
  | PyFloat f =>
      y <- to_float b ;;
      if PrimFloat.is_zero y then Raise ZeroDivisionError
      else Ret (PyFloat (float_floordiv f y))
  end.

(** [get_contract_analysis(contract_id)].  The cap hits that it derives are
    set on the session's object and not committed. *)
Definition get_contract_analysis (salary_cap_service : SalaryCapService) (db : Ledger)
    (contract_id : Z) : res (outcome Analysis) :=
  match find (fun c : Contract => id_eqb (id c) (Some contract_id)) (contracts db) with
  | None => Ret (Failure "Contract not found"%string)
  | Some contract =>
      match query_player db (player_id contract) with
      | None => Ret (Failure "Player not found"%string)
      | Some player =>
          contract <- ensure_cap_hits contract ;;
          let annual_breakdown :=
            map (fun year =>
                   (year, mkAnnualEntry (salary_at contract year)
                            (cap_hit_at contract year) (dead_money_at contract year)))
              (py_range 1 (years contract + 1)) in
          total_cap_hit <-
            py_sum (map (fun e => ae_cap_hit (snd e)) annual_breakdown) ;;
          average_cap_hit <-
            (if years contract >? 0 then num_floordiv total_cap_hit (years contract)
             else Ret (PyInt 0)) ;;
          guaranteed_percentage <-
            (if total_value contract >? 0 then
               q <- int_truediv (guaranteed_money contract) (total_value contract) ;;
               num_mul (PyFloat q) (PyInt 100)
             else Ret (PyInt 0)) ;;
          let total_dead_money :=
            sum_Z (map (fun e => ae_dead_money (snd e)) annual_breakdown) in
          dead_money_percentage <-
            (if total_value contract >? 0 then
               q <- int_truediv total_dead_money (total_value contract) ;;
               num_mul (PyFloat q) (PyInt 100)
             else Ret (PyInt 0)) ;;
          Ret (Success
                 (mkAnalysis (id contract) (position player) (team_id contract)
                    (contract_type contract) (total_value contract)
                    (guaranteed_money contract) (years contract) annual_breakdown
                    total_cap_hit average_cap_hit guaranteed_percentage
                    total_dead_money dead_money_percentage))
      end
  end.

End Analysis.

(** A stored three-year contract of the quarterback whose cap hits are
    not derived yet: 5,000,000 a year and a signing bonus of 1,000,000,
    which three years do not divide. *)
Definition underived_contract : Contract :=
  mkContract (Some 9) 7 1 16000000 1000000 3
    (PyInt 5000000) (PyInt 5000000) (PyInt 5000000) (PyInt 0) (PyInt 0)
    (PyInt 0) (PyInt 0) (PyInt 0) (PyInt 0) (PyInt 0)
    1000000 0 0 0 false None "veteran" true
    (Clock 0) (DateTime 2027 3 1) (Some (Clock 0))
    0 0 0 0 0.

(** ** The HTTP endpoints ([app/api/salary_cap.py]) *)

(** What leaves the [try] block of an endpoint: an exception of the
    service, or the endpoint's own [HTTPException]. *)
Inductive raised : Type :=
| ServiceError (e : exn)
| HTTPException (status_code : Z) (detail : string).

(** The answer of an endpoint: the returned dictionary, or the
    [HTTPException] that leaves the endpoint. *)
Inductive response (A : Type) : Type :=
| Returned (body : A)
| Failed (status_code : Z) (detail : string).

Arguments Returned {A} body.
Arguments Failed {A} status_code detail.

(** [result["error"]] when ["error" in result]. *)
Definition error_key {P : Type} (result : outcome P) : option string :=
  match result with
  | Failure msg => Some msg
  | Success _ => None
  end.

Definition negotiation_error_key (result : Negotiation) : option string :=
  match result with
  | NegError msg => Some msg
  | _ => None
  end.

Section Endpoints.

(** [str(e)], the interpreter's [round] and the service that each endpoint
    builds. *)
Variable str_exception : raised -> string.
Variable round_ndigits : float -> Z -> float.
Variable salary_cap_service : SalaryCapService.

(** The body shared by the POST endpoints:
    [try: result = call; if "error" in result: raise HTTPException(400, ...);
     return result
     except Exception as e: raise HTTPException(500, prefix + str(e))]. *)
Definition try_endpoint {A : Type} (error : A -> option string) (prefix : string)
    (call : res A) : response A :=
  let body : raised + A :=
    match call with
    | Raise e => inl (ServiceError e)
    | Ret result =>
        match error result with
        | Some detail => inl (HTTPException 400 detail)
        | None => inr result
        end
    end in
  match body with
  | inr result => Returned result
  | inl e => Failed 500 (prefix ++ str_exception e)
  end.

(** The endpoints [restructure_contract], [release_player],
    [franchise_tag_player] and [extend_player_contract]. *)
Definition api_restructure_contract (db : Ledger) (contract_id restructure_amount : Z)
  : Ledger * response (outcome RestructureResult) :=
  let '(db, result) :=
    service_restructure_contract salary_cap_service db contract_id restructure_amount in
  (db, try_endpoint error_key "Error restructuring contract: " result).

Definition api_release_player (db : Ledger) (contract_id : Z) (post_june_1 : bool)
  : Ledger * response (outcome ReleaseResult) :=
  let '(db, result) :=
    service_release_player salary_cap_service db contract_id post_june_1 in
  (db, try_endpoint error_key "Error releasing player: " result).

Definition api_franchise_tag_player (db : Ledger) (now utcnow : datetime)
    (player_id team_id : Z) : Ledger * response (outcome TagResult) :=
  let '(db, result) := franchise_tag_player db now utcnow player_id team_id in
  (db, try_endpoint error_key "Error applying franchise tag: " result).

Definition extend_player_contract (db : Ledger) (now utcnow : datetime) (sample : float)
    (player_id team_id base_salary years signing_bonus : Z)
  : Ledger * response Negotiation :=
  let '(db, result) :=
    negotiate_contract_extension round_ndigits salary_cap_service db now utcnow sample
      player_id team_id base_salary years signing_bonus in
  (db, try_endpoint negotiation_error_key "Error negotiating extension: " result).

End Endpoints.

(** The cap hit of a detail when it is an int. *)
Definition int_cap_hit (d : ContractDetail) : Z :=
  match cd_cap_hit d with
  | PyInt z => z
  | PyFloat _ => 0
  end.

(** The player of [bonus_contract], and the league with both players on
    file. *)
Definition receiver : Player := mkPlayer 8 "WR" 24 2 (Some 1) 85 60.

Definition league_on_file : Ledger :=
  mkLedger [quarterback; receiver] (contracts league).

(** A ledger that the endpoints build: two players sign three-year
    contracts with team 1 at 5,000,000 a year, and the first contract is
    restructured by -30,000,000. *)
Definition overdrawn_league : Ledger :=
  Eval vm_compute in
  run (fun x _ => x) service_2024 (mkLedger [quarterback; receiver] [])
    [ Extension (Clock 0) (Clock 0) 0%float 7 1 5000000 3 0;
      Extension (Clock 1) (Clock 1) 0%float 8 1 5000000 3 0;
      Restructure 1 (-30000000) ].

(** The reading of "cap used" as the sum of the cap hits of the team's
    active contracts at the offset of the year. *)
Definition cap_used_sums_active_cap_hits (self : SalaryCapService) (db : Ledger)
    (team year : Z) : Prop :=
  forall summary,
    calculate_team_salary_cap self db team (Some year) = Ret summary ->
    py_sum (map (fun c => cap_hit_at c (year - current_year self + 1))
              (active_rows db team))
      = Ret (tc_total_cap_used summary).

(** * Properties *)

Example to_float_5m : to_float 5000000 = Ret 5000000%float.
Proof. reflexivity. Qed.

Example to_float_edge :
  PrimFloat.is_infinity (nearest_float (float_overflow - 1)) = false /\
  PrimFloat.is_infinity (nearest_float float_overflow) = true /\
  PrimFloat.is_infinity (nearest_float (- float_overflow)) = true.
Proof. vm_compute. auto. Qed.

Example float_to_int_trunc : float_to_int 2.75%float = Ret 2 /\ float_to_int (-2.75)%float = Ret (-2).
Proof. split; reflexivity. Qed.

Example veteran_scenario :
  exists c, create_veteran_contract service_2024 (Clock 0) quarterback 1 5000000 3 3000000 0 = Ret c /\
    year_1_cap_hit c = PyInt 6000000 /\
    year_2_salary c = PyFloat 5250000 /\
    year_2_cap_hit c = PyFloat 6250000.
Proof. eexists. split; [reflexivity | repeat split]. Qed.

(** The rookie path passes no signing bonus: the derivation of the cap
    hits of a first-round, four-year contract raises on [None // 4]. *)
Example rookie_scenario :
  create_rookie_contract service_2024 (Clock 0) quarterback 1 1 1 4 = Raise TypeError /\
  create_rookie_contract service_2024 (Clock 0) quarterback 1 0 1 4 = Raise KeyError.
Proof. split; reflexivity. Qed.

(** ** The derivation of cap hits writes cap hits only *)

Lemma cap_hit_loop_frame (q : Z) (items : list (Z * num)) :
  forall (c : Contract) (acc : list (Z * num)),
  exists h1 h2 h3 h4 h5,
    fst (cap_hit_loop q items c acc) = with_cap_hits h1 h2 h3 h4 h5 c.
Proof.
  induction items as [| [i sal] rest IH]; intros c acc; cbn [cap_hit_loop].
  - exists (year_1_cap_hit c), (year_2_cap_hit c), (year_3_cap_hit c),
      (year_4_cap_hit c), (year_5_cap_hit c).
    destruct c; reflexivity.
  - destruct (num_gtb sal (PyInt 0)).
    + destruct (num_add sal (PyInt q)) as [v | e].
      * destruct (IH (set_cap_hit i v c) (acc ++ [(i, v)]))
          as (h1 & h2 & h3 & h4 & h5 & H).
        exists h1, h2, h3, h4, h5. rewrite H. reflexivity.
      * exists (year_1_cap_hit c), (year_2_cap_hit c), (year_3_cap_hit c),
          (year_4_cap_hit c), (year_5_cap_hit c).
        destruct c; reflexivity.
    + apply IH.
Qed.

Lemma calculate_frame (c : Contract) :
  exists h1 h2 h3 h4 h5,
    fst (calculate_contract_cap_hits c) = with_cap_hits h1 h2 h3 h4 h5 c.
Proof.
  unfold calculate_contract_cap_hits.
  destruct (is_active c).
  - apply cap_hit_loop_frame.
  - exists (year_1_cap_hit c), (year_2_cap_hit c), (year_3_cap_hit c),
      (year_4_cap_hit c), (year_5_cap_hit c).
    destruct c; reflexivity.
Qed.

(** ** Release *)

(** C7. Releasing an active contract with signing bonus [B] and [r > 0]
    years deactivates it and stamps dead money [B] and [0] (pre-June-1) or
    [floor(B/r)] and [B - floor(B/r)] (post-June-1); the two add up to [B],
    and the reported cap savings are the year-1 cap hit minus the year-1
    dead money. *)
Theorem release_dead_money_split (self : SalaryCapService) (c : Contract) (post_june_1 : bool) :
  is_active c = true ->
  0 < years c ->
  let B := signing_bonus c in
  let r := years c in
  let dead_year1 := if post_june_1 then B / r else B in
  let dead_year2 := if post_june_1 then B - B / r else 0 in
  let c' := fst (release_player self c post_june_1) in
  is_active c' = false /\
  dead_money_year_1 c' = dead_year1 /\
  dead_money_year_2 c' = dead_year2 /\
  dead_year1 + dead_year2 = B /\
  snd (release_player self c post_june_1) =
    (cap_savings <- num_sub (year_1_cap_hit c) (PyInt dead_year1) ;;
     Ret (Success (mkReleaseResult cap_savings dead_year1 dead_year2 post_june_1))) /\
  (forall h, year_1_cap_hit c = PyInt h ->
     snd (release_player self c post_june_1) =
       Ret (Success (mkReleaseResult (PyInt (h - dead_year1)) dead_year1 dead_year2
                       post_june_1))).
Proof.
  intros Hact Hyears B r dead_year1 dead_year2 c'.
  subst c'. unfold release_player. rewrite Hact. simpl negb. cbv iota.
  unfold int_floordiv.
  assert (Hnz : (years c =? 0) = false) by (apply Z.eqb_neq; lia).
  rewrite Hnz.
  destruct post_june_1; simpl; subst dead_year1 dead_year2 B r; simpl;
    (repeat split; try reflexivity; try lia;
     intros h Hh; rewrite Hh; reflexivity).
Qed.

Lemma release_dead_money_split_witness :
  is_active bonus_contract = true /\
  dead_money_year_1 (fst (release_player service_2024 bonus_contract true)) = 1000000 /\
  dead_money_year_2 (fst (release_player service_2024 bonus_contract true)) = 2000000.
Proof.
  assert (Ha : is_active bonus_contract = true) by reflexivity.
  assert (Hy : 0 < years bonus_contract) by (simpl; lia).
  pose proof (release_dead_money_split service_2024 bonus_contract true Ha Hy) as H.
  simpl in H.
  destruct H as (_ & H1 & H2 & _).
  split; [exact Ha | split; [exact H1 | exact H2]].
Defined.

(** A year index from 3 on selects a dead money field that is zero, or no
    field at all. *)
Ltac dead_money_beyond :=
  let y := fresh "y" in
  let p := fresh "p" in
  intros ? ? ? y ?;
  destruct y as [| p | p]; try lia;
  do 3 (destruct p as [p | p |]; simpl; try reflexivity; try lia; try assumption).

(** C10. [release_player] changes [is_active], the year-1 dead money and
    the year-2 dead money and nothing else: salaries, cap hits, bonuses,
    values, years, dates and the dead money of years 3 to 5 are as before,
    so dead money that was zero in years 3 to 5 stays zero whatever the
    number of years. *)
Theorem release_frame (self : SalaryCapService) (c : Contract) (post_june_1 : bool) :
  let c' := fst (release_player self c post_june_1) in
  id c' = id c /\ player_id c' = player_id c /\ team_id c' = team_id c /\
  total_value c' = total_value c /\ guaranteed_money c' = guaranteed_money c /\
  years c' = years c /\
  (forall y, salary_at c' y = salary_at c y) /\
  (forall y, cap_hit_at c' y = cap_hit_at c y) /\
  signing_bonus c' = signing_bonus c /\ roster_bonus c' = roster_bonus c /\
  workout_bonus c' = workout_bonus c /\ performance_bonus c' = performance_bonus c /\
  is_rookie_contract c' = is_rookie_contract c /\
  rookie_scale_year c' = rookie_scale_year c /\
  contract_type c' = contract_type c /\
  start_date c' = start_date c /\ end_date c' = end_date c /\
  created_at c' = created_at c /\
  dead_money_year_3 c' = dead_money_year_3 c /\
  dead_money_year_4 c' = dead_money_year_4 c /\
  dead_money_year_5 c' = dead_money_year_5 c /\
  (dead_money_year_3 c = 0 -> dead_money_year_4 c = 0 -> dead_money_year_5 c = 0 ->
   forall y, 3 <= y -> dead_money_at c' y = 0).
Proof.
  intro c'. subst c'. unfold release_player.
  destruct (is_active c); simpl.
  - destruct post_june_1; simpl.
    + destruct (int_floordiv (signing_bonus c) (years c)); simpl;
        repeat split; try reflexivity; dead_money_beyond.
    + repeat split; try reflexivity; dead_money_beyond.
  - repeat split; try reflexivity; dead_money_beyond.
Qed.

(** ** Restructure *)

(** Whenever a restructure succeeds on a contract whose year-1 salary is an
    int, the reported savings are the restructured amount: both cap hits
    are computed with the signing bonus as it is after the conversion. *)
Lemma restructure_savings_is_amount (self : SalaryCapService) (c c' : Contract)
    (amount s : Z) (r : RestructureResult) :
  year_1_salary c = PyInt s ->
  restructure_contract self c amount = (c', Ret (Success r)) ->
  rs_cap_savings r = PyInt amount /\
  rs_new_cap_hit r = PyInt (s - amount + (signing_bonus c + amount) / years c) /\
  signing_bonus c' = signing_bonus c + amount /\
  year_1_salary c' = PyInt (s - amount).
Proof.
  intros Hs H. unfold restructure_contract in H.
  destruct (is_active c); simpl in H; [| discriminate].
  rewrite Hs in H. simpl in H.
  destruct (s <? amount); [discriminate |].
  destruct (calculate_contract_cap_hits _) as [c1 [hits | e]] eqn:Hcalc; [| discriminate].
  destruct (calculate_frame
              (set_year_1_salary (PyInt (s - amount))
                 (set_signing_bonus (signing_bonus c + amount) c)))
    as (h1 & h2 & h3 & h4 & h5 & Hfr).
  rewrite Hcalc in Hfr. simpl in Hfr. subst c1. simpl in H.
  unfold int_floordiv in H.
  destruct (years c =? 0); simpl in H; [discriminate |].
  inversion H; subst; simpl.
  repeat split; f_equal; lia.
Qed.

(** C1. On the contract with year-1 salary 5,000,000, no signing bonus and
    three years, restructuring 2,000,000 moves the year-1 cap hit from
    5,000,000 to 3,666,666, yet the reported [cap_savings] is 2,000,000 and
    not their difference 1,333,334. *)
Theorem restructure_savings_not_snapshotted :
  let r := restructure_contract service_2024 three_year_contract 2000000 in
  year_1_cap_hit three_year_contract = PyInt 5000000 /\
  snd r = Ret (Success (mkRestructureResult (PyInt 2000000) (PyInt 3666666) 2000000)) /\
  year_1_salary (fst r) = PyInt 3000000 /\
  signing_bonus (fst r) = 2000000 /\
  year_1_cap_hit (fst r) = PyInt 3666666 /\
  5000000 - 3666666 = 1333334.
Proof.
  repeat split; vm_compute; reflexivity.
Qed.

(** ** Contract creation *)

(** C5. A two-year veteran contract carries a year-3 salary (and a one-year
    contract a year-2 and a year-3 salary): [create_veteran_contract]
    clears only years 4 and 5 beyond the stated years. *)
Theorem creation_salary_beyond_years :
  (exists c,
     create_veteran_contract service_2024 (Clock 0) quarterback 1 5000000 2 0 0 = Ret c /\
     years c = 2 /\ salary_at c 3 = PyFloat 5500000 /\
     salary_at c 4 = PyInt 0 /\ salary_at c 5 = PyInt 0) /\
  (exists c,
     create_veteran_contract service_2024 (Clock 0) quarterback 1 5000000 1 0 0 = Ret c /\
     years c = 1 /\ salary_at c 2 = PyFloat 5250000 /\ salary_at c 3 = PyFloat 5500000).
Proof.
  split; eexists; (split; [reflexivity | repeat split]).
Qed.

(** The rookie path, which clears year 5 only, returns no contract of two
    years: it passes no signing bonus. *)
Example rookie_salary_beyond_years :
  create_rookie_contract service_2024 (Clock 0) quarterback 1 1 1 2 = Raise TypeError.
Proof. reflexivity. Qed.

(** The row that is inserted for the two-year contract above keeps the
    year-3 salary, as the int that SQLite makes of an integral float.
    Beyond the stated years no cap hit and no dead money is written: the
    row carries the column defaults there. *)
Example creation_cap_hit_beyond_years :
  exists c row rows,
    create_veteran_contract service_2024 (Clock 0) quarterback 1 5000000 2 0 0 = Ret c /\
    insert_contract (Clock 1) c [] = Ret (row, rows) /\
    salary_at row 3 = PyInt 5500000 /\
    map (cap_hit_at row) [3; 4; 5] = [PyInt 0; PyInt 0; PyInt 0] /\
    map (dead_money_at row) [1; 2; 3; 4; 5] = [0; 0; 0; 0; 0].
Proof.
  do 3 eexists. split; [reflexivity |]. split; [vm_compute; reflexivity |].
  repeat split.
Qed.

(** ** Division by the years of a contract *)

(** C4, counterexample. On an active row with [years = 0] the derivation
    returns normally with an empty dictionary, and restructure and the
    post-June-1 release raise [ZeroDivisionError]. *)
Lemma zero_years_not_rejected :
  is_active zero_year_contract = true /\ years zero_year_contract = 0 /\
  snd (calculate_contract_cap_hits zero_year_contract) = Ret [] /\
  snd (restructure_contract service_2024 zero_year_contract 0) = Raise ZeroDivisionError /\
  snd (release_player service_2024 zero_year_contract true) = Raise ZeroDivisionError /\
  ~ rejects_zero_years service_2024 zero_year_contract.
Proof.
  repeat split; try reflexivity.
  intros (H & _). apply (H []). reflexivity.
Qed.

(** C4, amended. The derivation of cap hits guards the division: on a
    contract with [years = 0] it takes the proration to be zero, raises
    nothing, returns an empty dictionary and leaves the contract as it is. *)
Theorem cap_hits_zero_years (c : Contract) :
  years c = 0 ->
  proration c = 0 /\ calculate_contract_cap_hits c = (c, Ret []).
Proof.
  intro Hy. unfold calculate_contract_cap_hits, proration, slice_to.
  rewrite Hy. simpl. split; [reflexivity |].
  destruct (is_active c); reflexivity.
Qed.

Lemma cap_hits_zero_years_witness :
  years zero_year_contract = 0 /\
  calculate_contract_cap_hits zero_year_contract = (zero_year_contract, Ret []).
Proof.
  split; [reflexivity |].
  apply (cap_hits_zero_years zero_year_contract). reflexivity.
Defined.

(** ** Derivation of cap hits *)

Lemma year_index_cases (j : Z) :
  j = 1 \/ j = 2 \/ j = 3 \/ j = 4 \/ j = 5 \/
  ((forall c, cap_hit_at c j = PyInt 0) /\ (forall c, salary_at c j = PyInt 0)).
Proof.
  destruct j as [| p | p]; [right; right; right; right; right; split; reflexivity | |
                            right; right; right; right; right; split; reflexivity].
  do 3 (try destruct p as [p | p |]); auto 10;
    right; right; right; right; right; split; reflexivity.
Qed.

Lemma cap_hit_set_same (i : Z) (v : num) (c : Contract) :
  1 <= i <= 5 -> cap_hit_at (set_cap_hit i v c) i = v.
Proof.
  intro Hi.
  assert (H : i = 1 \/ i = 2 \/ i = 3 \/ i = 4 \/ i = 5) by lia.
  destruct H as [-> | [-> | [-> | [-> | ->]]]]; reflexivity.
Qed.

Lemma cap_hit_set_other (i j : Z) (v : num) (c : Contract) :
  i <> j -> cap_hit_at (set_cap_hit i v c) j = cap_hit_at c j.
Proof.
  intro Hij.
  destruct (year_index_cases j) as [-> | [-> | [-> | [-> | [-> | [H _]]]]]];
    try (rewrite !H; reflexivity);
    simpl;
    match goal with
    | |- context [i =? ?k] => destruct (Z.eqb_spec i k); [congruence | reflexivity]
    end.
Qed.

(** What the loop leaves in the cap hits: a year with a positive salary
    gets salary plus proration, any other year keeps what it had. *)
Lemma cap_hit_loop_spec (q : Z) (items : list (Z * num)) :
  forall (c c' : Contract) (acc hits : list (Z * num)),
  cap_hit_loop q items c acc = (c', Ret hits) ->
  NoDup (map fst items) ->
  (forall i s, In (i, s) items -> 1 <= i <= 5) ->
  (forall i s, In (i, s) items ->
     (num_gtb s (PyInt 0) = true -> num_add s (PyInt q) = Ret (cap_hit_at c' i)) /\
     (num_gtb s (PyInt 0) = false -> cap_hit_at c' i = cap_hit_at c i)) /\
  (forall j, ~ In j (map fst items) -> cap_hit_at c' j = cap_hit_at c j).
Proof.
  induction items as [| [i sal] rest IH]; intros c c' acc hits Hloop Hnd Hrange.
  - cbn [cap_hit_loop] in Hloop. inversion Hloop; subst.
    split; [intros i s [] | reflexivity].
  - cbn [cap_hit_loop] in Hloop.
    inversion Hnd as [| ? ? Hnotin Hnd']; subst.
    assert (Hrange' : forall i s, In (i, s) rest -> 1 <= i <= 5)
      by (intros; eapply Hrange; right; eassumption).
    assert (Hi : 1 <= i <= 5) by (eapply Hrange; left; reflexivity).
    destruct (num_gtb sal (PyInt 0)) eqn:Hpos.
    + destruct (num_add sal (PyInt q)) as [v | e] eqn:Hadd; [| discriminate].
      destruct (IH _ _ _ _ Hloop Hnd' Hrange') as [Hin Hout].
      split.
      * intros i' s' [Heq | Hrest].
        -- injection Heq as <- <-.
           split; [intros _ | congruence].
           rewrite (Hout i Hnotin), cap_hit_set_same by assumption. exact Hadd.
        -- destruct (Hin i' s' Hrest) as [Ht Hf].
           split; [exact Ht |].
           intro Hz. rewrite (Hf Hz). apply cap_hit_set_other.
           intros ->. apply Hnotin. apply (in_map fst) in Hrest. exact Hrest.
      * intros j Hj. rewrite Hout by (intro; apply Hj; right; assumption).
        apply cap_hit_set_other. intros ->. apply Hj. left. reflexivity.
    + destruct (IH _ _ _ _ Hloop Hnd' Hrange') as [Hin Hout].
      split.
      * intros i' s' [Heq | Hrest].
        -- injection Heq as <- <-.
           split; [congruence | intros _; apply Hout; assumption].
        -- apply Hin; assumption.
      * intros j Hj. apply Hout. intro; apply Hj; right; assumption.
Qed.

(** The loop returns when every salary it meets is an int. *)
Lemma cap_hit_loop_total (q : Z) (items : list (Z * num)) :
  (forall i s, In (i, s) items -> exists z, s = PyInt z) ->
  forall (c : Contract) (acc : list (Z * num)),
  exists c' hits, cap_hit_loop q items c acc = (c', Ret hits).
Proof.
  induction items as [| [i sal] rest IH]; intros Hint c acc; cbn [cap_hit_loop].
  - eauto.
  - assert (Hrest : forall i s, In (i, s) rest -> exists z, s = PyInt z)
      by (intros; eapply Hint; right; eassumption).
    destruct (Hint i sal (or_introl eq_refl)) as [z ->].
    destruct (num_gtb (PyInt z) (PyInt 0)); [cbn [num_add] |]; apply IH; assumption.
Qed.

(** The items of the loop for a contract of one to five years. *)
Lemma enumerated_salaries (c : Contract) :
  1 <= years c <= 5 ->
  let items :=
    enumerate (slice_to [year_1_salary c; year_2_salary c; year_3_salary c;
                         year_4_salary c; year_5_salary c] (years c)) 1 in
  NoDup (map fst items) /\
  (forall i s, In (i, s) items <-> 1 <= i <= years c /\ s = salary_at c i).
Proof.
  intros Hy items. subst items.
  assert (H : years c = 1 \/ years c = 2 \/ years c = 3 \/ years c = 4 \/ years c = 5)
    by lia.
  destruct H as [H | [H | [H | [H | H]]]]; rewrite H; cbn;
    (split;
     [ repeat constructor; cbn; intuition discriminate
     | intros i s; split;
       [ intros Hin; repeat (destruct Hin as [Hin | Hin]; [inversion Hin; subst; cbn; split; [lia | reflexivity] |]); destruct Hin
       | intros [Hi ->];
         assert (Hc : i = 1 \/ i = 2 \/ i = 3 \/ i = 4 \/ i = 5) by lia;
         destruct Hc as [-> | [-> | [-> | [-> | ->]]]]; try lia; simpl; auto 10 ] ]).
Qed.

Lemma sum_years_add_const (s : Z -> Z) (q : Z) (n : nat) :
  sum_years (fun y => s y + q) n = sum_years s n + Z.of_nat n * q.
Proof.
  induction n as [| k IH]; [reflexivity |].
  cbn [sum_years]. rewrite IH. lia.
Qed.

(** C2, counterexample. The two-year contract with salary 0 in year 1 and a
    signing bonus of 6,000,000 keeps the cap hit 0 in year 1, where salary
    plus proration is 3,000,000. *)
Lemma cap_hit_skips_zero_salary :
  is_active zero_salary_contract = true /\
  1 <= years zero_salary_contract <= 5 /\
  ~ cap_hits_cover_all_years zero_salary_contract.
Proof.
  split; [reflexivity | split; [cbn; lia |]].
  intro H.
  specialize (H _ _ eq_refl 1). cbn in H.
  assert (Hr : 1 <= 1 <= 2) by lia.
  specialize (H Hr). discriminate H.
Qed.

(** The same through the API: restructuring the whole year-1 salary of
    [three_year_contract] leaves salary 0 in year 1, and the derivation
    inside the restructure keeps the cap hit 5,000,000 there, where salary
    plus proration is 1,666,666. *)
Example restructure_full_salary_keeps_cap_hit :
  let c := fst (restructure_contract service_2024 three_year_contract 5000000) in
  year_1_salary c = PyInt 0 /\ signing_bonus c = 5000000 /\
  year_1_cap_hit c = PyInt 5000000 /\ year_2_cap_hit c = PyInt 6916666.
Proof. repeat split; vm_compute; reflexivity. Qed.

(** ** Acceptance chance *)

Lemma float_ltb_leb (x y : float) : (x <? y)%float = true -> (x <=? y)%float = true.
Proof.
  rewrite ltb_spec, leb_spec. unfold SFltb, SFleb.
  destruct (SFcompare (Prim2SF x) (Prim2SF y)) as [[| |] |]; congruence.
Qed.

(** The clamp [min(0.95, max(0.05, x))] lands in [0.05, 0.95] for every
    float [x], a NaN included. *)
Lemma clamp_bounds (x : float) :
  let p := py_min 0.95 (py_max 0.05 x) in
  (0.05 <=? p)%float = true /\ (p <=? 0.95)%float = true.
Proof.
  unfold py_min, py_max.
  destruct (0.05 <? x)%float eqn:Hlo.
  - destruct (x <? 0.95)%float eqn:Hhi.
    + split; apply float_ltb_leb; assumption.
    + split; reflexivity.
  - split; reflexivity.
Qed.

Lemma small_below_overflow : 100 < float_overflow.
Proof. reflexivity. Qed.

Lemma to_float_returns (z : Z) :
  Z.abs z < float_overflow -> to_float z = Ret (nearest_float z).
Proof.
  intro H. unfold to_float.
  apply Z.ltb_lt in H. rewrite H. reflexivity.
Qed.

(** The quotient of two ints is returned when the divisor is not zero and
    the dividend is below the overflow threshold. *)
Lemma int_truediv_returns (a b : Z) :
  b <> 0 -> Z.abs a < float_overflow ->
  int_truediv a b = Ret (SF2Prim (SFdiv prec emax (Z2SF a) (Z2SF b))).
Proof.
  intros Hb Ha. unfold int_truediv.
  destruct (Z.eqb_spec b 0) as [H0 | _]; [contradiction |].
  pose proof small_below_overflow as Hsmall.
  destruct (Z.ltb_spec (Z.abs a) (float_overflow * Z.abs b)) as [_ | Hge];
    [reflexivity | nia].
Qed.

(** C9. For a player whose work ethic is on the 0-100 scale, a market value
    that a float can hold and a non-negative offered salary,
    [calculate_acceptance_chance] returns a probability [p] with
    [0.05 <= p <= 0.95]. *)
Theorem acceptance_chance_bounds (db : Ledger) (player : Player)
    (market_value offered_salary : Z) :
  0 <= work_ethic player <= 100 ->
  0 <= offered_salary ->
  market_value < float_overflow ->
  exists p,
    calculate_acceptance_chance db player market_value offered_salary = Ret p /\
    (0.05 <=? p)%float = true /\ (p <=? 0.95)%float = true.
Proof.
  intros Hwe Hoff Hmv.
  pose proof small_below_overflow as Hsmall.
  unfold calculate_acceptance_chance.
  rewrite (int_truediv_returns (work_ethic player) 100) by lia.
  destruct (offered_salary >=? market_value) eqn:Hge.
  - cbn [bind].
    eexists. split; [reflexivity | apply clamp_bounds].
  - assert (Hlt : offered_salary < market_value)
      by (destruct (Z.geb_spec offered_salary market_value); [discriminate | lia]).
    rewrite (int_truediv_returns offered_salary market_value) by lia.
    cbn [bind].
    eexists. split; [reflexivity | apply clamp_bounds].
Qed.

Lemma acceptance_chance_bounds_witness :
  exists p,
    calculate_acceptance_chance (mkLedger [quarterback] []) quarterback 132000000 90000000
      = Ret p /\
    (0.05 <=? p)%float = true /\ (p <=? 0.95)%float = true.
Proof.
  apply (acceptance_chance_bounds (mkLedger [quarterback] []) quarterback
           132000000 90000000).
  - cbn. lia.
  - lia.
  - reflexivity.
Defined.

Example acceptance_chance_value :
  calculate_acceptance_chance (mkLedger [quarterback] []) quarterback 132000000 90000000
    = Ret 0.3409090909090909%float.
Proof. reflexivity. Qed.

(** ** Negotiation *)

(** C8. When the draw rejects the offer ([sample < acceptance_chance] is
    false), [negotiate_contract_extension] returns the non-success
    dictionary with the market value and the acceptance chance (as a
    percentage rounded to one digit), and the ledger is the one it was
    called on: no row is added and no row is changed. *)
Theorem rejected_offer_changes_nothing (round_ndigits : float -> Z -> float)
    (service : SalaryCapService) (db : Ledger) (now utcnow : datetime) (sample : float)
    (pid tid base_salary n signing_bonus : Z)
    (player : Player) (market_value : Z) (acceptance_chance : float) :
  query_player db pid = Some player ->
  (forall c, get_player_contract db pid = Some c -> team_id c = tid) ->
  calculate_market_value player base_salary n = Ret market_value ->
  calculate_acceptance_chance db player market_value base_salary = Ret acceptance_chance ->
  (sample <? acceptance_chance)%float = false ->
  negotiate_contract_extension round_ndigits service db now utcnow sample
      pid tid base_salary n signing_bonus
    = (db, Ret (NegRejected market_value
                  (round_ndigits (acceptance_chance * 100)%float 1))).
Proof.
  intros Hplayer Hteam Hmv Hchance Hdraw.
  unfold negotiate_contract_extension.
  rewrite Hplayer.
  destruct (get_player_contract db pid) as [c |] eqn:Hc.
  - unfold of_team. rewrite (Hteam c eq_refl), Z.eqb_refl.
    cbn [negb]. rewrite Hmv. cbn [bind]. rewrite Hchance. cbn [bind].
    rewrite Hdraw. reflexivity.
  - rewrite Hmv. cbn [bind]. rewrite Hchance. cbn [bind].
    rewrite Hdraw. reflexivity.
Qed.

Lemma rejected_offer_changes_nothing_witness :
  exists market_value pct,
    negotiate_contract_extension (fun x _ => x) service_2024 (mkLedger [quarterback] [])
        (Clock 0) (Clock 0) 0.99%float 7 1 90000000 3 0
      = (mkLedger [quarterback] [], Ret (NegRejected market_value pct)).
Proof.
  eexists. eexists.
  apply (rejected_offer_changes_nothing (fun x _ => x) service_2024
           (mkLedger [quarterback] []) (Clock 0) (Clock 0) 0.99%float 7 1 90000000 3 0
           quarterback).
  - reflexivity.
  - cbn. discriminate.
  - vm_compute. reflexivity.
  - vm_compute. reflexivity.
  - vm_compute. reflexivity.
Defined.

(** ** At most one active contract per player *)

Lemma count_app {A : Type} (g : A -> bool) (l : list A) (a : A) :
  count g (l ++ [a]) = (count g l + Nat.b2n (g a))%nat.
Proof.
  unfold count. rewrite filter_app, length_app. cbn [filter].
  destruct (g a); reflexivity.
Qed.

Lemma count_store_at {A : Type} (g : A -> bool) (l : list A) :
  forall (n : nat) (c a : A),
  nth_error l n = Some c ->
  (count g (store_at n a l) + Nat.b2n (g c) = count g l + Nat.b2n (g a))%nat.
Proof.
  unfold count.
  induction l as [| b rest IH]; intros n c a Hn.
  - destruct n; discriminate.
  - destruct n as [| n'].
    + injection Hn as ->. cbn [store_at filter].
      destruct (g c), (g a); cbn [List.length Nat.b2n]; lia.
    + cbn [nth_error] in Hn. specialize (IH n' c a Hn).
      cbn [store_at filter]. destruct (g b); cbn [List.length]; lia.
Qed.

Lemma count_find_none {A : Type} (g : A -> bool) (l : list A) :
  find g l = None -> count g l = O.
Proof.
  unfold count. induction l as [| b rest IH]; [reflexivity |].
  cbn [find filter]. destruct (g b); [discriminate | exact IH].
Qed.

(** [first_index] and [find] select the same row. *)
Lemma first_index_find {A : Type} (f : A -> bool) (l : list A) :
  match first_index f l, find f l with
  | Some n, Some c => nth_error l n = Some c /\ f c = true
  | None, None => True
  | _, _ => False
  end.
Proof.
  induction l as [| b rest IH]; [exact I |].
  cbn [first_index find]. destruct (f b) eqn:Hb.
  - split; [reflexivity | exact Hb].
  - destruct (first_index f rest), (find f rest); cbn [nth_error]; exact IH.
Qed.

Lemma query_player_id (db : Ledger) (pid : Z) (player : Player) :
  query_player db pid = Some player -> p_id player = pid.
Proof.
  unfold query_player. intro H. apply find_some in H.
  destruct H as [_ H]. apply Z.eqb_eq. exact H.
Qed.

Lemma active_for_other (p q : Z) (c : Contract) :
  player_id c = p -> q <> p -> active_for q c = false.
Proof.
  intros Hp Hq. unfold active_for, of_player. rewrite Hp.
  destruct (Z.eqb_spec p q); [congruence | reflexivity].
Qed.

Lemma active_for_player (p : Z) (c : Contract) :
  active_for p c = true -> player_id c = p /\ is_active c = true.
Proof.
  unfold active_for, of_player. intro H.
  apply andb_true_iff in H. destruct H as [H1 H2].
  apply Z.eqb_eq in H1. split; assumption.
Qed.

(** The contract of a creation path belongs to the player and is active. *)
Lemma returned_frame (c c' : Contract) :
  returned (calculate_contract_cap_hits c) = Ret c' ->
  player_id c' = player_id c /\ is_active c' = is_active c.
Proof.
  intro H. destruct (calculate_frame c) as (h1 & h2 & h3 & h4 & h5 & Hfr).
  destruct (calculate_contract_cap_hits c) as [c1 [hits | e]]; [| discriminate].
  cbn in H, Hfr. injection H as <-. subst c1. split; reflexivity.
Qed.

Lemma create_veteran_contract_active (self : SalaryCapService) (now : datetime)
    (player : Player) (tid base_salary n signing_bonus roster_bonus : Z) (c : Contract) :
  create_veteran_contract self now player tid base_salary n signing_bonus roster_bonus
    = Ret c ->
  player_id c = p_id player /\ is_active c = true.
Proof.
  unfold create_veteran_contract. intro H.
  repeat match type of H with
         | bind ?m _ = _ => destruct m; cbn [bind] in H; [| discriminate]
         end.
  apply returned_frame in H. exact H.
Qed.

Lemma restructure_contract_frame (self : SalaryCapService) (c : Contract) (amount : Z) :
  let c' := fst (restructure_contract self c amount) in
  player_id c' = player_id c /\ is_active c' = is_active c.
Proof.
  unfold restructure_contract.
  destruct (negb (is_active c)); [split; reflexivity |].
  destruct (num_ltb _ _); [split; reflexivity |].
  destruct (num_sub _ _) as [v | e]; cbn [on_raise]; [| split; reflexivity].
  match goal with
  | |- context [calculate_contract_cap_hits ?x] =>
      destruct (calculate_frame x) as (h1 & h2 & h3 & h4 & h5 & Hfr);
      destruct (calculate_contract_cap_hits x) as [c1 [hits | e]]
  end; cbn in Hfr; subst c1; split; reflexivity.
Qed.

Lemma release_player_frame (self : SalaryCapService) (c : Contract) (post_june_1 : bool)
    (q : Z) :
  active_for q (fst (release_player self c post_june_1)) = true -> active_for q c = true.
Proof.
  unfold release_player.
  destruct (is_active c) eqn:Hact; cbn [negb]; [| exact (fun H => H)].
  destruct post_june_1; [destruct (int_floordiv _ _) |]; cbn;
    unfold active_for; cbn; rewrite ?andb_false_r; try discriminate.
  rewrite Hact. exact (fun H => H).
Qed.

(** What a commit keeps of a row. *)
Lemma commit_row_stored (c row : Contract) :
  commit_row c = Ret row -> storable c = true /\ row = stored_row c.
Proof.
  unfold commit_row. destruct (storable c); [| discriminate].
  intro H. injection H as <-. split; reflexivity.
Qed.

Lemma insert_contract_row (utcnow : datetime) (c : Contract) (rows : list Contract)
    (row : Contract) (rows' : list Contract) :
  insert_contract utcnow c rows = Ret (row, rows') ->
  row = stored_row (set_created_at (Some utcnow) (set_id (Some (next_id rows)) c)) /\
  rows' = rows ++ [row].
Proof.
  unfold insert_contract. intro H.
  destruct (commit_row _) as [r |] eqn:Hc; cbn [bind] in H; [| discriminate].
  apply commit_row_stored in Hc. destruct Hc as [_ ->].
  injection H as <- <-. split; reflexivity.
Qed.

(** A franchise tag passes no signing bonus: the derivation of the cap hit
    of its one-year contract raises before anything is added. *)
Lemma franchise_tag_ledger (db : Ledger) (now utcnow : datetime) (pid tid : Z) :
  fst (franchise_tag_player db now utcnow pid tid) = db.
Proof.
  unfold franchise_tag_player.
  destruct (query_player db pid) as [player |]; [| reflexivity].
  destruct (get_player_contract db pid) as [c |]; [reflexivity |].
  destruct (calculate_franchise_tag_amount (position player)) as [amount | e];
    reflexivity.
Qed.

Section SingleActive.

Variable round_ndigits : float -> Z -> float.
Variable service : SalaryCapService.

(** Adding an active row of a player who has no active row. *)
Lemma single_active_insert (db : Ledger) (utcnow : datetime) (c : Contract) (pid : Z)
    (row : Contract) (rows : list Contract) :
  single_active db ->
  find (active_for pid) (contracts db) = None ->
  player_id c = pid ->
  insert_contract utcnow c (contracts db) = Ret (row, rows) ->
  single_active (mkLedger (players db) rows).
Proof.
  intros Hinv Hnone Hpid Hins q. apply insert_contract_row in Hins.
  destruct Hins as [-> ->]. unfold active_contracts.
  cbn [contracts]. rewrite count_app.
  change (player_id c) with
    (player_id (stored_row (set_created_at (Some utcnow)
                              (set_id (Some (next_id (contracts db))) c)))) in Hpid.
  destruct (Z.eq_dec q pid) as [-> | Hq].
  - rewrite (count_find_none _ _ Hnone).
    match goal with |- context [Nat.b2n ?b] => destruct b end; cbn [Nat.b2n]; lia.
  - rewrite active_for_other with (p := pid) by assumption.
    specialize (Hinv q). unfold active_contracts in Hinv.
    cbn [Nat.b2n]. lia.
Qed.

(** Replacing the first active row of a player by an inactive one and
    adding an active row of the same player. *)
Lemma single_active_replace (db : Ledger) (utcnow : datetime) (c old : Contract)
    (n : nat) (pid : Z) (row : Contract) (rows : list Contract) :
  single_active db ->
  nth_error (contracts db) n = Some old ->
  active_for pid old = true ->
  player_id c = pid ->
  insert_contract utcnow c (store_at n (set_is_active false old) (contracts db))
    = Ret (row, rows) ->
  single_active (mkLedger (players db) rows).
Proof.
  intros Hinv Hn Hold Hpid Hins q. apply insert_contract_row in Hins.
  destruct Hins as [-> ->]. unfold active_contracts.
  cbn [contracts]. rewrite count_app.
  change (player_id c) with
    (player_id (stored_row (set_created_at (Some utcnow)
                  (set_id (Some (next_id (store_at n (set_is_active false old)
                                            (contracts db)))) c)))) in Hpid.
  pose proof (count_store_at (active_for q) (contracts db) n old
                (set_is_active false old) Hn) as Hcount.
  assert (Hoff : active_for q (set_is_active false old) = false)
    by (unfold active_for; cbn; apply andb_false_r).
  rewrite Hoff in Hcount. cbn [Nat.b2n] in Hcount.
  specialize (Hinv q). unfold active_contracts in Hinv.
  destruct (active_for_player _ _ Hold) as [Hp _].
  destruct (Z.eq_dec q pid) as [-> | Hq].
  - rewrite Hold in Hcount. cbn [Nat.b2n] in Hcount.
    match goal with |- context [Nat.b2n ?b] => destruct b end; cbn [Nat.b2n]; lia.
  - rewrite (active_for_other pid q) by assumption.
    rewrite (active_for_other pid q old Hp Hq) in Hcount.
    cbn [Nat.b2n] in *. lia.
Qed.

(** Writing back a row that is active for no more players than before. *)
Lemma single_active_store (db : Ledger) (c c' : Contract) (n : nat) :
  single_active db ->
  nth_error (contracts db) n = Some c ->
  (forall q, active_for q c' = true -> active_for q c = true) ->
  single_active (mkLedger (players db) (store_at n c' (contracts db))).
Proof.
  intros Hinv Hn Hle q. unfold active_contracts. cbn [contracts].
  pose proof (count_store_at (active_for q) (contracts db) n c c' Hn) as Hcount.
  specialize (Hinv q). unfold active_contracts in Hinv.
  specialize (Hle q).
  destruct (active_for q c'), (active_for q c); cbn [Nat.b2n] in Hcount;
    try lia; try (specialize (Hle eq_refl); discriminate).
Qed.

Lemma apply_operation_single_active (db : Ledger) (op : operation) :
  single_active db -> single_active (apply_operation round_ndigits service db op).
Proof.
  intro Hinv.
  destruct op as [ now player tid draft_round draft_pick n
                 | now player tid base_salary n bonus roster
                 | now utcnow sample pid tid base_salary n bonus
                 | now utcnow pid tid
                 | cid amount
                 | cid post_june_1 ];
    cbn [apply_operation]; try exact Hinv.
  - (* extension *)
    unfold negotiate_contract_extension.
    destruct (query_player db pid) as [player |] eqn:Hplayer; [| exact Hinv].
    pose proof (first_index_find (active_for pid) (contracts db)) as Hff.
    unfold get_player_contract.
    destruct (first_index (active_for pid) (contracts db)) as [k |] eqn:Hidx;
      destruct (find (active_for pid) (contracts db)) as [old |] eqn:Hfind;
      try contradiction.
    + destruct Hff as [Hk Hold].
      destruct (negb (of_team tid old)); [exact Hinv |].
      destruct (calculate_market_value player base_salary n) as [mv | e];
        cbn [bind guarded fst]; [| exact Hinv].
      destruct (calculate_acceptance_chance db player mv base_salary) as [ch | e];
        cbn [bind guarded fst]; [| exact Hinv].
      destruct (negb (sample <? ch)%float); cbn [bind guarded fst]; [exact Hinv |].
      destruct (create_veteran_contract service now player tid base_salary n bonus 0)
        as [c | e] eqn:Hc; cbn [bind guarded fst]; [| exact Hinv].
      destruct (create_veteran_contract_active _ _ _ _ _ _ _ _ _ Hc) as [Hpid _].
      rewrite (query_player_id _ _ _ Hplayer) in Hpid.
      destruct (insert_contract utcnow c _) as [[row rows] | e] eqn:Hins;
        cbn [bind guarded fst]; [| exact Hinv].
      exact (single_active_replace db utcnow c old k pid row rows Hinv Hk Hold Hpid Hins).
    + destruct (calculate_market_value player base_salary n) as [mv | e];
        cbn [bind guarded fst]; [| exact Hinv].
      destruct (calculate_acceptance_chance db player mv base_salary) as [ch | e];
        cbn [bind guarded fst]; [| exact Hinv].
      destruct (negb (sample <? ch)%float); cbn [bind guarded fst]; [exact Hinv |].
      destruct (create_veteran_contract service now player tid base_salary n bonus 0)
        as [c | e] eqn:Hc; cbn [bind guarded fst]; [| exact Hinv].
      destruct (create_veteran_contract_active _ _ _ _ _ _ _ _ _ Hc) as [Hpid _].
      rewrite (query_player_id _ _ _ Hplayer) in Hpid.
      destruct (insert_contract utcnow c _) as [[row rows] | e] eqn:Hins;
        cbn [bind guarded fst]; [| exact Hinv].
      exact (single_active_insert db utcnow c pid row rows Hinv Hfind Hpid Hins).
  - (* franchise tag *)
    rewrite franchise_tag_ledger. exact Hinv.
  - (* restructure *)
    unfold service_restructure_contract.
    match goal with
    | |- context [first_index ?f (contracts db)] =>
        pose proof (first_index_find f (contracts db)) as Hff;
        destruct (first_index f (contracts db)) as [k |];
        destruct (find f (contracts db)) as [c |]; try contradiction; try exact Hinv
    end.
    destruct Hff as [Hk _].
    destruct (negb (is_active c)); [exact Hinv |].
    pose proof (restructure_contract_frame service c amount) as Hfr.
    destruct (restructure_contract service c amount) as [c' [[r | msg] | e]];
      try exact Hinv.
    destruct (commit_row c') as [row | e] eqn:Hcommit; [| exact Hinv].
    apply commit_row_stored in Hcommit. destruct Hcommit as [_ ->].
    cbn [fst] in *. destruct Hfr as [Hp Ha].
    apply (single_active_store db c (stored_row c') k Hinv Hk).
    intro q. unfold active_for, of_player.
    change (player_id (stored_row c')) with (player_id c').
    change (is_active (stored_row c')) with (is_active c').
    rewrite Hp, Ha. exact (fun H => H).
  - (* release *)
    unfold service_release_player.
    match goal with
    | |- context [first_index ?f (contracts db)] =>
        pose proof (first_index_find f (contracts db)) as Hff;
        destruct (first_index f (contracts db)) as [k |];
        destruct (find f (contracts db)) as [c |]; try contradiction; try exact Hinv
    end.
    destruct Hff as [Hk _].
    pose proof (release_player_frame service c post_june_1) as Hfr.
    destruct (release_player service c post_june_1) as [c' [[r | msg] | e]];
      try exact Hinv.
    destruct (commit_row c') as [row | e] eqn:Hcommit; [| exact Hinv].
    apply commit_row_stored in Hcommit. destruct Hcommit as [_ ->].
    cbn [fst] in *.
    apply (single_active_store db c (stored_row c') k Hinv Hk). exact Hfr.
Qed.

End SingleActive.

(** C3. From a ledger with at most one active contract per player, any
    sequence of rookie signings, veteran signings, extensions, franchise
    tags, restructures and releases leads to a ledger with at most one
    active contract per player. *)
Theorem single_active_contract (round_ndigits : float -> Z -> float)
    (service : SalaryCapService) (ops : list operation) (db : Ledger) :
  single_active db ->
  forall player_id, (active_contracts (run round_ndigits service db ops) player_id <= 1)%nat.
Proof.
  revert db. unfold run.
  induction ops as [| op rest IH]; intros db Hinv; cbn [fold_left].
  - exact Hinv.
  - apply IH. apply apply_operation_single_active. exact Hinv.
Qed.

Lemma single_active_contract_witness :
  single_active (mkLedger [quarterback] []) /\
  (active_contracts
     (run (fun x _ => x) service_2024 (mkLedger [quarterback] []) quarterback_season) 7
   <= 1)%nat.
Proof.
  assert (H : single_active (mkLedger [quarterback] []))
    by (intro q; cbn; lia).
  split; [exact H |].
  apply (single_active_contract (fun x _ => x) service_2024 quarterback_season
           (mkLedger [quarterback] []) H).
Defined.

(** The season leaves two rows, both inactive: the first tag is refused and
    the second raises, so neither adds a row. *)
Example quarterback_season_rows :
  let db := run (fun x _ => x) service_2024 (mkLedger [quarterback] []) quarterback_season in
  map (fun c => (id c, contract_type c, is_active c)) (contracts db) =
    [ (Some 1, "veteran", false); (Some 2, "veteran", false) ]%string.
Proof. vm_compute. reflexivity. Qed.

(** ** Team cap summary *)

Lemma id_eqb_eq (a b : option Z) : id_eqb a b = true <-> a = b.
Proof.
  destruct a as [x |], b as [y |]; cbn; split; intro H;
    try discriminate; try reflexivity.
  - apply Z.eqb_eq in H. congruence.
  - injection H as ->. apply Z.eqb_refl.
Qed.

Lemma sum_values_app (d : list (option Z * Z)) (k : option Z) (v : Z) :
  sum_values (d ++ [(k, v)]) = sum_values d + v.
Proof.
  unfold sum_values. rewrite fold_left_app. cbn [fold_left snd]. reflexivity.
Qed.

(** Setting a key that the dictionary does not hold appends the item. *)
Lemma dict_set_fresh (d : list (option Z * Z)) (k : option Z) (v : Z) :
  ~ In k (map fst d) -> dict_set d k v = d ++ [(k, v)].
Proof.
  induction d as [| [k' v'] rest IH]; intro Hk; cbn [dict_set app].
  - reflexivity.
  - destruct (id_eqb k' k) eqn:Heq.
    + apply id_eqb_eq in Heq. exfalso. apply Hk. left. exact Heq.
    + rewrite IH; [reflexivity |]. intro Hin. apply Hk. right. exact Hin.
Qed.

(** The dead money dictionary of rows with distinct ids sums to the
    positive dead money of the rows. *)
Lemma dead_money_fold (offset : Z) (rows : list Contract) :
  forall d : list (option Z * Z),
  NoDup (map id rows) ->
  (forall c, In c rows -> ~ In (id c) (map fst d)) ->
  sum_values
    (fold_left
       (fun dead_money contract =>
          let dead_money_amount := dead_money_at contract offset in
          if dead_money_amount >? 0
          then dict_set dead_money (id contract) dead_money_amount
          else dead_money)
       rows d)
  = sum_values d + sum_Z (map (fun c => Z.max 0 (dead_money_at c offset)) rows).
Proof.
  induction rows as [| c rest IH]; intros d Hnd Hfresh; cbn [fold_left map sum_Z fold_right].
  - lia.
  - inversion Hnd as [| ? ? Hc Hnd']; subst.
    cbv zeta.
    destruct (Z.gtb_spec (dead_money_at c offset) 0) as [Hgt | Hle].
    + rewrite dict_set_fresh by (apply Hfresh; left; reflexivity).
      rewrite IH.
      * rewrite sum_values_app. unfold sum_Z. lia.
      * exact Hnd'.
      * intros c' Hin. rewrite map_app, in_app_iff. cbn [map fst In].
        intros [Hd | [Heq | []]].
        -- apply (Hfresh c'); [right; exact Hin | exact Hd].
        -- apply Hc. rewrite Heq. apply in_map. exact Hin.
    + rewrite IH.
      * unfold sum_Z. lia.
      * exact Hnd'.
      * intros c' Hin. apply Hfresh. right. exact Hin.
Qed.

Lemma team_dead_money_sum (self : SalaryCapService) (db : Ledger) (team y : Z) :
  let offset := y - current_year self + 1 in
  NoDup (map id (inactive_rows db team)) ->
  sum_values (calculate_team_dead_money self db team y)
    = sum_Z (map (fun c => Z.max 0 (dead_money_at c offset)) (inactive_rows db team)).
Proof.
  intros offset Hids. subst offset.
  unfold calculate_team_dead_money. fold (inactive_rows db team).
  rewrite dead_money_fold by (intros; auto).
  reflexivity.
Qed.

(** The loop over active rows whose cap hits (derived first where the
    year-1 cap hit is unset) are ints adds up the positive ones. *)
Lemma cap_used_loop_sum (offset : Z) (h : Contract -> Z) (rows : list Contract) :
  (forall c, In c rows ->
     exists c', ensure_cap_hits c = Ret c' /\ cap_hit_at c' offset = PyInt (h c)) ->
  forall (acc : Z) (details : list ContractDetail),
  exists details',
    cap_used_loop offset rows (PyInt acc) details
      = Ret (PyInt (acc + sum_Z (map (fun c => Z.max 0 (h c)) rows)), details').
Proof.
  induction rows as [| c rest IH]; intros Hrows acc details;
    cbn [cap_used_loop map sum_Z fold_right].
  - exists details. rewrite Z.add_0_r. reflexivity.
  - destruct (Hrows c (or_introl eq_refl)) as (c' & Hup & Hcap).
    assert (Hrest : forall r, In r rest ->
              exists r', ensure_cap_hits r = Ret r' /\ cap_hit_at r' offset = PyInt (h r))
      by (intros; apply Hrows; right; assumption).
    rewrite Hup. cbn [bind]. rewrite Hcap. unfold num_gtb, num_ltb.
    destruct (Z.ltb_spec 0 (h c)) as [Hgt | Hle].
    + cbn [num_add bind].
      destruct (IH Hrest (acc + h c)
                  (details ++ [mkContractDetail (player_id c') (PyInt (h c))
                                 (salary_at c' offset) (contract_type c')]))
        as [details' Hd].
      exists details'. rewrite Hd. fold (sum_Z (map (fun c => Z.max 0 (h c)) rest)).
      do 3 f_equal. lia.
    + destruct (IH Hrest acc details) as [details' Hd].
      exists details'. rewrite Hd. fold (sum_Z (map (fun c => Z.max 0 (h c)) rest)).
      do 3 f_equal. lia.
Qed.

Lemma sum_Z_nonneg {A : Type} (h : A -> Z) (l : list A) :
  (forall a, In a l -> 0 <= h a) -> 0 <= sum_Z (map h l).
Proof.
  induction l as [| a rest IH]; intro H; cbn [map sum_Z fold_right]; [lia |].
  assert (0 <= h a) by (apply H; left; reflexivity).
  assert (0 <= sum_Z (map h rest)) by (apply IH; intros; apply H; right; assumption).
  unfold sum_Z in *. lia.
Qed.

(** C6, counterexample. Two players sign three-year contracts with team 1
    and the first contract is restructured by a negative amount, which the
    endpoint accepts.  Its year-2 cap hit is then -4,750,000, and the
    summary of 2025 reports the cap hit 5,250,000 of the other contract
    alone as the cap used, where the cap hits of the team's active
    contracts add up to 500,000. *)
Lemma cap_used_skips_negative_cap_hit :
  map (fun c => (id c, is_active c, cap_hit_at c 2)) (active_rows overdrawn_league 1)
    = [(Some 1, true, PyInt (-4750000)); (Some 2, true, PyInt 5250000)] /\
  (exists summary,
     calculate_team_salary_cap service_2024 overdrawn_league 1 (Some 2025) = Ret summary /\
     tc_total_cap_used summary = PyInt 5250000 /\
     tc_cap_space summary = PyInt 250150000) /\
  ~ cap_used_sums_active_cap_hits service_2024 overdrawn_league 1 2025.
Proof.
  split; [vm_compute; reflexivity |].
  split; [eexists; split; [vm_compute; reflexivity | split; reflexivity] |].
  intro H. specialize (H _ eq_refl). vm_compute in H. discriminate H.
Qed.

(** C6, amended. Let [h c] be the cap hit of an active row [c] of the team
    at the offset [year - current_year + 1], derived first when the row has
    no year-1 cap hit, and an int; let the inactive rows of the team have
    distinct ids.  Then [cap_used] is the sum of the positive [h] over the
    active rows and [dead_money] the sum of the positive dead money at the
    offset over the inactive rows: a row whose amount there is negative
    contributes zero, as does a row with no entry at the offset.  When the
    quotient [cap_used / adjusted_cap] fits a float the summary returns
    with [adjusted_cap] = the base cap, [cap_space = adjusted_cap -
    cap_used - dead_money] and [cap_percentage] = the float nearest to the
    exact quotient [cap_used / adjusted_cap], times 100, or zero when the
    adjusted cap is not positive. *)
Theorem team_cap_summary (self : SalaryCapService) (db : Ledger) (team : Z)
    (year : option Z) (h : Contract -> Z) :
  let y := match year with Some y => y | None => current_year self end in
  let offset := y - current_year self + 1 in
  let cap_used := sum_Z (map (fun c => Z.max 0 (h c)) (active_rows db team)) in
  let dead :=
    sum_Z (map (fun c => Z.max 0 (dead_money_at c offset)) (inactive_rows db team)) in
  (forall c, In c (active_rows db team) ->
     exists c', ensure_cap_hits c = Ret c' /\ cap_hit_at c' offset = PyInt (h c)) ->
  NoDup (map id (inactive_rows db team)) ->
  (0 < base_cap self -> cap_used < float_overflow * base_cap self) ->
  exists cap_percentage details,
    calculate_team_salary_cap self db team year
      = Ret (mkTeamCap team y (base_cap self) (PyInt cap_used) (PyInt cap_used) dead
               (PyInt (base_cap self - cap_used - dead)) cap_percentage details) /\
    (0 < base_cap self ->
       cap_percentage =
         PyFloat (SF2Prim (SFdiv prec emax (Z2SF cap_used) (Z2SF (base_cap self)))
                  * 100)%float) /\
    (base_cap self <= 0 -> cap_percentage = PyInt 0) /\
    (forall c, In c (active_rows db team) ->
       ~ 1 <= offset <= 5 -> h c = 0).
Proof.
  intros y offset cap_used dead Hactive Hids Hused.
  assert (Hnonneg : 0 <= cap_used).
  { apply sum_Z_nonneg. intros c _. lia. }
  assert (Hnone : forall c, In c (active_rows db team) -> ~ 1 <= offset <= 5 -> h c = 0).
  { intros c Hin Hoff.
    destruct (Hactive c Hin) as (c' & _ & Hc).
    destruct (year_index_cases offset) as [H | [H | [H | [H | [H | [H _]]]]]];
      try lia.
    rewrite H in Hc. congruence. }
  unfold calculate_team_salary_cap.
  fold y. fold offset. fold (active_rows db team).
  destruct (cap_used_loop_sum offset h (active_rows db team) Hactive 0 [])
    as [details Hloop].
  rewrite Hloop. cbn [bind Z.add]. fold cap_used.
  rewrite (team_dead_money_sum self db team y Hids). fold offset. fold dead.
  cbn [num_sub bind].
  destruct (Z.gtb_spec (base_cap self) 0) as [Hpos | Hzero].
  - cbn [num_truediv]. unfold int_truediv.
    destruct (Z.eqb_spec (base_cap self) 0) as [H0 | _]; [lia |].
    destruct (Z.ltb_spec (Z.abs cap_used) (float_overflow * Z.abs (base_cap self)))
      as [_ | Hge]; [| specialize (Hused Hpos); lia].
    cbn [bind num_mul num_float].
    assert (H100 : to_float 100 = Ret 100%float) by reflexivity.
    rewrite H100. cbn [bind].
    eexists. exists details. split; [reflexivity |].
    split; [intros _; reflexivity |].
    split; [intros H0; lia | exact Hnone].
  - cbn [bind].
    eexists. exists details. split; [reflexivity |].
    split; [intros H0; lia |].
    split; [intros _; reflexivity | exact Hnone].
Qed.

Lemma team_cap_summary_witness :
  exists cap_percentage details,
    calculate_team_salary_cap service_2024 overdrawn_league 1 (Some 2025)
      = Ret (mkTeamCap 1 2025 255400000 (PyInt 5250000) (PyInt 5250000) 0
               (PyInt 250150000) cap_percentage details) /\
    cap_percentage = PyFloat 2.0555990602975727.
Proof.
  destruct (team_cap_summary service_2024 overdrawn_league 1 (Some 2025)
              (fun c => match cap_hit_at c 2 with PyInt z => z | PyFloat _ => 0 end))
    as (pct & details & Heq & Hpct & _).
  - intros c Hin. vm_compute in Hin.
    destruct Hin as [<- | [<- | []]]; eexists;
      (split; [vm_compute; reflexivity | vm_compute; reflexivity]).
  - vm_compute. constructor.
  - intros _. vm_compute. reflexivity.
  - exists pct, details. split.
    + rewrite Heq. vm_compute. reflexivity.
    + rewrite Hpct by (vm_compute; reflexivity). vm_compute. reflexivity.
Defined.

Example league_cap_summary :
  calculate_team_salary_cap service_2024 league 1 None
    = Ret (mkTeamCap 1 2024 255400000 (PyInt 11000000) (PyInt 11000000) 1000000
             (PyInt 243400000) (PyFloat 4.306969459671104)
             [ mkContractDetail 7 (PyInt 5000000) (PyInt 5000000) "veteran";
               mkContractDetail 8 (PyInt 6000000) (PyInt 5000000) "veteran" ]).
Proof. vm_compute. reflexivity. Qed.

(** Whatever the rows hold, a summary that is returned has the base cap as
    its adjusted cap, counts every active contract ([top_51_cap_used] is
    [total_cap_used]) and has [cap_space = adjusted_cap - cap_used -
    dead_money] in the arithmetic of the interpreter. *)
Lemma team_cap_space_formula (self : SalaryCapService) (db : Ledger) (team : Z)
    (year : option Z) (summary : TeamCap) :
  calculate_team_salary_cap self db team year = Ret summary ->
  tc_adjusted_cap summary = base_cap self /\
  tc_top_51_cap_used summary = tc_total_cap_used summary /\
  tc_dead_money summary =
    sum_values (calculate_team_dead_money self db team (tc_year summary)) /\
  (d <- num_sub (PyInt (tc_adjusted_cap summary)) (tc_total_cap_used summary) ;;
   num_sub d (PyInt (tc_dead_money summary))) = Ret (tc_cap_space summary).
Proof.
  unfold calculate_team_salary_cap. intro H.
  destruct (cap_used_loop _ _ _ _) as [[total details] | e]; cbn [bind] in H;
    [| discriminate].
  destruct (num_sub (PyInt (base_cap self)) total) as [d |] eqn:Hd; cbn [bind] in H;
    [| discriminate].
  destruct (num_sub d _) as [space |] eqn:Hs; cbn [bind] in H; [| discriminate].
  match type of H with
  | bind ?m _ = _ => destruct m as [pct |]; cbn [bind] in H; [| discriminate]
  end.
  injection H as <-.
  cbn [tc_adjusted_cap tc_top_51_cap_used tc_total_cap_used tc_dead_money
       tc_cap_space tc_year].
  repeat split; try reflexivity.
  rewrite Hd. cbn [bind]. exact Hs.
Qed.

(** * Further properties of the services *)

(** ** Deriving cap hits twice *)

Lemma cap_hit_loop_writes (q : Z) (items : list (Z * num)) :
  forall (c c1 : Contract) (acc hits : list (Z * num)),
  cap_hit_loop q items c acc = (c1, Ret hits) ->
  exists w, cap_hit_writes q items = Ret w /\
            c1 = write_cap_hits w c /\ hits = acc ++ w.
Proof.
  induction items as [| [i sal] rest IH]; intros c c1 acc hits H;
    cbn [cap_hit_loop cap_hit_writes] in *.
  - injection H as <- <-. exists []. rewrite app_nil_r. repeat split.
  - destruct (num_gtb sal (PyInt 0)).
    + destruct (num_add sal (PyInt q)) as [v | e]; [| discriminate].
      destruct (IH _ _ _ _ H) as (w & Hw & Hc & Hh).
      exists ((i, v) :: w). rewrite Hw. cbn [bind].
      split; [reflexivity | split; [exact Hc |]].
      rewrite Hh, <- app_assoc. reflexivity.
    + apply IH. exact H.
Qed.

Lemma cap_hit_writes_loop (q : Z) (items : list (Z * num)) :
  forall (w : list (Z * num)) (c : Contract) (acc : list (Z * num)),
  cap_hit_writes q items = Ret w ->
  cap_hit_loop q items c acc = (write_cap_hits w c, Ret (acc ++ w)).
Proof.
  induction items as [| [i sal] rest IH]; intros w c acc H;
    cbn [cap_hit_loop cap_hit_writes] in *.
  - injection H as <-. rewrite app_nil_r. reflexivity.
  - destruct (num_gtb sal (PyInt 0)).
    + destruct (num_add sal (PyInt q)) as [v | e]; [| discriminate].
      cbn [bind] in H.
      destruct (cap_hit_writes q rest) as [w' | e] eqn:Hw; [| discriminate].
      cbn [bind] in H. injection H as <-.
      rewrite (IH w' _ _ eq_refl), <- app_assoc. reflexivity.
    + apply IH. exact H.
Qed.

Lemma write_cap_hits_frame (w : list (Z * num)) :
  forall c, exists h1 h2 h3 h4 h5, write_cap_hits w c = with_cap_hits h1 h2 h3 h4 h5 c.
Proof.
  induction w as [| [i v] rest IH]; intro c.
  - exists (year_1_cap_hit c), (year_2_cap_hit c), (year_3_cap_hit c),
      (year_4_cap_hit c), (year_5_cap_hit c).
    destruct c; reflexivity.
  - destruct (IH (set_cap_hit i v c)) as (h1 & h2 & h3 & h4 & h5 & H).
    exists h1, h2, h3, h4, h5.
    unfold write_cap_hits in *. cbn [fold_left fst snd]. rewrite H. reflexivity.
Qed.

Lemma write_cap_hits_at (w : list (Z * num)) :
  forall (c : Contract) (j : Z),
  1 <= j <= 5 ->
  cap_hit_at (write_cap_hits w c) j =
    match written w j with Some v => v | None => cap_hit_at c j end.
Proof.
  induction w as [| [i v] rest IH]; intros c j Hj; [reflexivity |].
  unfold write_cap_hits in *. cbn [fold_left fst snd written].
  rewrite (IH _ j Hj).
  destruct (written rest j); [reflexivity |].
  destruct (Z.eqb_spec i j) as [-> | Hne].
  - apply cap_hit_set_same. exact Hj.
  - apply cap_hit_set_other. exact Hne.
Qed.

Lemma with_cap_hits_eq (h1 h2 h3 h4 h5 k1 k2 k3 k4 k5 : num) (c : Contract) :
  (forall j, 1 <= j <= 5 ->
     cap_hit_at (with_cap_hits h1 h2 h3 h4 h5 c) j
       = cap_hit_at (with_cap_hits k1 k2 k3 k4 k5 c) j) ->
  with_cap_hits h1 h2 h3 h4 h5 c = with_cap_hits k1 k2 k3 k4 k5 c.
Proof.
  intro H.
  assert (H1 := H 1 ltac:(lia)). assert (H2 := H 2 ltac:(lia)).
  assert (H3 := H 3 ltac:(lia)). assert (H4 := H 4 ltac:(lia)).
  assert (H5 := H 5 ltac:(lia)).
  cbn [cap_hit_at with_cap_hits year_1_cap_hit year_2_cap_hit year_3_cap_hit
       year_4_cap_hit year_5_cap_hit] in H1, H2, H3, H4, H5.
  subst. reflexivity.
Qed.

Lemma write_cap_hits_twice (w : list (Z * num)) (c : Contract) :
  write_cap_hits w (write_cap_hits w c) = write_cap_hits w c.
Proof.
  destruct (write_cap_hits_frame w c) as (h1 & h2 & h3 & h4 & h5 & H1).
  destruct (write_cap_hits_frame w (write_cap_hits w c))
    as (k1 & k2 & k3 & k4 & k5 & H2).
  assert (Hat : forall j, 1 <= j <= 5 ->
            cap_hit_at (write_cap_hits w (write_cap_hits w c)) j
              = cap_hit_at (write_cap_hits w c) j).
  { intros j Hj. rewrite (write_cap_hits_at w (write_cap_hits w c) j Hj).
    rewrite (write_cap_hits_at w c j Hj).
    destruct (written w j); reflexivity. }
  rewrite H2 in *. rewrite H1 in *.
  change (with_cap_hits k1 k2 k3 k4 k5 (with_cap_hits h1 h2 h3 h4 h5 c))
    with (with_cap_hits k1 k2 k3 k4 k5 c) in *.
  apply with_cap_hits_eq. exact Hat.
Qed.

(** X1. Deriving cap hits is idempotent: on the contract that a derivation
    returned, a second derivation returns the same dictionary and leaves
    the contract as it is. *)
Theorem cap_hits_idempotent (c c1 : Contract) (hits : list (Z * num)) :
  calculate_contract_cap_hits c = (c1, Ret hits) ->
  calculate_contract_cap_hits c1 = (c1, Ret hits).
Proof.
  intro H.
  destruct (calculate_frame c) as (h1 & h2 & h3 & h4 & h5 & Hfr).
  rewrite H in Hfr. cbn [fst] in Hfr.
  destruct (is_active c) eqn:Ha.
  - assert (E : calculate_contract_cap_hits c1 =
                cap_hit_loop (proration c)
                  (enumerate (slice_to [year_1_salary c; year_2_salary c; year_3_salary c;
                                        year_4_salary c; year_5_salary c] (years c)) 1)
                  c1 []).
    { rewrite Hfr. unfold calculate_contract_cap_hits, proration.
      cbn [with_cap_hits is_active years signing_bonus year_1_salary year_2_salary
           year_3_salary year_4_salary year_5_salary].
      rewrite Ha. reflexivity. }
    unfold calculate_contract_cap_hits in H. rewrite Ha in H. cbn [negb] in H.
    destruct (cap_hit_loop_writes _ _ _ _ _ _ H) as (w & Hw & Hc & Hh).
    rewrite E, (cap_hit_writes_loop _ _ w c1 [] Hw).
    rewrite Hc at 1. rewrite write_cap_hits_twice, <- Hc, Hh. reflexivity.
  - unfold calculate_contract_cap_hits in H. rewrite Ha in H. cbn [negb] in H.
    injection H as <- <-.
    unfold calculate_contract_cap_hits. rewrite Ha. reflexivity.
Qed.

Lemma cap_hits_idempotent_witness :
  exists c1 hits,
    calculate_contract_cap_hits zero_salary_contract = (c1, Ret hits) /\
    calculate_contract_cap_hits c1 = (c1, Ret hits).
Proof.
  eexists. eexists. split; [reflexivity |].
  apply (cap_hits_idempotent zero_salary_contract). reflexivity.
Defined.

(** ** Restructure: what succeeds, what fails *)

(** X2. On an active contract of one to five years with int salaries, a
    restructure of an amount up to the year-1 salary succeeds: it moves the
    amount from the year-1 salary to the signing bonus, so that their sum
    is conserved, leaves the later salaries, the years, the total value and
    the guaranteed money as they were, and reports the new year-1 cap hit
    [salary + floor(bonus / years)], which is also the stored one as long
    as some year-1 salary is left. *)
Theorem restructure_conserves_dollars (self : SalaryCapService) (c : Contract)
    (amount s : Z) :
  is_active c = true ->
  1 <= years c <= 5 ->
  year_1_salary c = PyInt s ->
  (forall y, 1 <= y <= years c -> exists z, salary_at c y = PyInt z) ->
  amount <= s ->
  exists c' r,
    restructure_contract self c amount = (c', Ret (Success r)) /\
    year_1_salary c' = PyInt (s - amount) /\
    signing_bonus c' = signing_bonus c + amount /\
    (s - amount) + (signing_bonus c + amount) = s + signing_bonus c /\
    (forall y, 2 <= y -> salary_at c' y = salary_at c y) /\
    years c' = years c /\
    total_value c' = total_value c /\
    guaranteed_money c' = guaranteed_money c /\
    rs_restructure_amount r = amount /\
    rs_new_cap_hit r = PyInt (s - amount + (signing_bonus c + amount) / years c) /\
    (amount < s -> year_1_cap_hit c' = rs_new_cap_hit r).
Proof.
  intros Hact Hy Hs Hints Hle.
  set (c2 := set_year_1_salary (PyInt (s - amount))
               (set_signing_bonus (signing_bonus c + amount) c)).
  assert (Hy2 : 1 <= years c2 <= 5) by exact Hy.
  destruct (enumerated_salaries c2 Hy2) as [Hnd Hitems].
  destruct (cap_hit_loop_total (proration c2)
              (enumerate (slice_to [year_1_salary c2; year_2_salary c2; year_3_salary c2;
                                    year_4_salary c2; year_5_salary c2] (years c2)) 1))
    with (c := c2) (acc := @nil (Z * num)) as (c' & hits & Hloop).
  { intros i sal Hin. apply Hitems in Hin. destruct Hin as [Hi ->].
    destruct (Z.eq_dec i 1) as [-> | Hne]; [eexists; reflexivity |].
    destruct (Hints i Hi) as [z Hz]. exists z. rewrite <- Hz.
    destruct (year_index_cases i) as [-> | [-> | [-> | [-> | [-> | [_ H0]]]]]];
      try reflexivity; try congruence. }
  assert (Hcalc : calculate_contract_cap_hits c2 = (c', Ret hits)).
  { unfold calculate_contract_cap_hits.
    change (is_active c2) with (is_active c). rewrite Hact. exact Hloop. }
  destruct (calculate_frame c2) as (h1 & h2 & h3 & h4 & h5 & Hfr).
  rewrite Hcalc in Hfr. cbn [fst] in Hfr.
  assert (Hq : proration c2 = (signing_bonus c + amount) / years c).
  { unfold proration. change (years c2) with (years c).
    destruct (Z.gtb_spec (years c) 0); [reflexivity | lia]. }
  assert (Hres : restructure_contract self c amount =
                 (c', Ret (Success (mkRestructureResult (PyInt amount)
                        (PyInt (s - amount + (signing_bonus c + amount) / years c))
                        amount)))).
  { unfold restructure_contract. rewrite Hact. cbn [negb salary_at]. rewrite Hs.
    unfold num_ltb. destruct (Z.ltb_spec s amount); [lia |].
    cbn [num_sub on_raise]. fold c2. rewrite Hcalc.
    rewrite Hfr. cbn [with_cap_hits signing_bonus years].
    change (signing_bonus c2) with (signing_bonus c + amount).
    change (years c2) with (years c).
    unfold int_floordiv.
    destruct (Z.eqb_spec (years c) 0); [lia |].
    cbn [bind num_add num_sub].
    do 4 f_equal. f_equal. lia. }
  exists c', (mkRestructureResult (PyInt amount)
                (PyInt (s - amount + (signing_bonus c + amount) / years c)) amount).
  split; [exact Hres |].
  rewrite Hfr.
  repeat split; try reflexivity; try lia.
  - intros y Hy'.
    destruct (year_index_cases y) as [-> | [-> | [-> | [-> | [-> | [_ H0]]]]]];
      try reflexivity; try lia.
    rewrite !H0. reflexivity.
  - intro Hlt. rewrite <- Hfr.
    unfold calculate_contract_cap_hits in Hcalc.
    change (is_active c2) with (is_active c) in Hcalc. rewrite Hact in Hcalc.
    cbn [negb] in Hcalc.
    assert (Hrange : forall i sal,
               In (i, sal) (enumerate (slice_to [year_1_salary c2; year_2_salary c2;
                 year_3_salary c2; year_4_salary c2; year_5_salary c2] (years c2)) 1) ->
               1 <= i <= 5)
      by (intros i sal Hin; apply Hitems in Hin; lia).
    destruct (cap_hit_loop_spec _ _ _ _ _ _ Hcalc Hnd Hrange) as [Hin _].
    destruct (Hin 1 (PyInt (s - amount))) as [Ht _].
    { apply Hitems. split; [lia | reflexivity]. }
    assert (Hpos : num_gtb (PyInt (s - amount)) (PyInt 0) = true)
      by (unfold num_gtb, num_ltb; apply Z.ltb_lt; lia).
    specialize (Ht Hpos). rewrite Hq in Ht. cbn [num_add] in Ht.
    injection Ht as Ht. cbn [cap_hit_at] in Ht. cbn [rs_new_cap_hit]. congruence.
Qed.

Lemma restructure_conserves_dollars_witness :
  exists c' r,
    restructure_contract service_2024 bonus_contract 2000000 = (c', Ret (Success r)) /\
    year_1_salary c' = PyInt (5000000 - 2000000) /\
    signing_bonus c' = 3000000 + 2000000.
Proof.
  destruct (restructure_conserves_dollars service_2024 bonus_contract 2000000 5000000)
    as (c' & r & H & Hs & Hb & _).
  - reflexivity.
  - change (years bonus_contract) with 3. lia.
  - reflexivity.
  - change (years bonus_contract) with 3. intros y Hy.
    assert (Hc : y = 1 \/ y = 2 \/ y = 3) by lia.
    destruct Hc as [-> | [-> | ->]]; eexists; reflexivity.
  - lia.
  - exists c', r. split; [exact H | split; [exact Hs | exact Hb]].
Defined.



(** ** The id of a row *)

Lemma next_id_above (rows : list Contract) (c : Contract) (i : Z) :
  In c rows -> id c = Some i -> i < next_id rows.
Proof.
  unfold next_id. induction rows as [| b rest IH]; intros Hin Hi; [destruct Hin |].
  cbn [fold_right]. destruct Hin as [-> | Hin].
  - rewrite Hi. lia.
  - specialize (IH Hin Hi). destruct (id b); lia.
Qed.

Lemma next_id_fresh (rows : list Contract) : ~ In (Some (next_id rows)) (map id rows).
Proof.
  intro H. apply in_map_iff in H. destruct H as (c & Hid & Hin).
  pose proof (next_id_above rows c (next_id rows) Hin Hid). lia.
Qed.


Lemma in_store_at {A : Type} (l : list A) :
  forall (n : nat) (a x : A), In x (store_at n a l) -> x = a \/ In x l.
Proof.
  induction l as [| b rest IH]; intros n a x H; [destruct n; destruct H |].
  destruct n as [| n']; cbn [store_at] in H; destruct H as [<- | H].
  - left. reflexivity.
  - right. right. exact H.
  - right. left. reflexivity.
  - destruct (IH n' a x H) as [-> | Hin]; [left; reflexivity | right; right; exact Hin].
Qed.

Lemma restructure_contract_id (self : SalaryCapService) (c : Contract) (amount : Z) :
  id (fst (restructure_contract self c amount)) = id c.
Proof.
  unfold restructure_contract.
  destruct (negb (is_active c)); [reflexivity |].
  destruct (num_ltb _ _); [reflexivity |].
  destruct (num_sub _ _) as [v | e]; cbn [on_raise]; [| reflexivity].
  match goal with
  | |- context [calculate_contract_cap_hits ?x] =>
      destruct (calculate_frame x) as (h1 & h2 & h3 & h4 & h5 & Hfr);
      destruct (calculate_contract_cap_hits x) as [c1 [hits | e]]
  end; cbn in Hfr; subst c1; reflexivity.
Qed.

(** What a release that succeeds leaves in the row. *)
Lemma release_player_success (self : SalaryCapService) (c c' : Contract)
    (post_june_1 : bool) (r : ReleaseResult) :
  release_player self c post_june_1 = (c', Ret (Success r)) ->
  is_active c = true /\ is_active c' = false /\ id c' = id c /\
  player_id c' = player_id c /\ team_id c' = team_id c /\
  year_1_salary c' = year_1_salary c.
Proof.
  unfold release_player.
  destruct (is_active c); cbn [negb]; [| discriminate].
  destruct post_june_1; [destruct (int_floordiv _ _) |]; cbn [bind on_raise];
    try discriminate;
    intro H; injection H as <- _; repeat split.
Qed.

Lemma release_player_id (self : SalaryCapService) (c : Contract) (post_june_1 : bool) :
  id (fst (release_player self c post_june_1)) = id c.
Proof.
  unfold release_player.
  destruct (negb (is_active c)); [reflexivity |].
  destruct post_june_1; [destruct (int_floordiv _ _) |]; reflexivity.
Qed.

(** ** Looking a row up after it was written *)

Lemma first_index_store_at {A : Type} (f : A -> bool) (l : list A) :
  forall (n : nat) (a : A),
  first_index f l = Some n -> f a = true ->
  first_index f (store_at n a l) = Some n /\ find f (store_at n a l) = Some a.
Proof.
  induction l as [| b rest IH]; intros n a Hn Ha; [discriminate |].
  cbn [first_index] in Hn. destruct (f b) eqn:Hb.
  - injection Hn as <-. cbn [store_at first_index find]. rewrite Ha. split; reflexivity.
  - destruct (first_index f rest) as [k |] eqn:Hk; [| discriminate].
    injection Hn as <-. cbn [store_at first_index find]. rewrite Hb.
    destruct (IH k a eq_refl Ha) as [H1 H2]. rewrite H1, H2. split; reflexivity.
Qed.



(** X5. A release is final: once [release_player] has succeeded on a
    contract id, a second release and a restructure of that id both answer
    "Contract is not active" and leave the ledger as it is. *)
Theorem released_contract_is_final (service : SalaryCapService) (db db' : Ledger)
    (cid : Z) (post_june_1 : bool) (r : ReleaseResult) :
  service_release_player service db cid post_june_1 = (db', Ret (Success r)) ->
  (forall again,
     service_release_player service db' cid again
       = (db', Ret (Failure "Contract is not active"%string))) /\
  (forall amount,
     service_restructure_contract service db' cid amount
       = (db', Ret (Failure "Contract is not active"%string))).
Proof.
  unfold service_release_player at 1.
  set (by_id := fun c : Contract => id_eqb (id c) (Some cid)).
  pose proof (first_index_find by_id (contracts db)) as Hff.
  destruct (first_index by_id (contracts db)) as [n |] eqn:Hidx;
    destruct (find by_id (contracts db)) as [c |] eqn:Hfind;
    try contradiction; try discriminate.
  destruct Hff as [Hn Hc].
  destruct (release_player service c post_june_1) as [c' [[r' | msg] | e]] eqn:Hrel;
    try discriminate.
  destruct (commit_row c') as [row | e] eqn:Hcommit; [| discriminate].
  intro H. injection H as <- <-.
  apply commit_row_stored in Hcommit. destruct Hcommit as [_ ->].
  destruct (release_player_success _ _ _ _ _ Hrel) as (_ & Hoff & Hid & _).
  change (is_active c') with (is_active (stored_row c')) in Hoff.
  change (id c') with (id (stored_row c')) in Hid.
  assert (Hc' : by_id (stored_row c') = true)
    by (unfold by_id in *; rewrite Hid; exact Hc).
  destruct (first_index_store_at by_id (contracts db) n (stored_row c') Hidx Hc')
    as [H1 H2].
  split.
  - intro again. unfold service_release_player. cbn [contracts players].
    fold by_id. rewrite H1, H2.
    unfold release_player. rewrite Hoff. reflexivity.
  - intro amount. unfold service_restructure_contract. cbn [contracts players].
    fold by_id. rewrite H1, H2, Hoff. reflexivity.
Qed.

Lemma released_contract_is_final_witness :
  exists db',
    fst (service_release_player service_2024 league 2 true) = db' /\
    service_release_player service_2024 db' 2 false
      = (db', Ret (Failure "Contract is not active"%string)).
Proof.
  eexists. split; [reflexivity |].
  refine (proj1 (released_contract_is_final service_2024 league _ 2 true _ _) false).
  vm_compute. reflexivity.
Defined.

(** ** Franchise tag *)

Lemma multiplier_in (table : list (string * float)) (position : string) :
  multiplier table position = 1.0%float \/
  In (multiplier table position) (map snd table).
Proof.
  induction table as [| [k v] rest IH]; [left; reflexivity |].
  cbn [multiplier map snd]. destruct (String.eqb k position).
  - right. left. reflexivity.
  - destruct IH as [H | H]; [left; exact H | right; right; exact H].
Qed.

Lemma multiplier_absent (table : list (string * float)) (position : string) :
  ~ In position (map fst table) -> multiplier table position = 1.0%float.
Proof.
  induction table as [| [k v] rest IH]; intro H; [reflexivity |].
  cbn [multiplier]. destruct (String.eqb_spec k position) as [-> | Hne].
  - exfalso. apply H. left. reflexivity.
  - apply IH. intro Hin. apply H. right. exact Hin.
Qed.

(** X6. [calculate_franchise_tag_amount] returns for every position code,
    never raises, and the amount lies between 16,000,000 and 40,000,000;
    a code that the table does not list gets the base tag 20,000,000. *)
Theorem franchise_tag_amount_range (position : string) :
  exists amount,
    calculate_franchise_tag_amount position = Ret amount /\
    16000000 <= amount <= 40000000 /\
    (~ In position ["QB"; "DE"; "WR"; "CB"; "LT"; "TE"; "RB"; "ILB"]%string ->
     amount = 20000000).
Proof.
  unfold calculate_franchise_tag_amount.
  assert (Hb : to_float 20000000 = Ret 20000000%float) by (vm_compute; reflexivity).
  rewrite Hb. cbn [bind].
  destruct (multiplier_in franchise_multipliers position) as [H | H].
  - rewrite H. exists 20000000.
    split; [vm_compute; reflexivity | split; [lia | reflexivity]].
  - cbn [franchise_multipliers map snd In] in H.
    assert (Hlisted : ~ In position ["QB"; "DE"; "WR"; "CB"; "LT"; "TE"; "RB"; "ILB"]%string ->
                      multiplier franchise_multipliers position = 1.0%float)
      by (intro Hn; apply multiplier_absent; exact Hn).
    destruct H as [H | [H | [H | [H | [H | [H | [H | [H | []]]]]]]]];
      rewrite <- H in *;
      (eexists; split; [vm_compute; reflexivity |
         split; [lia |
           intro Hn;
           first [ reflexivity
                 | specialize (Hlisted Hn); apply (f_equal Prim2SF) in Hlisted;
                   vm_compute in Hlisted; discriminate Hlisted ]]]).
Qed.

(** The tag amount is returned and positive for every position. *)
Lemma franchise_tag_amount_bounds (position : string) :
  exists amount,
    calculate_franchise_tag_amount position = Ret amount /\ 0 < amount.
Proof.
  unfold calculate_franchise_tag_amount.
  assert (Hb : to_float 20000000 = Ret 20000000%float) by (vm_compute; reflexivity).
  rewrite Hb. cbn [bind].
  destruct (multiplier_in franchise_multipliers position) as [H | H].
  - rewrite H. exists 20000000. split; [vm_compute; reflexivity | lia].
  - cbn [franchise_multipliers map snd In] in H.
    destruct H as [H | [H | [H | [H | [H | [H | [H | [H | []]]]]]]]];
      rewrite <- H; (eexists; split; [vm_compute; reflexivity | lia]).
Qed.


(** X7. [franchise_tag_player] adds no row, whatever the ledger, the
    player and the team.  It answers "Player not found" for an unknown
    player and "Player is already under contract" for a player with an
    active contract; for a known player without one it raises [TypeError]:
    the one-year contract is built without a signing bonus, and the
    derivation of its cap hit divides that [None] by the year before the
    contract is added to the session. *)
Theorem franchise_tag_never_signs (db : Ledger) (now utcnow : datetime)
    (pid tid : Z) :
  fst (franchise_tag_player db now utcnow pid tid) = db /\
  (query_player db pid = None ->
   snd (franchise_tag_player db now utcnow pid tid)
     = Ret (Failure "Player not found"%string)) /\
  (forall player c,
     query_player db pid = Some player ->
     get_player_contract db pid = Some c ->
     snd (franchise_tag_player db now utcnow pid tid)
       = Ret (Failure "Player is already under contract"%string)) /\
  (forall player,
     query_player db pid = Some player ->
     get_player_contract db pid = None ->
     snd (franchise_tag_player db now utcnow pid tid) = Raise TypeError).
Proof.
  split; [apply franchise_tag_ledger |].
  unfold franchise_tag_player.
  split; [intros ->; reflexivity |].
  split; [intros player c -> ->; reflexivity |].
  intros player -> ->.
  destruct (franchise_tag_amount_bounds (position player)) as (amount & -> & _).
  reflexivity.
Qed.

(** ** Signing an extension *)







(** ** The dead money dictionary *)

Lemma dict_set_in (d : list (option Z * Z)) (k : option Z) (v : Z) :
  forall k' v', In (k', v') (dict_set d k v) -> (k' = k /\ v' = v) \/ In (k', v') d.
Proof.
  induction d as [| [k0 v0] rest IH]; intros k' v' H; cbn [dict_set] in H.
  - destruct H as [H | []]. injection H as <- <-. left. split; reflexivity.
  - destruct (id_eqb k0 k).
    + destruct H as [H | H]; [injection H as <- <-; left; split; reflexivity |].
      right. right. exact H.
    + destruct H as [H | H]; [right; left; exact H |].
      destruct (IH _ _ H) as [Hl | Hr]; [left; exact Hl | right; right; exact Hr].
Qed.

Lemma dict_set_keys (d : list (option Z * Z)) (k : option Z) (v : Z) :
  forall k', In k' (map fst (dict_set d k v)) <-> k' = k \/ In k' (map fst d).
Proof.
  induction d as [| [k0 v0] rest IH]; intro k'; cbn [dict_set map fst In].
  - intuition congruence.
  - destruct (id_eqb k0 k) eqn:Heq.
    + apply id_eqb_eq in Heq. subst k0. cbn [map fst In]. intuition congruence.
    + cbn [map fst In]. rewrite IH. intuition congruence.
Qed.

Lemma dict_set_nodup (d : list (option Z * Z)) (k : option Z) (v : Z) :
  NoDup (map fst d) -> NoDup (map fst (dict_set d k v)).
Proof.
  induction d as [| [k0 v0] rest IH]; intro H; cbn [dict_set].
  - repeat constructor. intros [].
  - cbn [map fst] in H. inversion H as [| ? ? Hnotin Hnd]; subst.
    destruct (id_eqb k0 k) eqn:Heq.
    + apply id_eqb_eq in Heq. subst k0. cbn [map fst]. constructor; assumption.
    + cbn [map fst]. constructor; [| apply IH; exact Hnd].
      rewrite dict_set_keys. intros [-> | Hin]; [| exact (Hnotin Hin)].
      assert (Ht : id_eqb k k = true) by (apply id_eqb_eq; reflexivity).
      congruence.
Qed.

(** X9. The dictionary of [calculate_team_dead_money] has one entry per
    contract id; every entry is the positive dead money, at the offset of
    the year, of an inactive contract of the team under that id; and every
    inactive contract of the team with positive dead money there has its
    id among the keys.  An active contract never contributes. *)
Theorem dead_money_dictionary (self : SalaryCapService) (db : Ledger) (team year : Z) :
  let offset := year - current_year self + 1 in
  let d := calculate_team_dead_money self db team year in
  NoDup (map fst d) /\
  (forall k v, In (k, v) d ->
     0 < v /\
     exists c, In c (contracts db) /\ team_id c = team /\ is_active c = false /\
               id c = k /\ dead_money_at c offset = v) /\
  (forall c, In c (contracts db) -> team_id c = team -> is_active c = false ->
     0 < dead_money_at c offset -> In (id c) (map fst d)).
Proof.
  intros offset d. subst d. unfold calculate_team_dead_money. fold offset.
  set (rows := filter (fun c => of_team team c && negb (is_active c)) (contracts db)).
  assert (Hrows : forall c, In c rows <->
            In c (contracts db) /\ team_id c = team /\ is_active c = false).
  { intro c. subst rows. rewrite filter_In. unfold of_team.
    rewrite andb_true_iff, Z.eqb_eq, negb_true_iff. tauto. }
  set (step := fun (dead_money : list (option Z * Z)) (contract : Contract) =>
                 let dead_money_amount := dead_money_at contract offset in
                 if dead_money_amount >? 0
                 then dict_set dead_money (id contract) dead_money_amount
                 else dead_money).
  assert (Hfold : forall l d0,
            NoDup (map fst d0) ->
            NoDup (map fst (fold_left step l d0)) /\
            (forall k v, In (k, v) (fold_left step l d0) ->
               In (k, v) d0 \/
               (0 < v /\ exists c, In c l /\ id c = k /\ dead_money_at c offset = v)) /\
            (forall k, In k (map fst d0) -> In k (map fst (fold_left step l d0))) /\
            (forall c, In c l -> 0 < dead_money_at c offset ->
               In (id c) (map fst (fold_left step l d0)))).
  { induction l as [| c rest IH]; intros d0 Hnd; cbn [fold_left].
    - repeat split; [exact Hnd | auto | auto | intros c []].
    - assert (Hnd' : NoDup (map fst (step d0 c))).
      { unfold step. cbv zeta. destruct (dead_money_at c offset >? 0);
          [apply dict_set_nodup |]; exact Hnd. }
      destruct (IH (step d0 c) Hnd') as (H1 & H2 & H3 & H4).
      assert (Hkeep : forall k, In k (map fst d0) -> In k (map fst (step d0 c))).
      { intros k Hk. unfold step. cbv zeta. destruct (dead_money_at c offset >? 0);
          [apply dict_set_keys; right |]; exact Hk. }
      repeat split.
      + exact H1.
      + intros k v Hin. destruct (H2 k v Hin) as [Hd | (Hv & c0 & Hc0 & Hk & Hdm)].
        * unfold step in Hd. cbv zeta in Hd.
          destruct (Z.gtb_spec (dead_money_at c offset) 0) as [Hgt | Hle];
            [| left; exact Hd].
          destruct (dict_set_in _ _ _ _ _ Hd) as [[-> ->] | Hold];
            [| left; exact Hold].
          right. split; [lia |]. exists c. repeat split. left. reflexivity.
        * right. split; [exact Hv |]. exists c0. repeat split; try assumption.
          right. exact Hc0.
      + intros k Hk. apply H3, Hkeep, Hk.
      + intros c0 [<- | Hin] Hpos.
        * apply H3. unfold step. cbv zeta.
          destruct (Z.gtb_spec (dead_money_at c offset) 0); [| lia].
          apply dict_set_keys. left. reflexivity.
        * apply H4; assumption. }
  destruct (Hfold rows [] (NoDup_nil _)) as (H1 & H2 & _ & H4).
  split; [exact H1 | split].
  - intros k v Hin. destruct (H2 k v Hin) as [[] | (Hv & c & Hc & Hk & Hdm)].
    split; [exact Hv |]. exists c. apply Hrows in Hc. tauto.
  - intros c Hc Ht Ha Hpos. apply H4; [apply Hrows; tauto | exact Hpos].
Qed.

(** ** The summary outside the years a contract can cover *)

Lemma cap_used_loop_outside (offset : Z) (rows : list Contract) :
  ~ 1 <= offset <= 5 ->
  (forall c, In c rows -> exists c', ensure_cap_hits c = Ret c') ->
  forall (total : num) (details : list ContractDetail),
  cap_used_loop offset rows total details = Ret (total, details).
Proof.
  intros Hoff. induction rows as [| c rest IH]; intros Hrows total details;
    cbn [cap_used_loop]; [reflexivity |].
  destruct (Hrows c (or_introl eq_refl)) as [c' Hc']. rewrite Hc'. cbn [bind].
  assert (H0 : cap_hit_at c' offset = PyInt 0).
  { destruct (year_index_cases offset) as [H | [H | [H | [H | [H | [H _]]]]]];
      try lia. apply H. }
  rewrite H0. change (num_gtb (PyInt 0) (PyInt 0)) with false.
  apply IH. intros; apply Hrows; right; assumption.
Qed.

(** X10. For a year before the current one or five or more years after it,
    no contract has an entry: the summary reports no cap use, no dead
    money, no contract detail, and the whole base cap as cap space,
    whatever the contracts of the team are. *)
Theorem summary_outside_window (self : SalaryCapService) (db : Ledger) (team year : Z) :
  ~ 0 <= year - current_year self <= 4 ->
  (forall c, In c (active_rows db team) -> exists c', ensure_cap_hits c = Ret c') ->
  0 <= base_cap self < float_overflow ->
  exists cap_percentage,
    calculate_team_salary_cap self db team (Some year)
      = Ret (mkTeamCap team year (base_cap self) (PyInt 0) (PyInt 0) 0
               (PyInt (base_cap self)) cap_percentage []).
Proof.
  intros Hwin Hrows Hcap.
  assert (Hoff : ~ 1 <= year - current_year self + 1 <= 5) by lia.
  unfold calculate_team_salary_cap. fold (active_rows db team).
  rewrite (cap_used_loop_outside _ _ Hoff Hrows). cbn [bind].
  assert (Hdead : calculate_team_dead_money self db team year = []).
  { unfold calculate_team_dead_money.
    induction (filter _ (contracts db)) as [| c rest IH]; [reflexivity |].
    cbn [fold_left].
    assert (H0 : dead_money_at c (year - current_year self + 1) = 0).
    { destruct (year - current_year self + 1) as [| p | p]; try reflexivity.
      do 3 (try destruct p as [p | p |]); try reflexivity; lia. }
    rewrite H0. exact IH. }
  rewrite Hdead. change (sum_values []) with 0.
  cbn [num_sub bind]. rewrite !Z.sub_0_r.
  destruct (Z.gtb_spec (base_cap self) 0) as [Hpos | Hzero].
  - cbn [num_truediv]. pose proof small_below_overflow as Hsmall.
    rewrite (int_truediv_returns 0 (base_cap self)) by lia.
    cbn [bind num_mul num_float].
    rewrite to_float_returns by lia. cbn [bind].
    eexists. reflexivity.
  - cbn [bind]. eexists. reflexivity.
Qed.

Lemma summary_outside_window_witness :
  exists cap_percentage,
    calculate_team_salary_cap service_2024 league 1 (Some 2030)
      = Ret (mkTeamCap 1 2030 255400000 (PyInt 0) (PyInt 0) 0 (PyInt 255400000)
               cap_percentage []).
Proof.
  apply (summary_outside_window service_2024 league 1 2030).
  - change (current_year service_2024) with 2024. lia.
  - intros c Hin. vm_compute in Hin.
    destruct Hin as [<- | [<- | []]]; eexists; vm_compute; reflexivity.
  - split; [vm_compute; discriminate | reflexivity].
Defined.

(** ** The simple cap accounting of SalaryService and TeamService *)

Lemma py_sum_ints_from (zs : list Z) (a : Z) :
  fold_left (fun acc x => a0 <- acc ;; num_add a0 x) (map PyInt zs) (Ret (PyInt a))
    = Ret (PyInt (a + sum_Z zs)).
Proof.
  revert a. induction zs as [| z rest IH]; intro a; cbn [map fold_left sum_Z fold_right].
  - rewrite Z.add_0_r. reflexivity.
  - cbn [bind num_add]. rewrite IH. fold (sum_Z rest). do 2 f_equal. lia.
Qed.

Lemma py_sum_ints (w : Contract -> Z) (rows : list Contract) :
  (forall c, In c rows -> year_1_salary c = PyInt (w c)) ->
  py_sum (map year_1_salary rows) = Ret (PyInt (sum_Z (map w rows))).
Proof.
  intro H. unfold py_sum.
  assert (E : map year_1_salary rows = map PyInt (map w rows)).
  { rewrite map_map. apply map_ext_in. exact H. }
  rewrite E, py_sum_ints_from. reflexivity.
Qed.

Lemma weight_store_at {A : Type} (g : A -> bool) (w : A -> Z) (l : list A) :
  forall (n : nat) (c a : A),
  nth_error l n = Some c ->
  sum_Z (map w (filter g (store_at n a l))) + (if g c then w c else 0)
    = sum_Z (map w (filter g l)) + (if g a then w a else 0).
Proof.
  induction l as [| b rest IH]; intros n c a Hn; [destruct n; discriminate |].
  destruct n as [| n'].
  - injection Hn as ->. cbn [store_at filter].
    destruct (g c), (g a); cbn [map sum_Z fold_right]; unfold sum_Z; lia.
  - cbn [nth_error] in Hn. specialize (IH n' c a Hn).
    cbn [store_at filter]. destruct (g b); cbn [map sum_Z fold_right];
      unfold sum_Z in *; lia.
Qed.

Lemma filter_store_at_other {A : Type} (g : A -> bool) (l : list A) :
  forall (n : nat) (c a : A),
  nth_error l n = Some c -> g c = false -> g a = false ->
  filter g (store_at n a l) = filter g l.
Proof.
  induction l as [| b rest IH]; intros n c a Hn Hc Ha; [destruct n; discriminate |].
  destruct n as [| n'].
  - injection Hn as ->. cbn [store_at filter]. rewrite Hc, Ha. reflexivity.
  - cbn [nth_error] in Hn. cbn [store_at filter].
    rewrite (IH n' c a Hn Hc Ha). reflexivity.
Qed.

(** X11. In the simple accounting of [SalaryService] (the sum of the
    year-1 salaries of the active contracts of a team), releasing a
    contract with year-1 salary [z] lowers the cap used by its team by
    exactly [z], so the cap space rises by [z] and no dead money is
    charged; the figures of every other team stay as they are. *)
Theorem release_frees_year_1_salary (service : SalaryCapService) (self : SalaryService)
    (db db' : Ledger) (cid : Z) (post_june_1 : bool) (r : ReleaseResult)
    (released : Contract) (z : Z) :
  service_release_player service db cid post_june_1 = (db', Ret (Success r)) ->
  find (fun c => id_eqb (id c) (Some cid)) (contracts db) = Some released ->
  year_1_salary released = PyInt z ->
  (forall c, In c (get_team_contracts db (team_id released)) ->
     exists z', year_1_salary c = PyInt z') ->
  exists used,
    get_team_salary_cap_used db (team_id released) = Ret (PyInt used) /\
    get_team_salary_cap_used db' (team_id released) = Ret (PyInt (used - z)) /\
    get_team_cap_space self db' (team_id released)
      = Ret (PyInt (salary_cap self - used + z)) /\
    (forall t, t <> team_id released ->
       get_team_salary_cap_used db' t = get_team_salary_cap_used db t).
Proof.
  intros Hrel Hfind Hz Hints.
  unfold service_release_player in Hrel.
  set (by_id := fun c : Contract => id_eqb (id c) (Some cid)) in *.
  pose proof (first_index_find by_id (contracts db)) as Hff.
  rewrite Hfind in Hrel, Hff.
  destruct (first_index by_id (contracts db)) as [n |]; [| contradiction].
  destruct Hff as [Hn _].
  destruct (release_player service released post_june_1) as [c0 [[r' | msg] | e]] eqn:Hr;
    try discriminate.
  destruct (commit_row c0) as [c' | e] eqn:Hcommit; [| discriminate].
  injection Hrel as <- <-.
  apply commit_row_stored in Hcommit. destruct Hcommit as [_ Hstored].
  destruct (release_player_success _ _ _ _ _ Hr) as (Hact & Hoff & _ & _ & Hteam & _).
  change (is_active c0) with (is_active (stored_row c0)) in Hoff.
  change (team_id c0) with (team_id (stored_row c0)) in Hteam.
  rewrite <- Hstored in Hoff, Hteam. clear Hstored Hr c0.
  set (w := fun c : Contract => match year_1_salary c with PyInt x => x | PyFloat _ => 0 end).
  set (g := fun c : Contract => of_team (team_id released) c && is_active c).
  assert (Hw : forall c, In c (filter g (contracts db)) -> year_1_salary c = PyInt (w c)).
  { intros c Hin. destruct (Hints c Hin) as [z' Hz']. unfold w. rewrite Hz'. reflexivity. }
  assert (Hgc : g released = true)
    by (unfold g, of_team; rewrite Hact, Z.eqb_refl; reflexivity).
  assert (Hgc' : g c' = false) by (unfold g; rewrite Hoff; apply andb_false_r).
  assert (Hw' : forall c, In c (filter g (store_at n c' (contracts db))) ->
                year_1_salary c = PyInt (w c)).
  { intros c Hin. apply filter_In in Hin. destruct Hin as [Hin Hg].
    destruct (in_store_at _ _ _ _ Hin) as [-> | Hold]; [congruence |].
    apply Hw. apply filter_In. split; assumption. }
  pose proof (weight_store_at g w (contracts db) n released c' Hn) as Hsum.
  rewrite Hgc, Hgc' in Hsum.
  assert (Hwz : w released = z) by (unfold w; rewrite Hz; reflexivity).
  exists (sum_Z (map w (filter g (contracts db)))).
  assert (Hafter : get_team_salary_cap_used
                     (mkLedger (players db) (store_at n c' (contracts db)))
                     (team_id released)
                   = Ret (PyInt (sum_Z (map w (filter g (contracts db))) - z))).
  { unfold get_team_salary_cap_used. cbn [contracts]. fold g.
    rewrite (py_sum_ints w _ Hw'). do 2 f_equal. lia. }
  split; [unfold get_team_salary_cap_used; fold g; apply (py_sum_ints w _ Hw) |].
  split; [exact Hafter |].
  split.
  - unfold get_team_cap_space. rewrite Hafter. cbn [bind num_sub]. do 2 f_equal. lia.
  - intros t Ht. unfold get_team_salary_cap_used. cbn [contracts].
    rewrite (filter_store_at_other _ (contracts db) n released c' Hn); [reflexivity | |].
    + unfold of_team. destruct (Z.eqb_spec (team_id released) t); [congruence | reflexivity].
    + rewrite Hoff. apply andb_false_r.
Qed.

Lemma release_frees_year_1_salary_witness :
  get_team_salary_cap_used league 1 = Ret (PyInt 10000000) /\
  get_team_salary_cap_used (fst (service_release_player service_2024 league 2 true)) 1
    = Ret (PyInt (10000000 - 5000000)).
Proof.
  destruct (release_frees_year_1_salary service_2024 salary_service_2024 league
              (fst (service_release_player service_2024 league 2 true)) 2 true
              (mkReleaseResult (PyInt 5000000) 1000000 2000000 true)
              bonus_contract 5000000)
    as (used & H1 & H2 & _).
  - vm_compute. reflexivity.
  - vm_compute. reflexivity.
  - reflexivity.
  - intros c Hin. vm_compute in Hin.
    destruct Hin as [<- | [<- | []]]; eexists; reflexivity.
  - assert (E : get_team_salary_cap_used league 1 = Ret (PyInt 10000000))
      by (vm_compute; reflexivity).
    change (team_id bonus_contract) with 1 in H1, H2.
    rewrite E in H1. injection H1 as <-.
    split; [exact E | exact H2].
Defined.

(** ** The contract summary of a team *)

Lemma tally_add_sums (d : list (string * Tally)) (key : string) (value : Z) :
  sum_Z (map (fun kt => tally_count (snd kt)) (tally_add d key value))
    = sum_Z (map (fun kt => tally_count (snd kt)) d) + 1 /\
  sum_Z (map (fun kt => tally_total_value (snd kt)) (tally_add d key value))
    = sum_Z (map (fun kt => tally_total_value (snd kt)) d) + value.
Proof.
  induction d as [| [k t] rest [IH1 IH2]]; cbn [tally_add].
  - cbn. split; lia.
  - destruct (String.eqb k key); cbn [map sum_Z fold_right snd tally_count
                                      tally_total_value];
      unfold sum_Z in *; split; lia.
Qed.

Lemma tally_add_keys (d : list (string * Tally)) (key : string) (value : Z) :
  forall k, In k (map fst (tally_add d key value)) <-> k = key \/ In k (map fst d).
Proof.
  induction d as [| [k0 t] rest IH]; intro k; cbn [tally_add map fst In].
  - intuition congruence.
  - destruct (String.eqb_spec k0 key) as [-> | Hne]; cbn [map fst In].
    + intuition congruence.
    + rewrite IH. intuition congruence.
Qed.

Lemma tally_add_nodup (d : list (string * Tally)) (key : string) (value : Z) :
  NoDup (map fst d) -> NoDup (map fst (tally_add d key value)).
Proof.
  induction d as [| [k0 t] rest IH]; intro H; cbn [tally_add].
  - repeat constructor. intros [].
  - cbn [map fst] in H. inversion H as [| ? ? Hnotin Hnd]; subst.
    destruct (String.eqb_spec k0 key) as [-> | Hne]; cbn [map fst].
    + constructor; assumption.
    + constructor; [| apply IH; exact Hnd].
      rewrite tally_add_keys. intros [-> | Hin]; [congruence | exact (Hnotin Hin)].
Qed.

Lemma fold_total (f : Contract -> Z) (rows : list Contract) (a : Z) :
  fold_left (fun acc c => acc + f c) rows a = a + sum_Z (map f rows).
Proof.
  revert a. induction rows as [| c rest IH]; intro a; cbn [fold_left map sum_Z fold_right].
  - lia.
  - rewrite IH. unfold sum_Z. lia.
Qed.

(** The tallies of a breakdown loop in which the rows selected by [key]
    are counted under their key. *)
Lemma breakdown_sums (key : Contract -> option string) (rows : list Contract) :
  forall d : list (string * Tally),
  NoDup (map fst d) ->
  let d' := fold_left
              (fun d c => match key c with
                          | Some k => tally_add d k (contract_value c)
                          | None => d
                          end) rows d in
  let counted := filter (fun c => match key c with Some _ => true | None => false end)
                   rows in
  NoDup (map fst d') /\
  sum_Z (map (fun kt => tally_count (snd kt)) d')
    = sum_Z (map (fun kt => tally_count (snd kt)) d) + Z.of_nat (List.length counted) /\
  sum_Z (map (fun kt => tally_total_value (snd kt)) d')
    = sum_Z (map (fun kt => tally_total_value (snd kt)) d)
      + sum_Z (map contract_value counted).
Proof.
  induction rows as [| c rest IH]; intros d Hnd; cbn [fold_left filter].
  - cbn. repeat split; [exact Hnd | lia | lia].
  - destruct (key c) as [k |].
    + destruct (IH (tally_add d k (contract_value c)) (tally_add_nodup _ _ _ Hnd))
        as (H1 & H2 & H3).
      destruct (tally_add_sums d k (contract_value c)) as [Hc Hv].
      cbv zeta in *. rewrite Hc in H2. rewrite Hv in H3.
      repeat split; [exact H1 | |].
      * rewrite H2. cbn [List.length]. lia.
      * rewrite H3. cbn [map sum_Z fold_right]. unfold sum_Z. lia.
    + apply IH. exact Hnd.
Qed.

(** X12. [get_team_contract_summary] answers "No active contracts found
    for team" exactly when the team has no active contract.  In a summary
    that it returns, the breakdown by contract type has one entry per type
    and adds up to the totals (the counts to [total_contracts], the values
    to [total_value]); the breakdown by position covers the contracts whose
    player row exists, so it adds up to the totals when every player is
    found; and [average_contract_value] is the floor of
    [total_value / total_contracts]. *)
Theorem contract_summary_adds_up (db : Ledger) (team : Z) :
  (get_team_contracts db team = [] <->
   get_team_contract_summary db team
     = Ret (Failure "No active contracts found for team"%string)) /\
  (forall summary,
     get_team_contract_summary db team = Ret (Success summary) ->
     let rows := get_team_contracts db team in
     let counts d := sum_Z (map (fun kt => tally_count (snd kt)) d) in
     let values d := sum_Z (map (fun kt => tally_total_value (snd kt)) d) in
     cs_total_contracts summary = Z.of_nat (List.length rows) /\
     0 < cs_total_contracts summary /\
     cs_total_value summary = sum_Z (map total_value rows) /\
     cs_total_guaranteed summary = sum_Z (map guaranteed_money rows) /\
     NoDup (map fst (cs_contract_types summary)) /\
     counts (cs_contract_types summary) = cs_total_contracts summary /\
     values (cs_contract_types summary) = cs_total_value summary /\
     NoDup (map fst (cs_position_breakdown summary)) /\
     counts (cs_position_breakdown summary) <= cs_total_contracts summary /\
     ((forall c, In c rows -> query_player db (player_id c) <> None) ->
      counts (cs_position_breakdown summary) = cs_total_contracts summary /\
      values (cs_position_breakdown summary) = cs_total_value summary) /\
     cs_average_contract_value summary * cs_total_contracts summary
       <= cs_total_value summary
       < (cs_average_contract_value summary + 1) * cs_total_contracts summary).
Proof.
  unfold get_team_contract_summary, get_team_contracts.
  destruct (filter (fun c => of_team team c && is_active c) (contracts db))
    as [| c0 rest] eqn:Hrows.
  - split; [split; reflexivity | intros summary H; discriminate H].
  - split.
    { split; [discriminate |]. intro H. exfalso. cbv zeta in H.
      repeat match type of H with
             | bind ?m _ = _ => destruct m; cbn [bind] in H; [| discriminate]
             end.
      discriminate. }
    assert (Hlen : 0 < Z.of_nat (List.length (c0 :: rest)))
      by (cbn [List.length]; lia).
    clear Hrows. set (rows := c0 :: rest) in *. clearbody rows.
    intros summary H. cbv zeta in H.
    match type of H with
    | bind ?m _ = _ => destruct m as [pct | e]; cbn [bind] in H; [| discriminate]
    end.
    destruct (Z.gtb_spec (Z.of_nat (List.length rows)) 0) as [_ | Hbad]; [| lia].
    unfold int_floordiv in H.
    destruct (Z.eqb_spec (Z.of_nat (List.length rows)) 0) as [Hbad | _]; [lia |].
    cbn [bind] in H. injection H as <-.
    cbn [cs_total_contracts cs_total_value cs_total_guaranteed cs_contract_types
         cs_position_breakdown cs_average_contract_value].
    rewrite !fold_total. cbn [Z.add].
    pose proof (breakdown_sums (fun c => Some (contract_type c)) rows []
                  (NoDup_nil _)) as Htypes.
    pose proof (breakdown_sums
                  (fun c => match query_player db (player_id c) with
                            | Some player => Some (position player)
                            | None => None
                            end) rows [] (NoDup_nil _)) as Hpos.
    cbv beta iota zeta in Htypes. cbv zeta in Hpos.
    assert (Hall : filter (fun _ : Contract => true) rows = rows).
    { clear. induction rows as [| c rest IH]; [reflexivity |].
      cbn [filter]. rewrite IH. reflexivity. }
    rewrite Hall in Htypes.
    assert (Efold : forall l d,
              fold_left
                (fun d c => match query_player db (player_id c) with
                            | Some player => tally_add d (position player) (contract_value c)
                            | None => d
                            end) l d
              = fold_left
                  (fun d c =>
                     match match query_player db (player_id c) with
                           | Some player => Some (position player)
                           | None => None
                           end with
                     | Some k => tally_add d k (contract_value c)
                     | None => d
                     end) l d).
    { induction l as [| c rest' IH]; intro d; [reflexivity |].
      cbn [fold_left]. rewrite IH. destruct (query_player db (player_id c)); reflexivity. }
    rewrite Efold.
    set (found := filter
                    (fun c => match match query_player db (player_id c) with
                                    | Some player => Some (position player)
                                    | None => None
                                    end with
                              | Some _ => true
                              | None => false
                              end) rows) in *.
    destruct Htypes as (Ht1 & Ht2 & Ht3). destruct Hpos as (Hp1 & Hp2 & Hp3).
    change (sum_Z (map (fun kt : string * Tally => tally_count (snd kt)) [])) with 0 in *.
    change (sum_Z (map (fun kt : string * Tally => tally_total_value (snd kt)) []))
      with 0 in *.
    assert (Hfl : (List.length found <= List.length rows)%nat)
      by (apply filter_length_le).
    assert (Hfound : (forall c, In c rows -> query_player db (player_id c) <> None) ->
                     found = rows).
    { intro H. subst found. clear - H. induction rows as [| c rest' IH]; [reflexivity |].
      cbn [filter].
      pose proof (H c (or_introl eq_refl)) as Hc.
      destruct (query_player db (player_id c)); [| congruence].
      rewrite IH; [reflexivity |]. intros; apply H; right; assumption. }
    pose proof (Z.mul_div_le (sum_Z (map contract_value rows))
                  (Z.of_nat (List.length rows)) Hlen) as Hfloor.
    pose proof (Z.mul_succ_div_gt (sum_Z (map contract_value rows))
                  (Z.of_nat (List.length rows)) Hlen) as Hceil.
    repeat split; try assumption; try lia.
    + rewrite (Hfound H) in Hp2. lia.
    + rewrite (Hfound H) in Hp3. lia.
Qed.

(** ** Cap efficiency *)

(** [u < a] gives [u < b] for two int bounds [a <= b]. *)
Lemma num_ltb_widen (u : num) (a b : Z) :
  a <= b -> num_ltb u (PyInt a) = true -> num_ltb u (PyInt b) = true.
Proof.
  intros Hab. destruct u as [z | f]; cbn [num_ltb].
  - intro H. apply Z.ltb_lt in H. apply Z.ltb_lt. lia.
  - unfold float_lt_int.
    destruct (Prim2SF f) as [s | s | | s m e]; try (intro H; exact H).
    + intro H. apply Z.ltb_lt in H. apply Z.ltb_lt. lia.
    + cbv zeta. destruct (0 <=? e).
      * generalize ((if s then Z.neg m else Z.pos m) * 2 ^ e). intros v H.
        apply Z.ltb_lt in H. apply Z.ltb_lt. lia.
      * intro H. apply Z.ltb_lt in H. apply Z.ltb_lt.
        assert (Hk : 0 <= 2 ^ (- e)) by (apply Z.pow_nonneg; lia).
        pose proof (Z.mul_le_mono_nonneg_r a b (2 ^ (- e)) Hk Hab). lia.
Qed.

Lemma below_80_below_85 (u : num) :
  num_ltb u (PyInt 80) = true -> num_ltb u (PyInt 85) = true.
Proof. apply num_ltb_widen. lia. Qed.

Lemma below_85_below_90 (u : num) :
  num_ltb u (PyInt 85) = true -> num_ltb u (PyInt 90) = true.
Proof. apply num_ltb_widen. lia. Qed.

Lemma below_90_below_92 (u : num) :
  num_ltb u (PyInt 90) = true -> num_ltb u (PyInt 92) = true.
Proof. apply num_ltb_widen. lia. Qed.

Lemma below_92_below_95 (u : num) :
  num_ltb u (PyInt 92) = true -> num_ltb u (PyInt 95) = true.
Proof. apply num_ltb_widen. lia. Qed.

(** X13. The two ratings that [calculate_cap_efficiency] gives never
    disagree: health "Excellent" comes with flexibility "High", health
    "Critical" with "Low", flexibility "High" only with "Excellent" or
    "Good", and "Low" only with "Fair" or "Critical".  With an adjusted
    cap that is not positive nothing is divided: the utilization is 0 and
    the ratings are "Excellent" and "High". *)
Theorem cap_efficiency_consistent (round_ndigits : float -> Z -> float)
    (cap_info : TeamCap) (eff : CapEfficiency) :
  calculate_cap_efficiency round_ndigits cap_info = Ret eff ->
  (ce_health_status eff = "Excellent"%string -> ce_flexibility eff = "High"%string) /\
  (ce_health_status eff = "Critical"%string -> ce_flexibility eff = "Low"%string) /\
  (ce_flexibility eff = "High"%string ->
     ce_health_status eff = "Excellent"%string \/ ce_health_status eff = "Good"%string) /\
  (ce_flexibility eff = "Low"%string ->
     ce_health_status eff = "Fair"%string \/ ce_health_status eff = "Critical"%string) /\
  (tc_adjusted_cap cap_info <= 0 ->
     eff = mkCapEfficiency (PyInt 0) "Excellent" "High").
Proof.
  unfold calculate_cap_efficiency. intro H.
  match type of H with
  | bind ?m _ = _ => destruct m as [u | e] eqn:Hu; cbn [bind] in H; [| discriminate]
  end.
  injection H as <-.
  cbn [ce_health_status ce_flexibility].
  pose proof (below_80_below_85 u) as H1. pose proof (below_85_below_90 u) as H2.
  pose proof (below_90_below_92 u) as H3. pose proof (below_92_below_95 u) as H4.
  split; [| split; [| split; [| split]]].
  - destruct (num_ltb u (PyInt 80)); [rewrite (H1 eq_refl); reflexivity |].
    destruct (num_ltb u (PyInt 90)); [discriminate |].
    destruct (num_ltb u (PyInt 95)); discriminate.
  - destruct (num_ltb u (PyInt 80)); [discriminate |].
    destruct (num_ltb u (PyInt 90)) eqn:E90; [discriminate |].
    destruct (num_ltb u (PyInt 95)) eqn:E95; [discriminate |].
    destruct (num_ltb u (PyInt 85)); [specialize (H2 eq_refl); congruence |].
    destruct (num_ltb u (PyInt 92)); [specialize (H4 eq_refl); congruence |].
    reflexivity.
  - destruct (num_ltb u (PyInt 85)) eqn:E85.
    + specialize (H2 eq_refl). rewrite H2.
      destruct (num_ltb u (PyInt 80)); [left | right]; reflexivity.
    + destruct (num_ltb u (PyInt 92)); discriminate.
  - destruct (num_ltb u (PyInt 85)) eqn:E85; [discriminate |].
    destruct (num_ltb u (PyInt 92)) eqn:E92; [discriminate |].
    intros _.
    destruct (num_ltb u (PyInt 80)); [specialize (H1 eq_refl); congruence |].
    destruct (num_ltb u (PyInt 90)); [specialize (H3 eq_refl); congruence |].
    destruct (num_ltb u (PyInt 95)); [left | right]; reflexivity.
  - intro Hz. destruct (Z.gtb_spec (tc_adjusted_cap cap_info) 0); [lia |].
    injection Hu as <-. reflexivity.
Qed.

Lemma cap_efficiency_consistent_witness :
  calculate_cap_efficiency (fun x _ => x)
      (mkTeamCap 1 2024 255400000 (PyInt 11000000) (PyInt 11000000) 1000000
         (PyInt 243400000) (PyFloat 4.306969459671104) [])
    = Ret (mkCapEfficiency (PyFloat 4.306969459671104) "Excellent" "High") /\
  ("Excellent"%string = "Excellent"%string -> "High"%string = "High"%string).
Proof.
  assert (E : calculate_cap_efficiency (fun x _ => x)
                (mkTeamCap 1 2024 255400000 (PyInt 11000000) (PyInt 11000000) 1000000
                   (PyInt 243400000) (PyFloat 4.306969459671104) [])
              = Ret (mkCapEfficiency (PyFloat 4.306969459671104) "Excellent" "High"))
    by (vm_compute; reflexivity).
  split; [exact E |].
  exact (proj1 (cap_efficiency_consistent _ _ _ E)).
Defined.

(** ** The ten largest contracts of the cap summary *)

Lemma insert_by_cap_hit_perm (x : ContractDetail) (l : list ContractDetail) :
  Permutation (insert_by_cap_hit x l) (x :: l).
Proof.
  induction l as [| y rest IH]; cbn [insert_by_cap_hit]; [reflexivity |].
  destruct (num_ltb (cd_cap_hit y) (cd_cap_hit x)); [reflexivity |].
  rewrite IH. apply perm_swap.
Qed.

Lemma sorted_from_perm (l acc : list ContractDetail) :
  Permutation (fold_left (fun acc x => insert_by_cap_hit x acc) l acc) (acc ++ l).
Proof.
  revert acc. induction l as [| x rest IH]; intro acc; cbn [fold_left].
  - rewrite app_nil_r. reflexivity.
  - rewrite IH, insert_by_cap_hit_perm. apply Permutation_middle.
Qed.

Lemma sorted_by_cap_hit_perm (l : list ContractDetail) :
  Permutation (sorted_by_cap_hit l) l.
Proof. exact (sorted_from_perm l []). Qed.

Lemma cap_hit_ge_int (a b : ContractDetail) (x y : Z) :
  cd_cap_hit a = PyInt x -> cd_cap_hit b = PyInt y ->
  cap_hit_ge a b <-> y <= x.
Proof.
  intros Ha Hb. unfold cap_hit_ge. rewrite Ha, Hb. cbn [num_ltb].
  rewrite Z.ltb_ge. reflexivity.
Qed.

Lemma insert_by_cap_hit_sorted (x : ContractDetail) (l : list ContractDetail) :
  int_cap_hits (x :: l) ->
  StronglySorted cap_hit_ge l ->
  StronglySorted cap_hit_ge (insert_by_cap_hit x l).
Proof.
  intros Hint Hs. induction Hs as [| y rest Hs IH Hall]; cbn [insert_by_cap_hit].
  - constructor; constructor.
  - destruct (Hint x (or_introl eq_refl)) as [zx Hx].
    destruct (Hint y (or_intror (or_introl eq_refl))) as [zy Hy].
    destruct (num_ltb (cd_cap_hit y) (cd_cap_hit x)) eqn:Hlt.
    + rewrite Hx, Hy in Hlt. cbn [num_ltb] in Hlt. apply Z.ltb_lt in Hlt.
      constructor; [constructor; assumption |].
      constructor; [apply (cap_hit_ge_int _ _ _ _ Hx Hy); lia |].
      rewrite Forall_forall in Hall |- *. intros b Hb.
      destruct (Hint b (or_intror (or_intror Hb))) as [zb Hzb].
      apply (cap_hit_ge_int _ _ _ _ Hx Hzb).
      apply (cap_hit_ge_int _ _ _ _ Hy Hzb) in Hall; [lia | exact Hb].
    + constructor.
      * apply IH. intros d [<- | Hd]; apply Hint; [left; reflexivity | right; right; exact Hd].
      * rewrite Forall_forall in Hall |- *. intros b Hb.
        apply (Permutation_in _ (insert_by_cap_hit_perm x rest)) in Hb.
        destruct Hb as [<- | Hb]; [exact Hlt | apply Hall; exact Hb].
Qed.

Lemma sorted_from_sorted (l acc : list ContractDetail) :
  int_cap_hits (acc ++ l) ->
  StronglySorted cap_hit_ge acc ->
  StronglySorted cap_hit_ge (fold_left (fun acc x => insert_by_cap_hit x acc) l acc).
Proof.
  revert acc. induction l as [| x rest IH]; intros acc Hint Hs; cbn [fold_left].
  - exact Hs.
  - apply IH.
    + intros d Hd. apply in_app_or in Hd. apply Hint. apply in_or_app.
      destruct Hd as [Hd | Hd]; [| right; right; exact Hd].
      apply (Permutation_in _ (insert_by_cap_hit_perm x acc)) in Hd.
      destruct Hd as [<- | Hd]; [right; left; reflexivity | left; exact Hd].
    + apply insert_by_cap_hit_sorted; [| exact Hs].
      intros d [<- | Hd]; apply Hint; apply in_or_app;
        [right; left; reflexivity | left; exact Hd].
Qed.

Lemma sorted_by_cap_hit_sorted (l : list ContractDetail) :
  int_cap_hits l -> StronglySorted cap_hit_ge (sorted_by_cap_hit l).
Proof.
  intro Hint. apply sorted_from_sorted; [exact Hint | constructor].
Qed.

Lemma strongly_sorted_split (l1 l2 : list ContractDetail) :
  StronglySorted cap_hit_ge (l1 ++ l2) ->
  StronglySorted cap_hit_ge l1 /\
  (forall a b, In a l1 -> In b l2 -> cap_hit_ge a b).
Proof.
  induction l1 as [| x rest IH]; cbn [app]; intro Hs.
  - split; [constructor | intros a b []].
  - inversion Hs as [| ? ? Hrest Hall]; subst.
    destruct (IH Hrest) as [Hs1 Hcross]. split.
    + constructor; [exact Hs1 |].
      rewrite Forall_forall in Hall |- *. intros b Hb.
      apply Hall. apply in_or_app. left. exact Hb.
    + intros a b [<- | Ha] Hb; [| exact (Hcross a b Ha Hb)].
      rewrite Forall_forall in Hall. apply Hall. apply in_or_app. right. exact Hb.
Qed.

Lemma cap_summary_parts (round_ndigits : float -> Z -> float)
    (self : SalaryCapService) (db : Ledger) (team : Z) (summary : CapSummary) :
  get_team_cap_summary round_ndigits self db team = Ret summary ->
  calculate_team_salary_cap self db team None = Ret (su_cap_info summary) /\
  su_top_contracts summary
    = firstn 10 (sorted_by_cap_hit (tc_contracts (su_cap_info summary))) /\
  calculate_cap_efficiency round_ndigits (su_cap_info summary)
    = Ret (su_cap_efficiency summary).
Proof.
  unfold get_team_cap_summary. intro H.
  repeat match type of H with
         | bind ?m _ = _ => destruct m eqn:?; cbn [bind] in H; [| discriminate]
         end.
  injection H as <-. cbn [su_cap_info su_top_contracts su_cap_efficiency].
  repeat split; assumption.
Qed.

(** X14. When the cap hits of the team's contract details are ints, the
    [top_contracts] of [get_team_cap_summary] are the ten largest of them
    (all of them when there are fewer), largest first: they are in
    descending order of cap hit, and together with some remaining details,
    none of which has a larger cap hit than any top contract, they are a
    rearrangement of the details.  The keys of [cap_info] are passed on
    unchanged. *)
Theorem top_contracts_are_the_largest (round_ndigits : float -> Z -> float)
    (self : SalaryCapService) (db : Ledger) (team : Z) (summary : CapSummary) :
  get_team_cap_summary round_ndigits self db team = Ret summary ->
  int_cap_hits (tc_contracts (su_cap_info summary)) ->
  calculate_team_salary_cap self db team None = Ret (su_cap_info summary) /\
  List.length (su_top_contracts summary)
    = Nat.min 10 (List.length (tc_contracts (su_cap_info summary))) /\
  StronglySorted cap_hit_ge (su_top_contracts summary) /\
  exists rest,
    Permutation (su_top_contracts summary ++ rest) (tc_contracts (su_cap_info summary)) /\
    forall a b, In a (su_top_contracts summary) -> In b rest -> cap_hit_ge a b.
Proof.
  intros H Hint. destruct (cap_summary_parts _ _ _ _ _ H) as (Hinfo & Htop & _).
  split; [exact Hinfo |]. rewrite Htop.
  set (details := tc_contracts (su_cap_info summary)) in *.
  pose proof (sorted_by_cap_hit_sorted details Hint) as Hs.
  rewrite <- (firstn_skipn 10 (sorted_by_cap_hit details)) in Hs.
  apply strongly_sorted_split in Hs. destruct Hs as [Hs Hcross].
  split; [| split; [exact Hs |]].
  - rewrite length_firstn.
    rewrite (Permutation_length (sorted_by_cap_hit_perm details)). reflexivity.
  - exists (skipn 10 (sorted_by_cap_hit details)). split; [| exact Hcross].
    rewrite firstn_skipn. apply sorted_by_cap_hit_perm.
Qed.

Lemma top_contracts_are_the_largest_witness :
  exists summary,
    get_team_cap_summary (fun x _ => x) service_2024 league 1 = Ret summary /\
    int_cap_hits (tc_contracts (su_cap_info summary)) /\
    List.length (su_top_contracts summary) = 2%nat /\
    StronglySorted cap_hit_ge (su_top_contracts summary).
Proof.
  destruct (get_team_cap_summary (fun x _ => x) service_2024 league 1)
    as [summary | e] eqn:E; [| vm_compute in E; discriminate E].
  exists summary.
  assert (Hd : map cd_cap_hit (tc_contracts (su_cap_info summary))
               = [PyInt 5000000; PyInt 6000000]).
  { vm_compute in E. injection E as <-. reflexivity. }
  assert (Hint : int_cap_hits (tc_contracts (su_cap_info summary))).
  { intros d Hin. apply (in_map cd_cap_hit) in Hin. rewrite Hd in Hin.
    destruct Hin as [<- | [<- | []]]; eexists; reflexivity. }
  destruct (top_contracts_are_the_largest _ _ _ _ _ E Hint)
    as (_ & Hlen & Hs & _).
  repeat split; [exact Hint | | exact Hs].
  rewrite Hlen. rewrite <- (length_map cd_cap_hit), Hd. reflexivity.
Defined.

(** ** Market value and acceptance chance on the rating scale *)

Lemma rating_enumerated (r : Z) :
  0 <= r <= 100 -> In r (map Z.of_nat (seq 0 101)).
Proof.
  intro H. replace r with (Z.of_nat (Z.to_nat r)) by lia.
  apply in_map. apply in_seq. lia.
Qed.

(** The product of [calculate_market_value] for every rating of the scale
    and every combination of the multipliers that the method can choose. *)
Lemma market_value_table :
  forallb (fun r =>
    forallb (fun pm =>
      forallb (fun am =>
        forallb (fun em =>
          match (b <- to_float (r * 1000000) ;; float_to_int (b * pm * am * em)%float) with
          | Ret v => (486000 * r <=? v) && (v <=? 2340000 * r)
          | Raise _ => false
          end)
          [1.2; 1.0; 0.9]%float)
        [1.3; 1.1; 1.0; 0.8; 0.6]%float)
      (1.0%float :: map snd market_multipliers))
    (map Z.of_nat (seq 0 101)) = true.
Proof. vm_compute. reflexivity. Qed.

(** X15. For a player whose overall rating is on the 0-100 scale,
    [calculate_market_value] returns (the conversion of the product to an
    int never raises), and the value lies between 0.486 and 2.34 million
    dollars per rating point, the products of the smallest and of the
    largest multipliers. *)
Theorem market_value_range (player : Player) (base_salary years : Z) :
  0 <= overall_rating player <= 100 ->
  exists v,
    calculate_market_value player base_salary years = Ret v /\
    486000 * overall_rating player <= v <= 2340000 * overall_rating player.
Proof.
  intro Hr. unfold calculate_market_value.
  set (pm := multiplier market_multipliers (position player)).
  set (am := if age player <=? 25 then _ else _).
  set (em := if years_pro player <=? 3 then _ else _).
  assert (Hpm : In pm (1.0%float :: map snd market_multipliers)).
  { destruct (multiplier_in market_multipliers (position player)) as [H | H];
      [left; symmetry; exact H | right; exact H]. }
  assert (Ham : In am [1.3; 1.1; 1.0; 0.8; 0.6]%float).
  { subst am. cbn [In].
    destruct (age player <=? 25); [tauto |]. destruct (age player <=? 28); [tauto |].
    destruct (age player <=? 31); [tauto |]. destruct (age player <=? 34); tauto. }
  assert (Hem : In em [1.2; 1.0; 0.9]%float).
  { subst em. cbn [In].
    destruct (years_pro player <=? 3); [tauto |].
    destruct (years_pro player <=? 6); tauto. }
  pose proof market_value_table as T.
  rewrite forallb_forall in T. specialize (T _ (rating_enumerated _ Hr)).
  rewrite forallb_forall in T. specialize (T _ Hpm).
  rewrite forallb_forall in T. specialize (T _ Ham).
  rewrite forallb_forall in T. specialize (T _ Hem).
  cbv beta in T.
  destruct (b <- to_float (overall_rating player * 1000000) ;;
            float_to_int (b * pm * am * em)%float) as [v | e]; [| discriminate].
  exists v. split; [reflexivity |].
  apply andb_prop in T. destruct T as [T1 T2].
  apply Z.leb_le in T1. apply Z.leb_le in T2. lia.
Qed.

Lemma market_value_range_witness :
  exists v,
    calculate_market_value quarterback 90000000 3 = Ret v /\
    486000 * 80 <= v <= 2340000 * 80.
Proof.
  apply (market_value_range quarterback 90000000 3).
  change (overall_rating quarterback) with 80. lia.
Defined.

(** The clamped chance for an offer at or above the market value, for
    every work ethic of the scale, with and without the loyalty factor. *)
Lemma chance_at_market_table :
  forallb (fun we =>
    forallb (fun loyalty_factor =>
      let p :=
        py_min 0.95
          (py_max 0.05
             (0.5 * 1.0 * loyalty_factor
              * (0.8 + SF2Prim (SFdiv prec emax (Z2SF we) (Z2SF 100)) * 0.4)))%float in
      (0.4 <=? p)%float && (p <=? 0.7200000000000001)%float)
      [1.2; 1.0]%float)
    (map Z.of_nat (seq 0 101)) = true.
Proof. vm_compute. reflexivity. Qed.

(** X16. An offer at or above the market value, to a player whose work
    ethic is on the 0-100 scale, is accepted with a chance between 0.4 and
    0.72 (up to the last bit): the clamp to [0.05, 0.95] never applies, no
    such offer is certain to be accepted, and the chance is the same for
    every other offer at or above a market value. *)
Theorem market_offer_chance (db : Ledger) (player : Player)
    (market_value offered_salary : Z) :
  0 <= work_ethic player <= 100 ->
  market_value <= offered_salary ->
  exists p,
    calculate_acceptance_chance db player market_value offered_salary = Ret p /\
    (0.4 <=? p)%float = true /\ (p <=? 0.7200000000000001)%float = true /\
    forall market_value' offered_salary',
      market_value' <= offered_salary' ->
      calculate_acceptance_chance db player market_value' offered_salary' = Ret p.
Proof.
  intros Hwe Hge.
  pose proof small_below_overflow as Hsmall.
  pose proof (int_truediv_returns (work_ethic player) 100) as Hw.
  assert (Hat : forall m o, m <= o -> (o >=? m) = true).
  { intros m o H. destruct (Z.geb_spec o m); [reflexivity | lia]. }
  unfold calculate_acceptance_chance.
  rewrite (Hat _ _ Hge). cbn [bind]. rewrite Hw by lia. cbn [bind].
  set (loyalty_factor := match get_player_contract db (p_id player) with
                         | Some _ => _ | None => _ end).
  assert (Hl : In loyalty_factor [1.2; 1.0]%float).
  { subst loyalty_factor. cbn [In].
    destruct (get_player_contract db (p_id player)) as [c |]; [| tauto].
    destruct (id_eqb _ _); tauto. }
  pose proof chance_at_market_table as T.
  rewrite forallb_forall in T. specialize (T _ (rating_enumerated _ Hwe)).
  rewrite forallb_forall in T. specialize (T _ Hl).
  cbv beta zeta in T. apply andb_prop in T. destruct T as [T1 T2].
  eexists. split; [reflexivity |]. split; [exact T1 |]. split; [exact T2 |].
  intros m o Hmo. rewrite (Hat _ _ Hmo). cbn [bind]. reflexivity.
Qed.

Lemma market_offer_chance_witness :
  exists p,
    calculate_acceptance_chance (mkLedger [quarterback] []) quarterback
      132000000 140000000 = Ret p /\
    (0.4 <=? p)%float = true /\ (p <=? 0.7200000000000001)%float = true /\
    forall market_value' offered_salary',
      market_value' <= offered_salary' ->
      calculate_acceptance_chance (mkLedger [quarterback] []) quarterback
        market_value' offered_salary' = Ret p.
Proof.
  apply (market_offer_chance (mkLedger [quarterback] []) quarterback
           132000000 140000000).
  - change (work_ethic quarterback) with 50. lia.
  - lia.
Defined.

(** ** The totals of a contract analysis *)

(** Cap hits derived on an active contract of one to five years whose
    salaries are positive ints. *)
Lemma positive_salaries_cap_hits (c : Contract) (s : Z -> Z) :
  is_active c = true ->
  1 <= years c <= 5 ->
  (forall y, 1 <= y <= years c -> salary_at c y = PyInt (s y) /\ 0 < s y) ->
  exists c',
    returned (calculate_contract_cap_hits c) = Ret c' /\
    (forall y, 1 <= y <= years c ->
       cap_hit_at c' y = PyInt (s y + signing_bonus c / years c)) /\
    exists h1 h2 h3 h4 h5, c' = with_cap_hits h1 h2 h3 h4 h5 c.
Proof.
  intros Hact Hy Hs.
  destruct (enumerated_salaries c Hy) as [Hnd Hitems].
  assert (Hq : proration c = signing_bonus c / years c).
  { unfold proration. destruct (Z.gtb_spec (years c) 0); [reflexivity | lia]. }
  destruct (cap_hit_loop_total (proration c)
              (enumerate (slice_to [year_1_salary c; year_2_salary c; year_3_salary c;
                                    year_4_salary c; year_5_salary c] (years c)) 1))
    with (c := c) (acc := @nil (Z * num)) as (c' & hits & Hloop).
  { intros i sal Hin. apply Hitems in Hin. destruct Hin as [Hi ->].
    exists (s i). apply Hs. exact Hi. }
  assert (Hcalc : calculate_contract_cap_hits c = (c', Ret hits)).
  { unfold calculate_contract_cap_hits. rewrite Hact. exact Hloop. }
  exists c'. rewrite Hcalc. split; [reflexivity |]. split.
  - intros y Hyr.
    assert (Hrange : forall i sal,
               In (i, sal) (enumerate (slice_to [year_1_salary c; year_2_salary c;
                 year_3_salary c; year_4_salary c; year_5_salary c] (years c)) 1) ->
               1 <= i <= 5)
      by (intros i sal Hin; apply Hitems in Hin; lia).
    destruct (cap_hit_loop_spec _ _ _ _ _ _ Hloop Hnd Hrange) as [Hin _].
    assert (Hmem : In (y, salary_at c y)
                     (enumerate (slice_to [year_1_salary c; year_2_salary c;
                        year_3_salary c; year_4_salary c; year_5_salary c] (years c)) 1))
      by (apply Hitems; split; [exact Hyr | reflexivity]).
    destruct (Hin _ _ Hmem) as [Hpos _].
    destruct (Hs y Hyr) as [Hsal Hgt]. rewrite Hsal, Hq in Hpos.
    assert (Hg : num_gtb (PyInt (s y)) (PyInt 0) = true)
      by (unfold num_gtb, num_ltb; apply Z.ltb_lt; lia).
    specialize (Hpos Hg). cbn [num_add] in Hpos. injection Hpos as <-. reflexivity.
  - destruct (calculate_frame c) as (h1 & h2 & h3 & h4 & h5 & Hfr).
    rewrite Hcalc in Hfr. exists h1, h2, h3, h4, h5. exact Hfr.
Qed.

Lemma sum_Z_snoc (l : list Z) (z : Z) : sum_Z (l ++ [z]) = sum_Z l + z.
Proof.
  induction l as [| a rest IH]; cbn [app sum_Z fold_right]; [lia |].
  fold (sum_Z (rest ++ [z])). fold (sum_Z rest). lia.
Qed.

Lemma py_range_years (n : nat) :
  py_range 1 (Z.of_nat n + 1) = map (fun k => 1 + Z.of_nat k) (seq 0 n).
Proof.
  unfold py_range. replace (Z.to_nat (Z.of_nat n + 1 - 1)) with n by lia. reflexivity.
Qed.

Lemma py_range_in (n y : Z) :
  In y (py_range 1 (n + 1)) -> 1 <= y <= n.
Proof.
  unfold py_range. intro H. apply in_map_iff in H.
  destruct H as (k & <- & Hk). apply in_seq in Hk. lia.
Qed.

Lemma sum_Z_range (f : Z -> Z) (n : nat) :
  sum_Z (map f (py_range 1 (Z.of_nat n + 1))) = sum_years f n.
Proof.
  rewrite py_range_years.
  induction n as [| k IH]; [reflexivity |].
  rewrite seq_S, !map_app. cbn [map]. rewrite sum_Z_snoc, IH.
  cbn [sum_years]. do 2 f_equal. lia.
Qed.

Lemma sum_Z_range_years (f : Z -> Z) (n : Z) :
  0 <= n -> sum_Z (map f (py_range 1 (n + 1))) = sum_years f (Z.to_nat n).
Proof.
  intro H. rewrite <- (Z2Nat.id n) at 1 by exact H. apply sum_Z_range.
Qed.

(** C2, amended. After cap hits are derived on an active contract of [n]
    years, [1 <= n <= 5], every year [y] in [1..n] whose salary is positive
    has [cap_hit[y] = salary[y] + floor(signing_bonus / n)], the sum as
    the interpreter computes it.  When every salary in [1..n] is a
    positive int the derivation returns and
    [sum(cap_hit[1..n]) = sum(salary[1..n]) + n * floor(signing_bonus / n)]. *)
Theorem cap_hits_of_positive_salaries (c : Contract) :
  is_active c = true ->
  1 <= years c <= 5 ->
  let q := signing_bonus c / years c in
  (forall c' hits,
     calculate_contract_cap_hits c = (c', Ret hits) ->
     forall y, 1 <= y <= years c ->
       num_gtb (salary_at c y) (PyInt 0) = true ->
       num_add (salary_at c y) (PyInt q) = Ret (cap_hit_at c' y)) /\
  (forall s : Z -> Z,
     (forall y, 1 <= y <= years c -> salary_at c y = PyInt (s y) /\ 0 < s y) ->
     exists c' hits,
       calculate_contract_cap_hits c = (c', Ret hits) /\
       (forall y, 1 <= y <= years c -> cap_hit_at c' y = PyInt (s y + q)) /\
       py_sum (map (cap_hit_at c') (py_range 1 (years c + 1)))
         = Ret (PyInt (sum_years s (Z.to_nat (years c)) + years c * q))).
Proof.
  intros Hact Hy q. split.
  - intros c' hits Hcalc y Hyr Hpos.
    destruct (enumerated_salaries c Hy) as [Hnd Hitems].
    assert (Hq : proration c = q).
    { unfold proration. destruct (Z.gtb_spec (years c) 0); [reflexivity | lia]. }
    unfold calculate_contract_cap_hits in Hcalc. rewrite Hact, Hq in Hcalc.
    cbn [negb] in Hcalc.
    assert (Hrange : forall i sal,
               In (i, sal) (enumerate (slice_to [year_1_salary c; year_2_salary c;
                 year_3_salary c; year_4_salary c; year_5_salary c] (years c)) 1) ->
               1 <= i <= 5)
      by (intros i sal Hin; apply Hitems in Hin; lia).
    destruct (cap_hit_loop_spec _ _ _ _ _ _ Hcalc Hnd Hrange) as [Hin _].
    apply (Hin y (salary_at c y)); [| exact Hpos].
    apply Hitems. split; [exact Hyr | reflexivity].
  - intros s Hs.
    destruct (positive_salaries_cap_hits c s Hact Hy Hs) as (c' & Hret & Hhits & _).
    destruct (calculate_contract_cap_hits c) as [c1 [hits | e]] eqn:Hcalc;
      cbn [returned] in Hret; [| discriminate].
    injection Hret as ->.
    exists c', hits. split; [reflexivity |]. split; [exact Hhits |].
    assert (E : map (cap_hit_at c') (py_range 1 (years c + 1))
                = map PyInt (map (fun y => s y + q) (py_range 1 (years c + 1)))).
    { rewrite map_map. apply map_ext_in. intros y Hin. apply Hhits.
      apply py_range_in. exact Hin. }
    unfold py_sum. rewrite E, py_sum_ints_from. do 2 f_equal.
    rewrite sum_Z_range_years, sum_years_add_const by lia.
    rewrite Z2Nat.id by lia. lia.
Qed.

Lemma cap_hits_of_positive_salaries_witness :
  exists c' hits,
    calculate_contract_cap_hits bonus_contract = (c', Ret hits) /\
    (forall y, 1 <= y <= 3 ->
       cap_hit_at c' y = PyInt (5000000 + 250000 * (y - 1) + 1000000)) /\
    py_sum (map (cap_hit_at c') (py_range 1 4)) = Ret (PyInt 18750000).
Proof.
  assert (Ha : is_active bonus_contract = true) by reflexivity.
  assert (Hy : 1 <= years bonus_contract <= 5)
    by (change (years bonus_contract) with 3; lia).
  destruct (cap_hits_of_positive_salaries bonus_contract Ha Hy) as [_ H].
  destruct (H (fun y => 5000000 + 250000 * (y - 1))) as (c' & hits & Hc & Hh & Hsum).
  - intros y Hyr. change (years bonus_contract) with 3 in Hyr.
    assert (Hc : y = 1 \/ y = 2 \/ y = 3) by lia.
    destruct Hc as [-> | [-> | ->]]; split; (reflexivity || lia).
  - exists c', hits. split; [exact Hc |]. split; [exact Hh |].
    change (years bonus_contract) with 3 in Hsum.
    change (signing_bonus bonus_contract) with 3000000 in Hsum.
    change (3 + 1) with 4 in Hsum.
    rewrite Hsum. vm_compute. reflexivity.
Defined.

(** X17. For a stored active contract of one to five years with positive
    int salaries, whose cap hits are not derived yet and whose player is
    on file, [get_contract_analysis] returns an analysis with one entry
    per contract year.  Its total cap hit is the sum of the salaries plus
    the signing bonus less the remainder of the bonus by the years: the
    floor division of the proration drops that remainder.  The average is
    the floor of the total by the years. *)
Theorem analysis_total_cap_hit (float_floordiv : float -> float -> float)
    (self : SalaryCapService) (db : Ledger) (contract_id : Z)
    (c : Contract) (p : Player) (s : Z -> Z) :
  find (fun x : Contract => id_eqb (id x) (Some contract_id)) (contracts db) = Some c ->
  query_player db (player_id c) = Some p ->
  is_active c = true ->
  1 <= years c <= 5 ->
  num_truthy (year_1_cap_hit c) = false ->
  (forall y, 1 <= y <= years c -> salary_at c y = PyInt (s y) /\ 0 < s y) ->
  (forall y, 1 <= y <= years c -> dead_money_at c y = 0) ->
  Z.abs (guaranteed_money c) < float_overflow ->
  total_value c < float_overflow ->
  exists a,
    get_contract_analysis float_floordiv self db contract_id = Ret (Success a) /\
    List.length (an_annual_breakdown a) = Z.to_nat (years c) /\
    an_total_cap_hit a
      = PyInt (sum_years s (Z.to_nat (years c)) + signing_bonus c
               - signing_bonus c mod years c) /\
    an_average_cap_hit a
      = PyInt ((sum_years s (Z.to_nat (years c)) + signing_bonus c
                - signing_bonus c mod years c) / years c) /\
    an_total_dead_money a = 0.
Proof.
  intros Hfind Hplayer Hact Hy Hfresh Hs Hdead Hg Htv.
  destruct (positive_salaries_cap_hits c s Hact Hy Hs)
    as (c' & Hret & Hhits & h1 & h2 & h3 & h4 & h5 & Hfr).
  assert (Hyears : years c' = years c) by (rewrite Hfr; reflexivity).
  assert (Htotal : total_value c' = total_value c) by (rewrite Hfr; reflexivity).
  assert (Hguar : guaranteed_money c' = guaranteed_money c) by (rewrite Hfr; reflexivity).
  assert (Hdm : forall y, dead_money_at c' y = dead_money_at c y)
    by (intro y; rewrite Hfr; reflexivity).
  set (total := sum_years s (Z.to_nat (years c)) + signing_bonus c
                - signing_bonus c mod years c).
  assert (Hcaps : py_sum (map (fun y => cap_hit_at c' y) (py_range 1 (years c + 1)))
                  = Ret (PyInt total)).
  { assert (E : map (fun y => cap_hit_at c' y) (py_range 1 (years c + 1))
                = map PyInt (map (fun y => s y + signing_bonus c / years c)
                               (py_range 1 (years c + 1)))).
    { rewrite map_map. apply map_ext_in. intros y Hin. apply Hhits.
      apply py_range_in. exact Hin. }
    unfold py_sum. rewrite E, py_sum_ints_from. do 2 f_equal.
    rewrite sum_Z_range_years, sum_years_add_const by lia. subst total.
    rewrite Z2Nat.id by lia.
    pose proof (Z.div_mod (signing_bonus c) (years c)). lia. }
  assert (Hdeads : sum_Z (map (fun y => dead_money_at c' y) (py_range 1 (years c + 1)))
                   = 0).
  { assert (E : map (fun y => dead_money_at c' y) (py_range 1 (years c + 1))
                = map (fun _ => 0) (py_range 1 (years c + 1))).
    { apply map_ext_in. intros y Hin. rewrite Hdm. apply Hdead.
      apply py_range_in. exact Hin. }
    rewrite E. clear. induction (py_range 1 (years c + 1)) as [| y rest IH];
      [reflexivity | exact IH]. }
  unfold get_contract_analysis. rewrite Hfind, Hplayer.
  unfold ensure_cap_hits. rewrite Hfresh. cbn [negb].
  rewrite Hret. cbn [bind]. rewrite Hyears, Htotal, Hguar.
  rewrite !map_map. cbn [snd ae_cap_hit ae_dead_money].
  rewrite Hcaps, Hdeads. cbn [bind].
  destruct (Z.gtb_spec (years c) 0) as [_ | Hbad]; [| lia].
  cbn [num_floordiv]. unfold int_floordiv.
  destruct (Z.eqb_spec (years c) 0) as [Hbad | _]; [lia |]. cbn [bind].
  pose proof small_below_overflow as Hsmall.
  destruct (Z.gtb_spec (total_value c) 0) as [Hpos | Hzero].
  - rewrite (int_truediv_returns (guaranteed_money c) (total_value c)) by lia.
    rewrite (int_truediv_returns 0 (total_value c)) by lia.
    cbn [bind num_mul num_float].
    rewrite !to_float_returns by lia. cbn [bind].
    eexists. split; [reflexivity |].
    cbn [an_annual_breakdown an_total_cap_hit an_average_cap_hit an_total_dead_money].
    rewrite length_map. unfold py_range. rewrite length_map, length_seq.
    repeat split. lia.
  - cbn [bind]. eexists. split; [reflexivity |].
    cbn [an_annual_breakdown an_total_cap_hit an_average_cap_hit an_total_dead_money].
    rewrite length_map. unfold py_range. rewrite length_map, length_seq.
    repeat split. lia.
Qed.

Lemma analysis_total_cap_hit_witness :
  exists a,
    get_contract_analysis (fun x _ => x) service_2024
      (mkLedger [quarterback] [underived_contract]) 9 = Ret (Success a) /\
    an_total_cap_hit a = PyInt 15999999 /\
    an_average_cap_hit a = PyInt 5333333.
Proof.
  destruct (analysis_total_cap_hit (fun x _ => x) service_2024
              (mkLedger [quarterback] [underived_contract]) 9
              underived_contract quarterback (fun _ => 5000000))
    as (a & Ha & _ & Htotal & Haverage & _).
  - reflexivity.
  - reflexivity.
  - reflexivity.
  - change (years underived_contract) with 3. lia.
  - reflexivity.
  - change (years underived_contract) with 3. intros y Hy.
    assert (Hc : y = 1 \/ y = 2 \/ y = 3) by lia.
    destruct Hc as [-> | [-> | ->]]; (split; [reflexivity | lia]).
  - change (years underived_contract) with 3. intros y Hy.
    assert (Hc : y = 1 \/ y = 2 \/ y = 3) by lia.
    destruct Hc as [-> | [-> | ->]]; reflexivity.
  - vm_compute. reflexivity.
  - vm_compute. reflexivity.
  - exists a. split; [exact Ha |]. rewrite Htotal, Haverage.
    split; vm_compute; reflexivity.
Defined.

(** ** The POST endpoints *)

Lemma try_endpoint_cases {A : Type} (str_exception : raised -> string)
    (error : A -> option string) (prefix : string) (call : res A) :
  match try_endpoint str_exception error prefix call with
  | Returned body => call = Ret body /\ error body = None
  | Failed status_code detail =>
      status_code = 500 /\
      (forall body, call = Ret body ->
         exists msg, error body = Some msg /\
                     detail = (prefix ++ str_exception (HTTPException 400 msg))%string)
  end.
Proof.
  unfold try_endpoint. destruct call as [result | e].
  - destruct (error result) as [msg |] eqn:E.
    + split; [reflexivity |]. intros body Hb. injection Hb as <-.
      exists msg. split; [exact E | reflexivity].
    + split; [reflexivity | exact E].
  - split; [reflexivity |]. intros body Hb. discriminate Hb.
Qed.

Lemma service_restructure_error (self : SalaryCapService) (db : Ledger)
    (contract_id amount : Z) :
  (exists r, snd (service_restructure_contract self db contract_id amount)
             = Ret (Success r)) \/
  fst (service_restructure_contract self db contract_id amount) = db.
Proof.
  unfold service_restructure_contract.
  destruct (first_index _ (contracts db)); [| right; reflexivity].
  destruct (find _ (contracts db)) as [c |]; [| right; reflexivity].
  destruct (negb (is_active c)); [right; reflexivity |].
  destruct (restructure_contract self c amount) as [c' [[r | msg] | e]];
    [| right; reflexivity | right; reflexivity].
  destruct (commit_row c'); [left; exists r; reflexivity | right; reflexivity].
Qed.

Lemma service_release_error (self : SalaryCapService) (db : Ledger)
    (contract_id : Z) (post_june_1 : bool) :
  (exists r, snd (service_release_player self db contract_id post_june_1)
             = Ret (Success r)) \/
  fst (service_release_player self db contract_id post_june_1) = db.
Proof.
  unfold service_release_player.
  destruct (first_index _ (contracts db)); [| right; reflexivity].
  destruct (find _ (contracts db)) as [c |]; [| right; reflexivity].
  destruct (release_player self c post_june_1) as [c' [[r | msg] | e]];
    [| right; reflexivity | right; reflexivity].
  destruct (commit_row c'); [left; exists r; reflexivity | right; reflexivity].
Qed.

Lemma franchise_tag_error (db : Ledger) (now utcnow : datetime) (player_id team_id : Z) :
  (exists r, snd (franchise_tag_player db now utcnow player_id team_id)
             = Ret (Success r)) \/
  fst (franchise_tag_player db now utcnow player_id team_id) = db.
Proof. right. apply franchise_tag_ledger. Qed.

Lemma negotiate_error (round_ndigits : float -> Z -> float) (self : SalaryCapService)
    (db : Ledger) (now utcnow : datetime) (sample : float)
    (player_id team_id base_salary years signing_bonus : Z) :
  (exists r, snd (negotiate_contract_extension round_ndigits self db now utcnow sample
                    player_id team_id base_salary years signing_bonus) = Ret r /\
             negotiation_error_key r = None) \/
  fst (negotiate_contract_extension round_ndigits self db now utcnow sample
         player_id team_id base_salary years signing_bonus) = db.
Proof.
  unfold negotiate_contract_extension.
  destruct (query_player db player_id) as [player |]; [| right; reflexivity].
  destruct (match get_player_contract db player_id with
            | Some c => negb (of_team team_id c) | None => false end);
    [right; reflexivity |].
  destruct (calculate_market_value player base_salary years) as [mv | e];
    cbn [bind guarded]; [| right; reflexivity].
  destruct (calculate_acceptance_chance db player mv base_salary) as [ch | e];
    cbn [bind guarded]; [| right; reflexivity].
  destruct (negb (sample <? ch)%float); cbn [guarded].
  - left. eexists. split; reflexivity.
  - destruct (create_veteran_contract self now player team_id base_salary years
                signing_bonus 0) as [c | e]; cbn [bind guarded]; [| right; reflexivity].
    destruct (insert_contract utcnow c _) as [[c' rows] | e]; cbn [bind guarded];
      [| right; reflexivity].
    left. eexists. split; reflexivity.
Qed.

(** X18. No POST endpoint of the salary cap API answers with status 400.
    The [HTTPException(400)] that an endpoint raises for an error
    dictionary of the service is raised inside the endpoint's own [try]
    block and caught by its [except Exception]: the client gets status 500,
    with the text of the 400 exception after the endpoint's prefix.  Every
    failed request leaves the ledger as it was, and a returned body has no
    ["error"] key. *)
Theorem endpoints_never_answer_400 (str_exception : raised -> string)
    (round_ndigits : float -> Z -> float) (self : SalaryCapService) (db : Ledger) :
  (forall contract_id amount,
     match api_restructure_contract str_exception self db contract_id amount with
     | (_, Returned body) => error_key body = None
     | (db', Failed status_code detail) =>
         status_code = 500 /\ db' = db /\
         forall msg,
           snd (service_restructure_contract self db contract_id amount)
             = Ret (Failure msg) ->
           detail = ("Error restructuring contract: "
                     ++ str_exception (HTTPException 400 msg))%string
     end) /\
  (forall contract_id post_june_1,
     match api_release_player str_exception self db contract_id post_june_1 with
     | (_, Returned body) => error_key body = None
     | (db', Failed status_code detail) =>
         status_code = 500 /\ db' = db /\
         forall msg,
           snd (service_release_player self db contract_id post_june_1)
             = Ret (Failure msg) ->
           detail = ("Error releasing player: "
                     ++ str_exception (HTTPException 400 msg))%string
     end) /\
  (forall now utcnow player_id team_id,
     match api_franchise_tag_player str_exception db now utcnow player_id team_id with
     | (_, Returned body) => error_key body = None
     | (db', Failed status_code detail) =>
         status_code = 500 /\ db' = db /\
         forall msg,
           snd (franchise_tag_player db now utcnow player_id team_id)
             = Ret (Failure msg) ->
           detail = ("Error applying franchise tag: "
                     ++ str_exception (HTTPException 400 msg))%string
     end) /\
  (forall now utcnow sample player_id team_id base_salary years signing_bonus,
     match extend_player_contract str_exception round_ndigits self db now utcnow
             sample player_id team_id base_salary years signing_bonus with
     | (_, Returned body) => negotiation_error_key body = None
     | (db', Failed status_code detail) =>
         status_code = 500 /\ db' = db /\
         forall msg,
           snd (negotiate_contract_extension round_ndigits self db now utcnow sample
                  player_id team_id base_salary years signing_bonus)
             = Ret (NegError msg) ->
           detail = ("Error negotiating extension: "
                     ++ str_exception (HTTPException 400 msg))%string
     end).
Proof.
  split; [| split; [| split]].
  - intros contract_id amount. unfold api_restructure_contract.
    pose proof (service_restructure_error self db contract_id amount) as Hs.
    destruct (service_restructure_contract self db contract_id amount) as [db' r].
    cbn [fst snd] in Hs.
    pose proof (try_endpoint_cases str_exception error_key
                  "Error restructuring contract: " r) as Ht.
    destruct (try_endpoint _ _ _ r) as [body | status_code detail].
    + exact (proj2 Ht).
    + destruct Ht as [-> Hd]. split; [reflexivity |]. split.
      * destruct Hs as [[x Hx] | Hs]; [| exact Hs].
        destruct (Hd _ Hx) as (msg & Hm & _). discriminate Hm.
      * intros msg Hr. destruct (Hd _ Hr) as (msg' & Hm & ->).
        injection Hm as <-. reflexivity.
  - intros contract_id post_june_1. unfold api_release_player.
    pose proof (service_release_error self db contract_id post_june_1) as Hs.
    destruct (service_release_player self db contract_id post_june_1) as [db' r].
    cbn [fst snd] in Hs.
    pose proof (try_endpoint_cases str_exception error_key
                  "Error releasing player: " r) as Ht.
    destruct (try_endpoint _ _ _ r) as [body | status_code detail].
    + exact (proj2 Ht).
    + destruct Ht as [-> Hd]. split; [reflexivity |]. split.
      * destruct Hs as [[x Hx] | Hs]; [| exact Hs].
        destruct (Hd _ Hx) as (msg & Hm & _). discriminate Hm.
      * intros msg Hr. destruct (Hd _ Hr) as (msg' & Hm & ->).
        injection Hm as <-. reflexivity.
  - intros now utcnow player_id team_id. unfold api_franchise_tag_player.
    pose proof (franchise_tag_error db now utcnow player_id team_id) as Hs.
    destruct (franchise_tag_player db now utcnow player_id team_id) as [db' r].
    cbn [fst snd] in Hs.
    pose proof (try_endpoint_cases str_exception error_key
                  "Error applying franchise tag: " r) as Ht.
    destruct (try_endpoint _ _ _ r) as [body | status_code detail].
    + exact (proj2 Ht).
    + destruct Ht as [-> Hd]. split; [reflexivity |]. split.
      * destruct Hs as [[x Hx] | Hs]; [| exact Hs].
        destruct (Hd _ Hx) as (msg & Hm & _). discriminate Hm.
      * intros msg Hr. destruct (Hd _ Hr) as (msg' & Hm & ->).
        injection Hm as <-. reflexivity.
  - intros now utcnow sample player_id team_id base_salary years signing_bonus.
    unfold extend_player_contract.
    pose proof (negotiate_error round_ndigits self db now utcnow sample
                  player_id team_id base_salary years signing_bonus) as Hs.
    destruct (negotiate_contract_extension round_ndigits self db now utcnow sample
                player_id team_id base_salary years signing_bonus) as [db' r].
    cbn [fst snd] in Hs.
    pose proof (try_endpoint_cases str_exception negotiation_error_key
                  "Error negotiating extension: " r) as Ht.
    destruct (try_endpoint _ _ _ r) as [body | status_code detail].
    + exact (proj2 Ht).
    + destruct Ht as [-> Hd]. split; [reflexivity |]. split.
      * destruct Hs as [(x & Hx & Hnone) | Hs]; [| exact Hs].
        destruct (Hd _ Hx) as (msg & Hm & _). congruence.
      * intros msg Hr. destruct (Hd _ Hr) as (msg' & Hm & ->).
        injection Hm as <-. reflexivity.
Qed.

(** ** The contract details of the team summary *)

(** The loop of [calculate_team_salary_cap] appends one detail for every
    cap hit that it adds to the total, in the order of the additions. *)
Lemma cap_used_loop_details (offset : Z) (rows : list Contract) :
  forall (total : num) (details : list ContractDetail)
         (total' : num) (details' : list ContractDetail),
  cap_used_loop offset rows total details = Ret (total', details') ->
  exists added,
    details' = details ++ added /\
    fold_left (fun acc x => a <- acc ;; num_add a x) (map cd_cap_hit added) (Ret total)
      = Ret total' /\
    Forall (fun d => num_gtb (cd_cap_hit d) (PyInt 0) = true) added /\
    (List.length added <= List.length rows)%nat.
Proof.
  induction rows as [| c rest IH]; intros total details total' details' H;
    cbn [cap_used_loop] in H.
  - injection H as <- <-. exists []. rewrite app_nil_r.
    repeat split; [constructor | apply Nat.le_refl].
  - destruct (ensure_cap_hits c) as [c1 | e]; cbn [bind] in H; [| discriminate].
    destruct (num_gtb (cap_hit_at c1 offset) (PyInt 0)) eqn:Hpos.
    + destruct (num_add total (cap_hit_at c1 offset)) as [total1 | e] eqn:Hadd;
        cbn [bind] in H; [| discriminate].
      apply IH in H. destruct H as (added & -> & Hfold & Hall & Hlen).
      exists (mkContractDetail (player_id c1) (cap_hit_at c1 offset)
                (salary_at c1 offset) (contract_type c1) :: added).
      rewrite <- app_assoc. split; [reflexivity |].
      cbn [map fold_left cd_cap_hit bind]. rewrite Hadd.
      split; [exact Hfold |]. split.
      * constructor; [exact Hpos | exact Hall].
      * cbn [List.length]. apply le_n_S. exact Hlen.
    + apply IH in H. destruct H as (added & -> & Hfold & Hall & Hlen).
      exists added. repeat split; try assumption.
      cbn [List.length]. apply Nat.le_trans with (1 := Hlen). apply Nat.le_succ_diag_r.
Qed.

Lemma team_salary_cap_parts (self : SalaryCapService) (db : Ledger) (team : Z)
    (year : option Z) (info : TeamCap) :
  calculate_team_salary_cap self db team year = Ret info ->
  let y := match year with Some y => y | None => current_year self end in
  cap_used_loop (y - current_year self + 1) (active_rows db team) (PyInt 0) []
    = Ret (tc_total_cap_used info, tc_contracts info) /\
  tc_top_51_cap_used info = tc_total_cap_used info /\
  tc_adjusted_cap info = base_cap self /\
  tc_team_id info = team /\ tc_year info = y.
Proof.
  unfold calculate_team_salary_cap. fold (active_rows db team). intro H.
  cbv zeta in H |- *.
  destruct (cap_used_loop _ (active_rows db team) (PyInt 0) [])
    as [[total details] | e]; cbn [bind] in H; [| discriminate].
  repeat match type of H with
         | bind ?m _ = _ => destruct m; cbn [bind] in H; [| discriminate]
         end.
  injection H as <-. repeat split.
Qed.

(** X19. In every summary that [calculate_team_salary_cap] returns,
    [total_cap_used] is the sum of the cap hits of the listed contracts,
    added in the order of the list; [top_51_cap_used] is the same number,
    whatever the number of contracts; every listed cap hit is positive; and
    no more contracts are listed than the team has active rows. *)
Theorem team_cap_details_add_up (self : SalaryCapService) (db : Ledger) (team : Z)
    (year : option Z) (info : TeamCap) :
  calculate_team_salary_cap self db team year = Ret info ->
  py_sum (map cd_cap_hit (tc_contracts info)) = Ret (tc_total_cap_used info) /\
  tc_top_51_cap_used info = tc_total_cap_used info /\
  Forall (fun d => num_gtb (cd_cap_hit d) (PyInt 0) = true) (tc_contracts info) /\
  (List.length (tc_contracts info) <= List.length (active_rows db team))%nat.
Proof.
  intro H. destruct (team_salary_cap_parts _ _ _ _ _ H) as (Hloop & Htop & _).
  apply cap_used_loop_details in Hloop.
  destruct Hloop as (added & Hd & Hfold & Hall & Hlen).
  cbn [app] in Hd. subst added.
  repeat split; assumption.
Qed.

Lemma team_cap_details_add_up_witness :
  exists info,
    calculate_team_salary_cap service_2024 league 1 None = Ret info /\
    py_sum (map cd_cap_hit (tc_contracts info)) = Ret (tc_total_cap_used info) /\
    tc_total_cap_used info = PyInt 11000000.
Proof.
  destruct (calculate_team_salary_cap service_2024 league 1 None)
    as [info | e] eqn:E; [| vm_compute in E; discriminate E].
  exists info. split; [reflexivity |].
  split; [exact (proj1 (team_cap_details_add_up _ _ _ _ _ E)) |].
  vm_compute in E. injection E as <-. reflexivity.
Defined.

(** ** The position breakdown of the cap summary *)

Lemma position_cap_add_ints (d : list (string * num)) (pos : string) (z : Z) :
  forall zs,
  map snd d = map PyInt zs ->
  NoDup (map fst d) ->
  exists d' zs',
    position_cap_add d pos (PyInt z) = Ret d' /\
    map snd d' = map PyInt zs' /\
    sum_Z zs' = sum_Z zs + z /\
    NoDup (map fst d') /\
    (forall k, In k (map fst d') <-> k = pos \/ In k (map fst d)).
Proof.
  induction d as [| [k v0] rest IH]; intros zs Hzs Hnd; cbn [position_cap_add].
  - destruct zs; [| discriminate]. cbn [num_add bind].
    exists [(pos, PyInt (0 + z))], [0 + z]. cbn [map fst snd sum_Z fold_right In].
    split; [reflexivity |]. split; [reflexivity |]. split; [lia |]. split.
    + constructor; [intros [] | constructor].
    + intro k. split; [intros [H | []]; left; symmetry; exact H |].
      intros [H | []]. left. symmetry. exact H.
  - destruct zs as [| z0 zs]; [discriminate |].
    cbn [map fst snd] in Hzs, Hnd. injection Hzs as -> Hzs.
    inversion Hnd as [| ? ? Hnotin Hnd']; subst.
    destruct (String.eqb_spec k pos) as [-> | Hne].
    + cbn [num_add bind]. exists ((pos, PyInt (z0 + z)) :: rest), ((z0 + z) :: zs).
      cbn [map fst snd sum_Z fold_right In]. fold (sum_Z zs).
      split; [reflexivity |]. split; [f_equal; exact Hzs |]. split; [lia |].
      split; [exact Hnd |].
      intro k. split; [intros [H | H]; [left; symmetry; exact H | right; right; exact H] |].
      intros [H | H]; [left; symmetry; exact H | exact H].
    + destruct (IH zs Hzs Hnd') as (d' & zs' & Hadd & Hvals & Hsum & Hnd2 & Hkeys).
      rewrite Hadd. cbn [bind]. exists ((k, PyInt z0) :: d'), (z0 :: zs').
      cbn [map fst snd sum_Z fold_right In]. fold (sum_Z zs'). fold (sum_Z zs).
      split; [reflexivity |]. split; [f_equal; exact Hvals |]. split; [lia |]. split.
      * constructor; [| exact Hnd2]. intro Hin. apply Hkeys in Hin.
        destruct Hin as [-> | Hin]; [apply Hne; reflexivity | exact (Hnotin Hin)].
      * intro k0. split.
        -- intros [H | H]; [right; left; exact H |].
           apply Hkeys in H. destruct H as [H | H]; [left; exact H | right; right; exact H].
        -- intros [H | [H | H]]; [right; apply Hkeys; left; exact H | left; exact H |
                                  right; apply Hkeys; right; exact H].
Qed.

Lemma position_loop_ints (db : Ledger) (details : list ContractDetail) :
  int_cap_hits details ->
  (forall d, In d details -> query_player db (cd_player_id d) <> None) ->
  forall acc zs,
  map snd acc = map PyInt zs ->
  NoDup (map fst acc) ->
  exists d' zs',
    fold_left
      (fun acc contract =>
         d <- acc ;;
         match query_player db (cd_player_id contract) with
         | Some player => position_cap_add d (position player) (cd_cap_hit contract)
         | None => Ret d
         end)
      details (Ret acc) = Ret d' /\
    map snd d' = map PyInt zs' /\
    sum_Z zs' = sum_Z zs + sum_Z (map int_cap_hit details) /\
    NoDup (map fst d').
Proof.
  induction details as [| x rest IH]; intros Hint Hfound acc zs Hzs Hnd;
    cbn [fold_left map sum_Z fold_right].
  - exists acc, zs. repeat split; [exact Hzs | lia | exact Hnd].
  - cbn [bind].
    destruct (query_player db (cd_player_id x)) as [player |] eqn:Hq;
      [| exfalso; exact (Hfound x (or_introl eq_refl) Hq)].
    destruct (Hint x (or_introl eq_refl)) as [z Hz].
    assert (Hx : int_cap_hit x = z) by (unfold int_cap_hit; rewrite Hz; reflexivity).
    rewrite Hz.
    destruct (position_cap_add_ints acc (position player) z zs Hzs Hnd)
      as (d1 & zs1 & Hadd & Hvals & Hsum & Hnd1 & _).
    rewrite Hadd.
    destruct (IH (fun d Hd => Hint d (or_intror Hd))
                 (fun d Hd => Hfound d (or_intror Hd)) d1 zs1 Hvals Hnd1)
      as (d' & zs' & Hfold & Hvals' & Hsum' & Hnd').
    exists d', zs'. fold (sum_Z (map int_cap_hit rest)).
    repeat split; [exact Hfold | exact Hvals' | lia | exact Hnd'].
Qed.

Lemma cap_summary_breakdown (round_ndigits : float -> Z -> float)
    (self : SalaryCapService) (db : Ledger) (team : Z) (summary : CapSummary) :
  get_team_cap_summary round_ndigits self db team = Ret summary ->
  fold_left
    (fun acc contract =>
       d <- acc ;;
       match query_player db (cd_player_id contract) with
       | Some player => position_cap_add d (position player) (cd_cap_hit contract)
       | None => Ret d
       end)
    (tc_contracts (su_cap_info summary)) (Ret []) = Ret (su_position_breakdown summary).
Proof.
  unfold get_team_cap_summary. intro H.
  destruct (calculate_team_salary_cap self db team None) as [info | e];
    cbn [bind] in H; [| discriminate].
  match type of H with
  | bind ?m _ = _ => destruct m as [breakdown | e] eqn:Hb; cbn [bind] in H; [| discriminate]
  end.
  destruct (calculate_cap_efficiency round_ndigits info); cbn [bind] in H; [| discriminate].
  injection H as <-. exact Hb.
Qed.

(** X20. When the listed cap hits are ints and every listed contract's
    player is on file, the [position_breakdown] of [get_team_cap_summary]
    splits [total_cap_used] without loss: its values are ints that add up
    to the total, under one key for each position. *)
Theorem position_breakdown_adds_up (round_ndigits : float -> Z -> float)
    (self : SalaryCapService) (db : Ledger) (team : Z) (summary : CapSummary) :
  get_team_cap_summary round_ndigits self db team = Ret summary ->
  int_cap_hits (tc_contracts (su_cap_info summary)) ->
  (forall d, In d (tc_contracts (su_cap_info summary)) ->
     query_player db (cd_player_id d) <> None) ->
  exists zs,
    map snd (su_position_breakdown summary) = map PyInt zs /\
    tc_total_cap_used (su_cap_info summary) = PyInt (sum_Z zs) /\
    NoDup (map fst (su_position_breakdown summary)).
Proof.
  intros H Hint Hfound.
  pose proof (cap_summary_breakdown _ _ _ _ _ H) as Hb.
  destruct (cap_summary_parts _ _ _ _ _ H) as (Hinfo & _).
  destruct (team_salary_cap_parts _ _ _ _ _ Hinfo) as (Hloop & _).
  apply cap_used_loop_details in Hloop.
  destruct Hloop as (added & Hd & Hfold & _). cbn [app] in Hd. subst added.
  destruct (position_loop_ints db _ Hint Hfound [] [] eq_refl (NoDup_nil _))
    as (d' & zs & Hpos & Hvals & Hsum & Hnd).
  rewrite Hpos in Hb. injection Hb as Hb. rewrite <- Hb.
  exists zs. split; [exact Hvals |]. split; [| exact Hnd].
  assert (E : map cd_cap_hit (tc_contracts (su_cap_info summary))
              = map PyInt (map int_cap_hit (tc_contracts (su_cap_info summary)))).
  { rewrite map_map. apply map_ext_in. intros d Hin.
    destruct (Hint d Hin) as [z Hz]. unfold int_cap_hit. rewrite Hz. reflexivity. }
  rewrite E, py_sum_ints_from in Hfold. injection Hfold as <-.
  f_equal. cbn [sum_Z fold_right] in Hsum. lia.
Qed.

Lemma position_breakdown_adds_up_witness :
  exists summary zs,
    get_team_cap_summary (fun x _ => x) service_2024 league_on_file 1 = Ret summary /\
    map snd (su_position_breakdown summary) = map PyInt zs /\
    tc_total_cap_used (su_cap_info summary) = PyInt (sum_Z zs) /\
    map fst (su_position_breakdown summary) = ["QB"; "WR"]%string.
Proof.
  destruct (get_team_cap_summary (fun x _ => x) service_2024 league_on_file 1)
    as [summary | e] eqn:E; [| vm_compute in E; discriminate E].
  assert (Hd : map (fun d => (cd_player_id d, cd_cap_hit d))
                 (tc_contracts (su_cap_info summary))
               = [(7, PyInt 5000000); (8, PyInt 6000000)]).
  { vm_compute in E. injection E as <-. reflexivity. }
  assert (Hkeys : map fst (su_position_breakdown summary) = ["QB"; "WR"]%string).
  { vm_compute in E. injection E as <-. reflexivity. }
  assert (Hint : int_cap_hits (tc_contracts (su_cap_info summary))).
  { intros d Hin.
    apply (in_map (fun d => (cd_player_id d, cd_cap_hit d))) in Hin.
    rewrite Hd in Hin.
    destruct Hin as [H | [H | []]]; injection H as _ <-; eexists; reflexivity. }
  assert (Hfound : forall d, In d (tc_contracts (su_cap_info summary)) ->
                     query_player league_on_file (cd_player_id d) <> None).
  { intros d Hin.
    apply (in_map (fun d => (cd_player_id d, cd_cap_hit d))) in Hin.
    rewrite Hd in Hin.
    destruct Hin as [H | [H | []]]; injection H as <- _; discriminate. }
  destruct (position_breakdown_adds_up _ _ _ _ _ E Hint Hfound)
    as (zs & Hvals & Htotal & _).
  exists summary, zs. repeat split; assumption.
Defined.

(** ** Rookie contracts *)

(** X21. [create_rookie_contract] returns no contract of one or more
    years: it raises.  [KeyError] comes from the scale (a draft round
    below 1, or a scale without the round or without its year-1 figure).
    With the figure found, [datetime] raises [OverflowError] when the final
    year is no C [int] and [ValueError] when it is another year outside
    1..9999; otherwise the contract is built without a signing bonus and
    the derivation of its cap hits raises [TypeError] on [None // years].
    Rounds above 7 use the scale of round 7. *)
Theorem rookie_contract_raises (self : SalaryCapService) (now : datetime)
    (player : Player) (team draft_round draft_pick n : Z) :
  1 <= n ->
  exists e,
    create_rookie_contract self now player team draft_round draft_pick n = Raise e /\
    (forall row base_salary,
       dict_get (rookie_scale self) (Z.min draft_round 7) = Ret row ->
       dict_get row 1 = Ret base_salary ->
       let final_year := current_year self + n in
       (1 <= final_year <= 9999 -> e = TypeError) /\
       (- 2 ^ 31 <= final_year < 2 ^ 31 -> ~ 1 <= final_year <= 9999 ->
        e = ValueError) /\
       (~ - 2 ^ 31 <= final_year < 2 ^ 31 -> e = OverflowError)) /\
    ((forall row base_salary,
        dict_get (rookie_scale self) (Z.min draft_round 7) = Ret row ->
        dict_get row 1 <> Ret base_salary) ->
     e = KeyError).
Proof.
  intro Hn.
  assert (Hround : (if draft_round >? 7 then 7 else draft_round) = Z.min draft_round 7).
  { destruct (Z.gtb_spec draft_round 7); lia. }
  assert (Hkey : forall (V : Type) (d : list (Z * V)) (k : Z) (e : exn),
            dict_get d k = Raise e -> e = KeyError).
  { intros V d k e. induction d as [| [k' v] rest IH]; cbn [dict_get].
    - intro H. injection H as <-. reflexivity.
    - destruct (k' =? k); [discriminate | exact IH]. }
  unfold create_rookie_contract. rewrite Hround.
  destruct (dict_get (rookie_scale self) (Z.min draft_round 7)) as [row | e] eqn:Hrow;
    cbn [bind].
  - destruct (dict_get row 1) as [base_salary | e] eqn:Hbase; cbn [bind].
    + unfold march_first.
      destruct (Z.leb_spec (- 2 ^ 31) (current_year self + n)) as [Hc1 | Hc1];
        cbn [andb];
        [destruct (Z.ltb_spec (current_year self + n) (2 ^ 31)) as [Hc2 | Hc2] |];
        cbn [bind].
      * destruct (Z.leb_spec 1 (current_year self + n)) as [Hlo | Hlo]; cbn [andb];
          [destruct (Z.leb_spec (current_year self + n) 9999) as [Hhi | Hhi] |];
          cbn [bind].
        -- exists TypeError. split.
           ++ unfold calculate_new_contract_cap_hits.
              cbn [new_contract is_active years andb].
              destruct (Z.gtb_spec n 0) as [_ | Hbad]; [reflexivity | lia].
           ++ split; [| intro H; exfalso; exact (H row base_salary eq_refl Hbase)].
              intros row' base' _ _. cbv zeta.
              split; [reflexivity | split; intros; lia].
        -- exists ValueError. split; [reflexivity |].
           split; [| intro H; exfalso; exact (H row base_salary eq_refl Hbase)].
           intros row' base' _ _. cbv zeta.
           split; [intros; lia | split; [reflexivity | intros; lia]].
        -- exists ValueError. split; [reflexivity |].
           split; [| intro H; exfalso; exact (H row base_salary eq_refl Hbase)].
           intros row' base' _ _. cbv zeta.
           split; [intros; lia | split; [reflexivity | intros; lia]].
      * exists OverflowError. split; [reflexivity |].
        split; [| intro H; exfalso; exact (H row base_salary eq_refl Hbase)].
        intros row' base' _ _. cbv zeta.
        split; [intros; lia | split; [intros; lia | reflexivity]].
      * exists OverflowError. split; [reflexivity |].
        split; [| intro H; exfalso; exact (H row base_salary eq_refl Hbase)].
        intros row' base' _ _. cbv zeta.
        split; [intros; lia | split; [intros; lia | reflexivity]].
    + exists e. rewrite (Hkey _ _ _ _ Hbase). split; [reflexivity |].
      split; [| reflexivity].
      intros row' base' Hrow' Hbase'. injection Hrow' as <-.
      rewrite Hbase in Hbase'. discriminate Hbase'.
  - exists e. rewrite (Hkey _ _ _ _ Hrow). split; [reflexivity |].
    split; [| reflexivity].
    intros row' base' Hrow' _. discriminate Hrow'.
Qed.

Lemma rookie_contract_raises_witness :
  exists e,
    create_rookie_contract service_2024 (Clock 0) quarterback 1 9 3 4 = Raise e /\
    e = TypeError.
Proof.
  destruct (rookie_contract_raises service_2024 (Clock 0) quarterback 1 9 3 4)
    as (e & He & Hscale & _); [lia |].
  exists e. split; [exact He |].
  apply (Hscale [(1, 2000000); (2, 2100000); (3, 2200000); (4, 2300000); (5, 2400000)]
           2000000); [reflexivity | reflexivity |].
  change (current_year service_2024) with 2024. lia.
Defined.
